(** * HTML/CSS to image service: a shallow embedding and its properties

    The development follows the Python sources of the service:
    - [app/config.py]     configuration records ([Config]);
    - [app/models.py]     request and response schemas ([Models]);
    - [app/renderer.py]   [HTMLRenderer] ([Renderer]);
    - [app/s3_service.py] [S3Service] ([S3]);
    - [app/main.py]       the [generate_image] endpoint ([Main]).

    Python [str] values are modelled as [string] (sequences of 8-bit
    characters; case folding is the ASCII one, which is exact for the tests
    of the sources: no other character lower-cases to a character of the
    patterns they search), Python [int] as [Z], Python [float] as the
    primitive binary64 [float], [bytes] as [list byte]. One coroutine runs at
    a time: an [await] is a plain call.
    Methods that touch the browser, the object store, the clock or the logger
    are written in a state-and-exception monad; the answers of the outside
    world are read from an explicit environment record. *)

From Stdlib Require Import ZArith Floats Ascii String List Lia DecimalString.
From Stdlib Require Strings.Byte.
From stdpp Require Import base option gmap strings list.

Local Open Scope string_scope.

(* ===================================================================== *)
(** * Python built-ins used by the sources *)
(* ===================================================================== *)

Module Py.

(** [c.lower()] on one character. *)
Definition lower_char (c : ascii) : ascii :=
  let n := nat_of_ascii c in
  if (65 <=? n)%nat && (n <=? 90)%nat then ascii_of_nat (n + 32) else c.

(** [s.lower()]. *)
Fixpoint lower (s : string) : string :=
  match s with
  | EmptyString => EmptyString
  | String c s' => String (lower_char c) (lower s')
  end.

(** [s.startswith(p)]. *)
Fixpoint startswith (s p : string) {struct p} : bool :=
  match p, s with
  | EmptyString, _ => true
  | String _ _, EmptyString => false
  | String a p', String b s' => if Ascii.eqb a b then startswith s' p' else false
  end.

(** [sub in s]. *)
Fixpoint contains (sub s : string) : bool :=
  startswith s sub ||
  match s with
  | EmptyString => false
  | String _ s' => contains sub s'
  end.

(** [s[n:]]. *)
Fixpoint drop (n : nat) (s : string) : string :=
  match n, s with
  | O, _ => s
  | S _, EmptyString => EmptyString
  | S n', String _ s' => drop n' s'
  end.

(** [s[:n]]. *)
Fixpoint take (n : nat) (s : string) : string :=
  match n, s with
  | O, _ => EmptyString
  | S _, EmptyString => EmptyString
  | S n', String c s' => String c (take n' s')
  end.

(** [s.find(sub)], with [None] for Python's [-1]. *)
Fixpoint find (sub s : string) : option nat :=
  if startswith s sub then Some O
  else match s with
       | EmptyString => None
       | String _ s' => option_map S (find sub s')
       end.

(** [s.replace(old, new, 1)]: the leftmost occurrence only. *)
Fixpoint replace_first (old new s : string) : string :=
  if startswith s old then new ++ drop (String.length old) s
  else match s with
       | EmptyString => EmptyString
       | String c s' => String c (replace_first old new s')
       end.

(** [s.count(sub)] for a pattern that cannot overlap itself: the number of
    positions of [s] at which [sub] starts. *)
Fixpoint count (sub s : string) : nat :=
  (if startswith s sub then 1 else 0) +
  match s with
  | EmptyString => 0
  | String _ s' => count sub s'
  end.

(** Truth value of a string: [bool(s)]. *)
Definition truthy (s : string) : bool :=
  match s with EmptyString => false | _ => true end.

(** Truth value of an optional string: [None] and [""] are false. *)
Definition truthy_opt (o : option string) : bool :=
  match o with None => false | Some s => truthy s end.

(** [str(n)] for an [int]. *)
Definition str_of_Z (n : Z) : string := NilZero.string_of_int (Z.to_int n).

(** [f"{n:02d}"]: decimal, left-padded with zeros to two characters. *)
Definition fmt_02d (n : Z) : string :=
  let s := str_of_Z n in
  if (String.length s <? 2)%nat then "0" ++ s else s.

(** [x or d] for an optional [int]: [None] and [0] give the default. *)
Definition or_int (x : option Z) (d : Z) : Z :=
  match x with
  | None => d
  | Some v => if (v =? 0)%Z then d else v
  end.

(** [x or d] for an optional [float]: [None], [0.0] and [-0.0] give the
    default. *)
Definition or_float (x : option float) (d : float) : float :=
  match x with
  | None => d
  | Some v => if PrimFloat.eqb v 0%float then d else v
  end.

(** ** [base64.b64encode(data).decode('utf-8')] *)

Definition b64_alphabet : string :=
  "ABCDEFGHIJKLMNOPQRSTUVWXYZabcdefghijklmnopqrstuvwxyz0123456789+/".

Definition b64_char (n : N) : ascii :=
  match String.get (N.to_nat n) b64_alphabet with
  | Some c => c
  | None => "="%char
  end.

Definition sextet (n : N) (k : N) : ascii :=
  b64_char (N.land (N.shiftr n (6 * k)) 63).

Fixpoint b64encode (data : list Byte.byte) : string :=
  match data with
  | [] => ""
  | [a] =>
      let n := N.shiftl (Byte.to_N a) 16 in
      String (sextet n 3) (String (sextet n 2) "==")
  | [a; b] =>
      let n := N.lor (N.shiftl (Byte.to_N a) 16) (N.shiftl (Byte.to_N b) 8) in
      String (sextet n 3) (String (sextet n 2) (String (sextet n 1) "="))
  | a :: b :: c :: rest =>
      let n := N.lor (N.lor (N.shiftl (Byte.to_N a) 16)
                            (N.shiftl (Byte.to_N b) 8)) (Byte.to_N c) in
      String (sextet n 3) (String (sextet n 2) (String (sextet n 1)
        (String (sextet n 0) (b64encode rest))))
  end.

(** ** [os.path] and string helpers used by the file methods *)

(** [s.rfind(c)] for a one-character [c], with [None] for Python's [-1]. *)
Fixpoint rfind (c : ascii) (s : string) : option nat :=
  match s with
  | EmptyString => None
  | String d s' =>
      match rfind c s' with
      | Some i => Some (S i)
      | None => if Ascii.eqb d c then Some O else None
      end
  end.

(** Some character of [s] differs from [c]. *)
Fixpoint has_other (c : ascii) (s : string) : bool :=
  match s with
  | EmptyString => false
  | String d s' => negb (Ascii.eqb d c) || has_other c s'
  end.

(** [os.path.splitext(p)] on POSIX: the extension starts at the last dot
    of [p], when that dot comes after the last slash and after a character
    of the file name that is not a dot; otherwise it is empty. *)
Definition splitext (p : string) : string * string :=
  match rfind "." p with
  | None => (p, EmptyString)
  | Some dotIndex =>
      let filenameIndex :=
        match rfind "/" p with Some sepIndex => S sepIndex | None => O end in
      if (filenameIndex <=? dotIndex)%nat &&
         has_other "." (take (dotIndex - filenameIndex) (drop filenameIndex p))
      then (take dotIndex p, drop dotIndex p)
      else (p, EmptyString)
  end.

(** [s.lstrip(c)] for a one-character [c]. *)
Fixpoint lstrip (c : ascii) (s : string) : string :=
  match s with
  | EmptyString => EmptyString
  | String d s' => if Ascii.eqb d c then lstrip c s' else s
  end.

(** [s.endswith(c)] for a one-character [c]. *)
Fixpoint endswith_char (s : string) (c : ascii) : bool :=
  match s with
  | EmptyString => false
  | String d EmptyString => Ascii.eqb d c
  | String _ s' => endswith_char s' c
  end.

(** [os.path.join(a, b)] on POSIX. *)
Definition path_join (a b : string) : string :=
  if startswith b "/" then b
  else if negb (truthy a) || endswith_char a "/" then a ++ b
  else a ++ "/" ++ b.

End Py.

(* ===================================================================== *)
(** * Values shared by the modules *)
(* ===================================================================== *)

Definition bytes := list Byte.byte.

(** The exception classes the sources raise, catch or let through. All of
    them derive from [Exception]. [ClientError] and [NoCredentialsError] are
    botocore's; the [code] of a [ClientError] is the entry
    [response["Error"]["Code"]] when the response has one. [PlaywrightError]
    and [TimeoutError] are playwright's, the latter for a load or a capture
    that passes its deadline. *)
Inductive exn :=
| ValueError (msg : string)
| ClientError (code : option string) (msg : string)
| NoCredentialsError
| PlaywrightError (msg : string)
| TimeoutError (msg : string)
| HTTPException (status_code : Z) (detail : string)
| OtherException (msg : string).

(** [str(e)]. *)
Definition str_exn (e : exn) : string :=
  match e with
  | ValueError m | ClientError _ m | PlaywrightError m | TimeoutError m
  | OtherException m => m
  | NoCredentialsError => "Unable to locate credentials"
  | HTTPException c d => Py.str_of_Z c ++ ": " ++ d
  end.

(** [e.response.get("Error", {}).get("Code", "Unknown")]. *)
Definition error_code (code : option string) : string :=
  match code with Some c => c | None => "Unknown" end.

Inductive result (A : Type) :=
| Ok (a : A)
| Raise (e : exn).
Arguments Ok {A} a.
Arguments Raise {A} e.

(** Values stored in the [Dict[str, Any]] metadata of a response. *)
Inductive pyval :=
| VInt (n : Z)
| VFloat (x : float)
| VStr (s : string).

(** [datetime] values as returned by [datetime.utcnow()]. *)
Record datetime := {
  year : Z; month : Z; day : Z;
  hour : Z; minute : Z; second : Z; microsecond : Z
}.

(** Left padding with zeros, for the non-negative fields of a [datetime]. *)
Fixpoint zeros (n : nat) : string :=
  match n with O => "" | S n' => String "0" (zeros n') end.

Definition zpad (w : nat) (n : Z) : string :=
  let s := Py.str_of_Z n in zeros (w - String.length s) ++ s.

(** [d.isoformat()]. *)
Definition isoformat (d : datetime) : string :=
  zpad 4 (year d) ++ "-" ++ zpad 2 (month d) ++ "-" ++ zpad 2 (day d) ++ "T" ++
  zpad 2 (hour d) ++ ":" ++ zpad 2 (minute d) ++ ":" ++ zpad 2 (second d) ++
  (if (microsecond d =? 0)%Z then "" else "." ++ zpad 6 (microsecond d)).

(* ===================================================================== *)
(** * app/config.py *)
(* ===================================================================== *)

Module Config.

Record AWSConfig := {
  access_key_id : string;
  secret_access_key : string;
  region : string;
  bucket_name : string;
  endpoint_url : option string
}.

Record RenderConfig := {
  default_width : Z;
  default_height : Z;
  default_quality : Z;
  default_scale : float;
  temp_dir : string;
  max_width : Z;
  max_height : Z
}.

Record AppConfig := {
  app_name : string;
  app_version : string;
  debug : bool;
  log_dir : string
}.

(** [render_config = RenderConfig()]: the class defaults. *)
Definition render_config : RenderConfig := {|
  default_width := 1024;
  default_height := 768;
  default_quality := 100;
  default_scale := 1%float;
  temp_dir := "/home/ubuntu/html-to-image-api/temp";
  max_width := 4096;
  max_height := 4096
|}.

(** [AWSConfig()] when no environment variable is set. *)
Definition aws_config_unset : AWSConfig := {|
  access_key_id := "";
  secret_access_key := "";
  region := "us-east-1";
  bucket_name := "";
  endpoint_url := None
|}.

End Config.

(* ===================================================================== *)
(** * app/models.py *)
(* ===================================================================== *)

Module Models.

Inductive ResponseFormat := URL | BASE64 | BOTH.

Record ImageGenerateRequest := {
  html : string;
  css : option string;
  width : Z;
  height : Z;
  scale : float;
  full_page : bool;
  transparent : bool;
  response_format : ResponseFormat
}.

Record ImageGenerateResponse := {
  success : bool;
  url : option string;
  base64 : option string;
  metadata : gmap string pyval
}.

Record ErrorResponse := {
  err_success : bool;
  error : string;
  message : string;
  details : option (gmap string pyval)
}.

(** [ErrorResponse(error=e, message=m)]: the other fields take their
    defaults. *)
Definition mkErrorResponse (e m : string) : ErrorResponse :=
  {| err_success := false; error := e; message := m; details := None |}.

Record HealthResponse := {
  status : string;
  version : string;
  services : gmap string string
}.

(** The numeric [Field] constraints of [ImageGenerateRequest]: [ge=1] and
    [le=4096] on the two dimensions, [ge=0.1] and [le=3.0] on the scale (0.1
    is the binary64 number nearest to one tenth, as in Python). *)
Definition fields_in_range (r : ImageGenerateRequest) : bool :=
  (1 <=? width r)%Z && (width r <=? 4096)%Z &&
  (1 <=? height r)%Z && (height r <=? 4096)%Z &&
  PrimFloat.leb 0x1.999999999999ap-4%float (scale r) &&
  PrimFloat.leb (scale r) 3%float.

End Models.

(* ===================================================================== *)
(** * The outside world: browser engine, object store, clock, logger *)
(* ===================================================================== *)

(** Arguments of a [put_object] call ([extra_args] in the source). *)
Inductive s3arg :=
| AStr (s : string)
| AMeta (m : gmap string string).

(** Values of the [screenshot_options] dictionary. *)
Inductive shotopt :=
| OStr (s : string)
| OBool (b : bool).

(** Calls made to the external capabilities, recorded when they are made
    (before their outcome is known). *)
Inductive event :=
| EvPlaywrightStart
| EvLaunch (args : list string)
| EvNewPage (browser : nat) (w h : Z) (scale : float)
| EvSetContent (page : nat) (doc wait_until : string)
| EvSleep
| EvScreenshot (page : nat) (opts : gmap string shotopt)
| EvPageClose (page : nat)
| EvBrowserClose (browser : nat)
| EvPlaywrightStop (driver : nat)
| EvBoto3Client (cfg : gmap string string)
| EvPutObject (bucket key : string) (body : bytes) (extra : gmap string s3arg)
| EvDeleteObject (bucket key : string)
| EvHeadBucket (bucket : string)
| EvUtcNow
| EvUuid4.

Inductive level := INFO | WARNING | ERROR.

(** One constructor per [logger] call of the sources, with the values its
    message interpolates. *)
Inductive log_msg :=
| BrowserStarted
| BrowserClosed
| DimensionsAdjusted (w h vw vh : Z)
| RenderStart (w h : Z) (scale : float) (full_page transparent : bool)
| RenderDone (size : nat)
| RenderError (e : string)
| S3ClientInit (region : string)
| UploadStart (bucket key : string)
| UploadDone (url : string)
| UploadError (code e : string)
| ObjectRemoved (bucket key : string)
| RemoveError (e : string)
| BucketChecked (bucket : string)
| BucketCheckError (code e : string)
| NoCredentials
| RequestReceived (w h : Z) (fmt : Models.ResponseFormat)
| ImageGenerated (size : nat)
| GenerateError (e : string)
| PreviewError (e : string)
| UnhandledError (e : string).

Inductive log_record := Log (l : level) (m : log_msg).

(** The mutable state: the two module-level singletons ([renderer] and
    [s3_service]), the engine processes and pages that exist, and what has
    been called and logged so far. *)
Record world := {
  renderer_browser : option nat;     (* renderer._browser *)
  renderer_playwright : option nat;  (* renderer._playwright *)
  s3_client : option nat;            (* s3_service._client *)
  connected : gset nat;              (* browsers whose is_connected() holds *)
  pages : gset nat;                  (* pages opened and not yet closed *)
  next_id : nat;                     (* source of fresh handles *)
  trace : list event;
  log : list log_record
}.

(** How the outside answers during one call. *)
Record env := {
  playwright_start_error : option exn;
  launch_error : option exn;
  new_page_error : option exn;
  set_content_error : option exn;
  screenshot_result : result bytes;
  page_close_error : option exn;
  browser_close_error : option exn;
  playwright_stop_error : option exn;
  boto3_client_error : option exn;
  put_object_error : option exn;
  delete_object_error : option exn;
  head_bucket_error : option exn;
  utcnow : datetime;
  uuid4_hex : string
}.

Definition with_renderer_browser (b : option nat) (w : world) : world :=
  {| renderer_browser := b; renderer_playwright := renderer_playwright w;
     s3_client := s3_client w; connected := connected w; pages := pages w;
     next_id := next_id w; trace := trace w; log := log w |}.

Definition with_renderer_playwright (p : option nat) (w : world) : world :=
  {| renderer_browser := renderer_browser w; renderer_playwright := p;
     s3_client := s3_client w; connected := connected w; pages := pages w;
     next_id := next_id w; trace := trace w; log := log w |}.

Definition with_s3_client (c : option nat) (w : world) : world :=
  {| renderer_browser := renderer_browser w;
     renderer_playwright := renderer_playwright w;
     s3_client := c; connected := connected w; pages := pages w;
     next_id := next_id w; trace := trace w; log := log w |}.

Definition with_connected (s : gset nat) (w : world) : world :=
  {| renderer_browser := renderer_browser w;
     renderer_playwright := renderer_playwright w;
     s3_client := s3_client w; connected := s; pages := pages w;
     next_id := next_id w; trace := trace w; log := log w |}.

Definition with_pages (s : gset nat) (w : world) : world :=
  {| renderer_browser := renderer_browser w;
     renderer_playwright := renderer_playwright w;
     s3_client := s3_client w; connected := connected w; pages := s;
     next_id := next_id w; trace := trace w; log := log w |}.

Definition with_next_id (n : nat) (w : world) : world :=
  {| renderer_browser := renderer_browser w;
     renderer_playwright := renderer_playwright w;
     s3_client := s3_client w; connected := connected w; pages := pages w;
     next_id := n; trace := trace w; log := log w |}.

Definition with_trace (t : list event) (w : world) : world :=
  {| renderer_browser := renderer_browser w;
     renderer_playwright := renderer_playwright w;
     s3_client := s3_client w; connected := connected w; pages := pages w;
     next_id := next_id w; trace := t; log := log w |}.

Definition with_log (l : list log_record) (w : world) : world :=
  {| renderer_browser := renderer_browser w;
     renderer_playwright := renderer_playwright w;
     s3_client := s3_client w; connected := connected w; pages := pages w;
     next_id := next_id w; trace := trace w; log := l |}.

(** The state of a freshly imported application: nothing cached, nothing
    running. *)
Definition initial_world : world :=
  {| renderer_browser := None; renderer_playwright := None; s3_client := None;
     connected := ∅; pages := ∅; next_id := 0; trace := []; log := [] |}.

(** ** The monad of the methods *)

Definition M (A : Type) : Type := world -> result A * world.

Definition ret {A} (a : A) : M A := fun w => (Ok a, w).

Definition raise {A} (e : exn) : M A := fun w => (Raise e, w).

Definition bind {A B} (m : M A) (k : A -> M B) : M B :=
  fun w => match m w with
           | (Ok a, w') => k a w'
           | (Raise e, w') => (Raise e, w')
           end.

(** [try: body / except Exception as e: handler e]. What [body] did to the
    world before raising stays done. *)
Definition try_except {A} (body : M A) (handler : exn -> M A) : M A :=
  fun w => match body w with
           | (Ok a, w') => (Ok a, w')
           | (Raise e, w') => handler e w'
           end.

Declare Scope py_scope.
Delimit Scope py_scope with py.
Notation "x <- m ;; k" := (bind m (fun x => k))
  (at level 20, m at level 99, k at level 200, right associativity) : py_scope.
Notation "m ;; k" := (bind m (fun _ => k))
  (at level 100, k at level 200, right associativity) : py_scope.
Local Open Scope py_scope.

Definition get_world : M world := fun w => (Ok w, w).

Definition modify (f : world -> world) : M unit := fun w => (Ok tt, f w).

Definition emit (e : event) : M unit := modify (fun w => with_trace (trace w ++ [e]) w).

Definition logger (l : level) (m : log_msg) : M unit :=
  modify (fun w => with_log (log w ++ [Log l m]) w).

Definition fresh : M nat :=
  fun w => (Ok (next_id w), with_next_id (S (next_id w)) w).

Definition fail_if (o : option exn) : M unit :=
  match o with Some e => raise e | None => ret tt end.

(** [datetime.utcnow()]. *)
Definition datetime_utcnow (E : env) : M datetime :=
  emit EvUtcNow ;; ret (utcnow E).

(** [uuid.uuid4().hex]. *)
Definition uuid4 (E : env) : M string :=
  emit EvUuid4 ;; ret (uuid4_hex E).

(** ** Local files *)

(** The two file methods, [render_to_file] and [upload_file], also read and
    write local files. Files are kept by path in a flat map; a failure of the
    operating system is an outcome supplied from outside, as for the engine
    and the store; a write that fails after the file has been opened is not
    modelled. The two log records of these methods are kept in a list of
    their own. *)
Inductive file_log_msg :=
| ImageSaved (path : string)
| LocalFileRemoved (path : string).

Record fs := {
  files : gmap string bytes;
  file_log : list file_log_msg
}.

Record fs_env := {
  read_error : option string;     (* open(path, "rb") or read() fails *)
  write_error : option string;    (* open(path, "wb") fails *)
  remove_error : option string    (* os.remove(path) fails *)
}.

(** What a file method raises: its own [FileNotFoundError], an [OSError] of
    the file system, or an exception of the method it calls. *)
Inductive file_exn :=
| FileNotFoundError (msg : string)
| OSError (msg : string)
| Upstream (e : exn).

Inductive fresult (A : Type) :=
| FOk (a : A)
| FRaise (e : file_exn).
Arguments FOk {A} a.
Arguments FRaise {A} e.

Definition FM (A : Type) : Type := fs -> world -> fresult A * fs * world.

(* ===================================================================== *)
(** * app/renderer.py *)
(* ===================================================================== *)

Module Renderer.

(** The double quote and the line feed, for the literal of the template. *)
Definition dq : string := String "034"%char "".
Definition nl : string := String "010"%char "".

(** The three literal parts of the f-string of [_build_html_document],
    around [{css_block}] and [{html_content}]. *)
Definition skeleton_head : string :=
  "<!DOCTYPE html>" ++ nl ++
  "<html lang=" ++ dq ++ "pt-BR" ++ dq ++ ">" ++ nl ++
  "<head>" ++ nl ++
  "    <meta charset=" ++ dq ++ "UTF-8" ++ dq ++ ">" ++ nl ++
  "    <meta name=" ++ dq ++ "viewport" ++ dq ++ " content=" ++ dq ++
    "width=device-width, initial-scale=1.0" ++ dq ++ ">" ++ nl ++
  "    ".

Definition skeleton_mid : string :=
  nl ++ "</head>" ++ nl ++
  "<body style=" ++ dq ++ "margin: 0; padding: 0;" ++ dq ++ ">" ++ nl ++
  "    ".

Definition skeleton_tail : string :=
  nl ++ "</body>" ++ nl ++ "</html>".

(** The [css_block] local of [_build_html_document]. *)
Definition css_block (css_content : option string) : string :=
  match css_content with
  | Some c => if Py.truthy c then "<style>" ++ c ++ "</style>" else ""
  | None => ""
  end.

(** The test of line 123: the fragment is taken for a complete document. *)
Definition is_full_document (html_content : string) : bool :=
  Py.contains "<html" (Py.lower html_content) ||
  Py.contains "<!doctype" (Py.lower html_content).

Definition _build_html_document
    (html_content : string) (css_content : option string) : string :=
  let css_block := css_block css_content in
  if is_full_document html_content then
    if Py.truthy_opt css_content then
      if Py.contains "<head>" (Py.lower html_content) then
        Py.replace_first "</head>" (css_block ++ "</head>") html_content
      else
        Py.replace_first "<html>" ("<html><head>" ++ css_block ++ "</head>")
          html_content
    else html_content
  else
    skeleton_head ++ css_block ++ skeleton_mid ++ html_content ++ skeleton_tail.

Definition launch_args : list string :=
  [ "--no-sandbox"; "--disable-setuid-sandbox"; "--disable-dev-shm-usage";
    "--disable-gpu"; "--font-render-hinting=none" ].

Section WithEnv.

Variable rc : Config.RenderConfig.
Variable E : env.

(** *** The engine capability (playwright) *)

Definition async_playwright_start : M nat :=
  emit EvPlaywrightStart ;;
  fail_if (playwright_start_error E) ;;
  fresh.

Definition chromium_launch (args : list string) : M nat :=
  emit (EvLaunch args) ;;
  fail_if (launch_error E) ;;
  b <- fresh ;;
  modify (fun w => with_connected ({[ b ]} ∪ connected w) w) ;;
  ret b.

Definition is_connected (b : nat) : M bool :=
  w <- get_world ;; ret (bool_decide (b ∈ connected w)).

Definition new_page (b : nat) (width height : Z) (scale : float) : M nat :=
  emit (EvNewPage b width height scale) ;;
  fail_if (new_page_error E) ;;
  p <- fresh ;;
  modify (fun w => with_pages ({[ p ]} ∪ pages w) w) ;;
  ret p.

Definition set_content (p : nat) (doc wait_until : string) : M unit :=
  emit (EvSetContent p doc wait_until) ;;
  fail_if (set_content_error E).

Definition screenshot (p : nat) (opts : gmap string shotopt) : M bytes :=
  emit (EvScreenshot p opts) ;;
  match screenshot_result E with
  | Ok data => ret data
  | Raise e => raise e
  end.

Definition page_close (p : nat) : M unit :=
  emit (EvPageClose p) ;;
  fail_if (page_close_error E) ;;
  modify (fun w => with_pages (pages w ∖ {[ p ]}) w).

Definition browser_close (b : nat) : M unit :=
  emit (EvBrowserClose b) ;;
  fail_if (browser_close_error E) ;;
  modify (fun w => with_connected (connected w ∖ {[ b ]}) w).

Definition playwright_stop (d : nat) : M unit :=
  emit (EvPlaywrightStop d) ;;
  fail_if (playwright_stop_error E).

(** *** [HTMLRenderer] *)

Definition _get_browser : M nat :=
  w <- get_world ;;
  stale <- match renderer_browser w with
           | None => ret true
           | Some b => c <- is_connected b ;; ret (negb c)
           end ;;
  (if stale : bool then
     d <- async_playwright_start ;;
     modify (with_renderer_playwright (Some d)) ;;
     b <- chromium_launch launch_args ;;
     modify (with_renderer_browser (Some b)) ;;
     logger INFO BrowserStarted
   else ret tt) ;;
  w' <- get_world ;;
  match renderer_browser w' with
  | Some b => ret b
  | None => raise (OtherException "unreachable: browser not set")
  end.

Definition close : M unit :=
  w <- get_world ;;
  match renderer_browser w with
  | Some b => browser_close b ;; modify (with_renderer_browser None)
  | None => ret tt
  end ;;
  w <- get_world ;;
  match renderer_playwright w with
  | Some d => playwright_stop d ;; modify (with_renderer_playwright None)
  | None => ret tt
  end ;;
  logger INFO BrowserClosed.

Definition _validate_dimensions (width height : Z) : M (Z * Z) :=
  let validated_width := Z.max 1 (Z.min width (Config.max_width rc)) in
  let validated_height := Z.max 1 (Z.min height (Config.max_height rc)) in
  (if negb (validated_width =? width)%Z || negb (validated_height =? height)%Z
   then logger WARNING
          (DimensionsAdjusted width height validated_width validated_height)
   else ret tt) ;;
  ret (validated_width, validated_height).

(** The [screenshot_options] dictionary of lines 213-219. *)
Definition screenshot_options (full_page transparent : bool)
  : gmap string shotopt :=
  let opts : gmap string shotopt :=
    <[ "full_page" := OBool full_page ]> {[ "type" := OStr "png" ]} in
  if transparent then <[ "omit_background" := OBool true ]> opts else opts.

Definition render_to_image
    (html_content : string) (css_content : option string)
    (width height : option Z) (scale : option float)
    (full_page transparent : bool) : M bytes :=
  let width := Py.or_int width (Config.default_width rc) in
  let height := Py.or_int height (Config.default_height rc) in
  let scale := Py.or_float scale (Config.default_scale rc) in
  wh <- _validate_dimensions width height ;;
  let '(width, height) := wh in
  logger INFO (RenderStart width height scale full_page transparent) ;;
  try_except
    (browser <- _get_browser ;;
     page <- new_page browser width height scale ;;
     let full_html := _build_html_document html_content css_content in
     set_content page full_html "networkidle" ;;
     emit EvSleep ;;
     image_bytes <- screenshot page (screenshot_options full_page transparent) ;;
     page_close page ;;
     logger INFO (RenderDone (length image_bytes)) ;;
     ret image_bytes)
    (fun e => logger ERROR (RenderError (str_exn e)) ;; raise e).

Variable FE : fs_env.

Definition render_to_file
    (html_content : string) (css_content : option string)
    (output_path : option string)
    (width height : option Z) (scale : option float)
    (full_page transparent : bool) : FM string :=
  fun f w =>
    let '(output_path, w0) :=
      match output_path with
      | Some p =>
          if Py.truthy p then (p, w)
          else (Py.path_join (Config.temp_dir rc) (uuid4_hex E ++ ".png"),
                snd (uuid4 E w))
      | None => (Py.path_join (Config.temp_dir rc) (uuid4_hex E ++ ".png"),
                 snd (uuid4 E w))
      end in
    match render_to_image html_content css_content width height scale
            full_page transparent w0 with
    | (Raise e, w1) => (FRaise (Upstream e), f, w1)
    | (Ok image_bytes, w1) =>
        match write_error FE with
        | Some m => (FRaise (OSError m), f, w1)
        | None =>
            (FOk output_path,
             {| files := <[ output_path := image_bytes ]> (files f);
                file_log := file_log f ++ [ImageSaved output_path] |},
             w1)
        end
    end.

End WithEnv.

End Renderer.

(* ===================================================================== *)
(** * app/s3_service.py *)
(* ===================================================================== *)

Module S3.

(** The dictionary returned by [upload_bytes]; its keys are fixed. *)
Record UploadResult := {
  key : string;
  url : string;
  bucket : string;
  size : nat;
  content_type : string
}.

(** The f-string of [_generate_key]. *)
Definition key_of (prefix extension : string) (now : datetime)
    (unique_id : string) : string :=
  prefix ++ "/" ++ Py.str_of_Z (year now) ++ "/" ++ Py.fmt_02d (month now) ++
  "/" ++ Py.fmt_02d (day now) ++ "/" ++ unique_id ++ "." ++ extension.

Section WithEnv.

Variable aws_config : Config.AWSConfig.
Variable E : env.

(** [__init__] copies these two from the configuration. *)
Definition _bucket_name : string := Config.bucket_name aws_config.
Definition _region : string := Config.region aws_config.

(** *** The object-store capability (boto3) *)

Definition boto3_client (cfg : gmap string string) : M nat :=
  emit (EvBoto3Client cfg) ;;
  fail_if (boto3_client_error E) ;;
  fresh.

Definition put_object (client : nat) (bucket key : string) (body : bytes)
    (extra : gmap string s3arg) : M unit :=
  emit (EvPutObject bucket key body extra) ;;
  fail_if (put_object_error E).

Definition client_delete_object (client : nat) (bucket key : string) : M unit :=
  emit (EvDeleteObject bucket key) ;;
  fail_if (delete_object_error E).

Definition head_bucket (client : nat) (bucket : string) : M unit :=
  emit (EvHeadBucket bucket) ;;
  fail_if (head_bucket_error E).

(** *** [S3Service] *)

Definition _get_client : M nat :=
  w <- get_world ;;
  match s3_client w with
  | Some c => ret c
  | None =>
      let client_config : gmap string string :=
        <[ "region_name" := _region ]> {[ "service_name" := "s3" ]} in
      let client_config :=
        if Py.truthy (Config.access_key_id aws_config) &&
           Py.truthy (Config.secret_access_key aws_config)
        then <[ "aws_secret_access_key" := Config.secret_access_key aws_config ]>
               (<[ "aws_access_key_id" := Config.access_key_id aws_config ]>
                  client_config)
        else client_config in
      let client_config :=
        match Config.endpoint_url aws_config with
        | Some u => if Py.truthy u then <[ "endpoint_url" := u ]> client_config
                    else client_config
        | None => client_config
        end in
      c <- boto3_client client_config ;;
      modify (with_s3_client (Some c)) ;;
      logger INFO (S3ClientInit _region) ;;
      ret c
  end.

Definition _generate_key (prefix extension : string) : M string :=
  now <- datetime_utcnow E ;;
  unique_id <- uuid4 E ;;
  ret (key_of prefix extension now unique_id).

Definition _get_public_url (key : string) : string :=
  match Config.endpoint_url aws_config with
  | Some u =>
      if Py.truthy u then u ++ "/" ++ _bucket_name ++ "/" ++ key
      else "https://" ++ _bucket_name ++ ".s3." ++ _region ++
           ".amazonaws.com/" ++ key
  | None =>
      "https://" ++ _bucket_name ++ ".s3." ++ _region ++
      ".amazonaws.com/" ++ key
  end.

(** Truth value of the optional [metadata] dictionary. *)
Definition truthy_dict (m : option (gmap string string)) : bool :=
  match m with
  | Some d => negb (bool_decide (d = ∅))
  | None => false
  end.

Definition upload_bytes (data : bytes) (content_type prefix extension : string)
    (metadata : option (gmap string string)) (make_public : bool)
  : M UploadResult :=
  if negb (Py.truthy _bucket_name) then
    raise (ValueError
      "Bucket S3 não configurado. Defina a variável de ambiente AWS_S3_BUCKET")
  else
    client <- _get_client ;;
    key <- _generate_key prefix extension ;;
    logger INFO (UploadStart _bucket_name key) ;;
    try_except
      (let extra_args : gmap string s3arg :=
         {[ "ContentType" := AStr content_type ]} in
       let extra_args :=
         match metadata with
         | Some d => if truthy_dict metadata
                     then <[ "Metadata" := AMeta d ]> extra_args
                     else extra_args
         | None => extra_args
         end in
       let extra_args :=
         if make_public then <[ "ACL" := AStr "public-read" ]> extra_args
         else extra_args in
       put_object client _bucket_name key data extra_args ;;
       let url := _get_public_url key in
       logger INFO (UploadDone url) ;;
       ret {| key := key; url := url; bucket := _bucket_name;
              size := length data; content_type := content_type |})
      (fun e =>
         match e with
         | ClientError code _ =>
             logger ERROR (UploadError (error_code code) (str_exn e)) ;;
             raise e
         | _ => raise e
         end).

Variable FE : fs_env.

Definition upload_file (file_path content_type prefix : string)
    (make_public delete_after : bool) : FM UploadResult :=
  fun f w =>
    match files f !! file_path with
    | None =>
        (FRaise (FileNotFoundError ("Arquivo não encontrado: " ++ file_path)), f, w)
    | Some data =>
        let extension := Py.lstrip "." (snd (Py.splitext file_path)) in
        match read_error FE with
        | Some m => (FRaise (OSError m), f, w)
        | None =>
            match upload_bytes data content_type prefix extension None
                    make_public w with
            | (Raise e, w1) => (FRaise (Upstream e), f, w1)
            | (Ok result, w1) =>
                if delete_after then
                  match remove_error FE with
                  | Some m => (FRaise (OSError m), f, w1)
                  | None =>
                      (FOk result,
                       {| files := delete file_path (files f);
                          file_log := file_log f ++ [LocalFileRemoved file_path] |},
                       w1)
                  end
                else (FOk result, f, w1)
            end
        end
    end.

Definition delete_object (key : string) : M bool :=
  client <- _get_client ;;
  try_except
    (client_delete_object client _bucket_name key ;;
     logger INFO (ObjectRemoved _bucket_name key) ;;
     ret true)
    (fun e =>
       match e with
       | ClientError _ _ =>
           logger ERROR (RemoveError (str_exn e)) ;;
           ret false
       | _ => raise e
       end).

Definition check_connection : M bool :=
  try_except
    (client <- _get_client ;;
     head_bucket client _bucket_name ;;
     logger INFO (BucketChecked _bucket_name) ;;
     ret true)
    (fun e =>
       match e with
       | ClientError code _ =>
           logger ERROR (BucketCheckError (error_code code) (str_exn e)) ;;
           ret false
       | NoCredentialsError =>
           logger ERROR NoCredentials ;;
           ret false
       | _ => raise e
       end).

End WithEnv.

End S3.

(* ===================================================================== *)
(** * app/main.py *)
(* ===================================================================== *)

Module Main.

Import Models.

(** What the HTTP layer sends back for one request. *)
Inductive http_response :=
| Response200 (body : ImageGenerateResponse)
| JSONResponse (status_code : Z) (content : ErrorResponse).

Definition wants_base64 (f : ResponseFormat) : bool :=
  match f with BASE64 | BOTH => true | URL => false end.

Definition wants_url (f : ResponseFormat) : bool :=
  match f with URL | BOTH => true | BASE64 => false end.

Section WithEnv.

Variable aws_config : Config.AWSConfig.
Variable rc : Config.RenderConfig.
Variable E : env.

Definition generate_image (request : ImageGenerateRequest)
  : M ImageGenerateResponse :=
  logger INFO (RequestReceived (width request) (height request)
                 (response_format request)) ;;
  try_except
    (image_bytes <- Renderer.render_to_image rc E
        (html request) (css request)
        (Some (width request)) (Some (height request)) (Some (scale request))
        (full_page request) (transparent request) ;;
     now <- datetime_utcnow E ;;
     let meta : gmap string pyval :=
       <[ "generated_at" := VStr (isoformat now) ]>
       (<[ "content_type" := VStr "image/png" ]>
       (<[ "size_bytes" := VInt (Z.of_nat (length image_bytes)) ]>
       (<[ "scale" := VFloat (scale request) ]>
       (<[ "height" := VInt (height request) ]>
       {[ "width" := VInt (width request) ]})))) in
     let response_data :=
       {| success := true; url := None; base64 := None; metadata := meta |} in
     let response_data :=
       if wants_base64 (response_format request) then
         {| success := success response_data;
            url := url response_data;
            base64 := Some ("data:image/png;base64," ++ Py.b64encode image_bytes);
            metadata := metadata response_data |}
       else response_data in
     response_data <-
       (if wants_url (response_format request) then
          if negb (Py.truthy (Config.bucket_name aws_config)) then
            raise (HTTPException 500
              "Bucket S3 não configurado. Configure a variável AWS_S3_BUCKET")
          else
            upload_result <- S3.upload_bytes aws_config E image_bytes
                "image/png" "images" "png"
                (Some (<[ "height" := Py.str_of_Z (height request) ]>
                         {[ "width" := Py.str_of_Z (width request) ]}))
                true ;;
            ret {| success := success response_data;
                   url := Some (S3.url upload_result);
                   base64 := base64 response_data;
                   metadata :=
                     <[ "s3_bucket" := VStr (S3.bucket upload_result) ]>
                     (<[ "s3_key" := VStr (S3.key upload_result) ]>
                        (metadata response_data)) |}
        else ret response_data) ;;
     logger INFO (ImageGenerated (length image_bytes)) ;;
     ret response_data)
    (fun e =>
       match e with
       | HTTPException _ _ => raise e
       | _ =>
           logger ERROR (GenerateError (str_exn e)) ;;
           raise (HTTPException 500 ("Erro ao gerar imagem: " ++ str_exn e))
       end).

Definition generate_preview (request : ImageGenerateRequest)
  : M ImageGenerateResponse :=
  try_except
    (image_bytes <- Renderer.render_to_image rc E
        (html request) (css request)
        (Some (width request)) (Some (height request)) (Some (scale request))
        (full_page request) (transparent request) ;;
     now <- datetime_utcnow E ;;
     ret {| success := true;
            url := None;
            base64 := Some ("data:image/png;base64," ++ Py.b64encode image_bytes);
            metadata :=
              <[ "generated_at" := VStr (isoformat now) ]>
              (<[ "content_type" := VStr "image/png" ]>
              (<[ "size_bytes" := VInt (Z.of_nat (length image_bytes)) ]>
              (<[ "scale" := VFloat (scale request) ]>
              (<[ "height" := VInt (height request) ]>
              {[ "width" := VInt (width request) ]})))) |})
    (fun e =>
       logger ERROR (PreviewError (str_exn e)) ;;
       raise (HTTPException 500 ("Erro ao gerar preview: " ++ str_exn e))).

(** [http_exception_handler]. *)
Definition http_exception_handler (status_code : Z) (detail : string)
  : http_response :=
  JSONResponse status_code (mkErrorResponse "HTTP_ERROR" detail).

(** [general_exception_handler]. *)
Definition general_exception_handler (exc : exn) : world -> http_response * world :=
  fun w =>
    (JSONResponse 500
       (mkErrorResponse "INTERNAL_ERROR" "Ocorreu um erro interno no servidor"),
     with_log (log w ++ [Log ERROR (UnhandledError (str_exn exc))]) w).

(** The route [POST /api/v1/generate]: the endpoint function under the two
    registered exception handlers. *)
Definition post_generate (request : ImageGenerateRequest)
  : world -> http_response * world :=
  fun w =>
    match generate_image request w with
    | (Ok body, w') => (Response200 body, w')
    | (Raise (HTTPException c d), w') => (http_exception_handler c d, w')
    | (Raise e, w') => general_exception_handler e w'
    end.

Variable app_config : Config.AppConfig.

(** [health_check]: the route [GET /api/v1/health]. *)
Definition health_check : M HealthResponse :=
  let services : gmap string string :=
    <[ "s3" := "not_configured" ]> {[ "renderer" := "ok" ]} in
  services <-
    (if Py.truthy (Config.bucket_name aws_config) then
       try_except
         (ok <- S3.check_connection aws_config E ;;
          ret (if ok : bool then <[ "s3" := "ok" ]> services
               else <[ "s3" := "error" ]> services))
         (fun _ => ret (<[ "s3" := "error" ]> services))
     else ret services) ;;
  let status :=
    if bool_decide (services !! "s3" = Some "error") then "degraded"
    else "healthy" in
  ret {| status := status;
         version := Config.app_version app_config;
         services := services |}.

End WithEnv.

End Main.

(* ===================================================================== *)
(** * Notions used in the statements *)
(* ===================================================================== *)

Import Config Models.

(** From here on [++] is the append of lists; strings are appended with
    [+:+]. *)
Local Open Scope list_scope.

(** A dimension within its bounds. *)
Definition in_bounds (v hi : Z) : Prop := (1 <= v <= hi)%Z.

(** A computation only appends to the log. *)
Definition log_grows {A} (m : M A) : Prop :=
  forall w, exists l, log (snd (m w)) = log w ++ l.

(** No usable engine is cached: none at all, or a disconnected one. *)
Definition stale (w : world) : Prop :=
  renderer_browser w = None \/
  exists b, renderer_browser w = Some b /\ b ∉ connected w.

(** The world after a successful launch from [w]. *)
Definition launched_world (w : world) : world :=
  {| renderer_browser := Some (S (next_id w));
     renderer_playwright := Some (next_id w);
     s3_client := s3_client w;
     connected := {[ S (next_id w) ]} ∪ connected w;
     pages := pages w;
     next_id := S (S (next_id w));
     trace := (trace w ++ [EvPlaywrightStart]) ++ [EvLaunch Renderer.launch_args];
     log := log w ++ [Log INFO BrowserStarted] |}.

(** The body of the [try] of [render_to_image], for a validated viewport. *)
Definition capture_steps (E : env) (html_content : string)
    (css_content : option string) (width height : Z) (scale : float)
    (full_page transparent : bool) : M bytes :=
  (browser <- Renderer._get_browser E ;;
   page <- Renderer.new_page E browser width height scale ;;
   let full_html := Renderer._build_html_document html_content css_content in
   Renderer.set_content E page full_html "networkidle" ;;
   emit EvSleep ;;
   image_bytes <- Renderer.screenshot E page
                    (Renderer.screenshot_options full_page transparent) ;;
   Renderer.page_close E page ;;
   logger INFO (RenderDone (length image_bytes)) ;;
   ret image_bytes)%py.

(** Its [except] branch. *)
Definition log_and_reraise (e : exn) : M bytes :=
  (logger ERROR (RenderError (str_exn e)) ;; raise e)%py.

(** The viewport [render_to_image] asks for: defaults substituted, then
    clamped. *)
Definition viewport_width (rc : RenderConfig) (width : option Z) : Z :=
  Z.max 1 (Z.min (Py.or_int width (default_width rc)) (max_width rc)).

Definition viewport_height (rc : RenderConfig) (height : option Z) : Z :=
  Z.max 1 (Z.min (Py.or_int height (default_height rc)) (max_height rc)).

(** The world in which [render_to_image] enters its [try]: the adjustment
    warning, if any, and the start of the render have been logged. *)
Definition render_entry (rc : RenderConfig) (width height : option Z)
    (scale : option float) (full_page transparent : bool) (w : world) : world :=
  let wd := Py.or_int width (default_width rc) in
  let hg := Py.or_int height (default_height rc) in
  let vw := viewport_width rc width in
  let vh := viewport_height rc height in
  let w1 := if negb (vw =? wd)%Z || negb (vh =? hg)%Z
            then with_log (log w ++ [Log WARNING (DimensionsAdjusted wd hg vw vh)]) w
            else w in
  with_log (log w1 ++ [Log INFO (RenderStart vw vh
                                   (Py.or_float scale (default_scale rc))
                                   full_page transparent)]) w1.

(** The failure of the load (step 4) or of the capture (step 6). *)
Definition capture_fails_with (E : env) (e : exn) : Prop :=
  set_content_error E = Some e \/
  (set_content_error E = None /\ screenshot_result E = Raise e).

(** The fields of a calendar date. *)
Definition calendar_date (d : datetime) : Prop :=
  (1 <= month d <= 12)%Z /\ (1 <= day d <= 31)%Z.

(** The client can be had: it is cached, or boto3 builds one. *)
Definition client_available (E : env) (w : world) : Prop :=
  (exists c, s3_client w = Some c) \/ boto3_client_error E = None.

(** The world in which [generate_image] starts rendering: the request has
    been logged. *)
Definition after_request_log (request : ImageGenerateRequest) (w : world) : world :=
  with_log (log w ++ [Log INFO (RequestReceived (width request) (height request)
                                  (response_format request))]) w.

(** The world in which the upload starts: the clock has been read for the
    metadata. *)
Definition before_upload (w : world) : world :=
  with_trace (trace w ++ [EvUtcNow]) w.

(** The [metadata] argument of the upload. *)
Definition upload_metadata (request : ImageGenerateRequest) : gmap string string :=
  <[ "height" := Py.str_of_Z (height request) ]>
    {[ "width" := Py.str_of_Z (width request) ]}.

(** Membership of a character in a string. *)
Fixpoint occurs (c : ascii) (s : string) : bool :=
  match s with
  | EmptyString => false
  | String d s' => Ascii.eqb d c || occurs c s'
  end.

(** The opening of a style element. *)
Definition style_open : string := "<style".

(** The number of style elements opened in a document. *)
Definition style_blocks (doc : string) : nat := Py.count style_open doc.

(** The metadata [generate_image] and [generate_preview] start from. *)
Definition base_metadata (E : env) (request : ImageGenerateRequest)
    (image_bytes : bytes) : gmap string pyval :=
  <[ "generated_at" := VStr (isoformat (utcnow E)) ]>
  (<[ "content_type" := VStr "image/png" ]>
  (<[ "size_bytes" := VInt (Z.of_nat (length image_bytes)) ]>
  (<[ "scale" := VFloat (scale request) ]>
  (<[ "height" := VInt (height request) ]>
  {[ "width" := VInt (width request) ]})))).

(** The inline form of an image: a data URL. *)
Definition data_url (image_bytes : bytes) : string :=
  "data:image/png;base64," +:+ Py.b64encode image_bytes.

(** The exception is an [HTTPException]. *)
Definition is_http (e : exn) : bool :=
  match e with HTTPException _ _ => true | _ => false end.

(** What [generate_image] raises for an exception [e] of its [try] body. *)
Definition as_http (e : exn) : exn :=
  match e with
  | HTTPException _ _ => e
  | _ => HTTPException 500 ("Erro ao gerar imagem: " +:+ str_exn e)
  end.

(** The render at the head of [generate_image] and [generate_preview]. *)
Definition render_of (rc : RenderConfig) (E : env)
    (request : ImageGenerateRequest) : M bytes :=
  Renderer.render_to_image rc E (html request) (css request)
    (Some (width request)) (Some (height request)) (Some (scale request))
    (full_page request) (transparent request).

(** Every open page was handed out by the source of fresh handles. *)
Definition pages_below (w : world) : Prop :=
  forall p, p ∈ pages w -> p < next_id w.

(** The engine cannot be had: the driver or the launch raises [e]. *)
Definition acquisition_fails_with (E : env) (e : exn) : Prop :=
  playwright_start_error E = Some e \/
  (playwright_start_error E = None /\ launch_error E = Some e).

(** The path [render_to_file] writes to, and the world in which it starts
    rendering: a uuid is drawn only when no path is given. *)
Definition default_file_path (rc : RenderConfig) (E : env) : string :=
  Py.path_join (temp_dir rc) (uuid4_hex E +:+ ".png").

Definition target_path (rc : RenderConfig) (E : env)
    (output_path : option string) : string :=
  if Py.truthy_opt output_path
  then match output_path with Some p => p | None => "" end
  else default_file_path rc E.

Definition file_render_start (output_path : option string) (w : world) : world :=
  if Py.truthy_opt output_path then w
  else with_trace (trace w ++ [EvUuid4]) w.

(** The extension [upload_file] takes from a path. *)
Definition extension_of (file_path : string) : string :=
  Py.lstrip "." (snd (Py.splitext file_path)).

(** No failure of the file system. *)
Definition fs_reliable (FE : fs_env) : Prop :=
  read_error FE = None /\ write_error FE = None /\ remove_error FE = None.

(** A file name stem: not empty, with no dot and no slash (as the
    hexadecimal form of a UUID is). *)
Definition plain_name (s : string) : bool :=
  Py.truthy s && negb (occurs "." s) && negb (occurs "/" s).

(* ===================================================================== *)
(** * Sample inputs *)
(* ===================================================================== *)

Definition sample_now : datetime :=
  {| year := 2026; month := 1; day := 26;
     hour := 9; minute := 30; second := 0; microsecond := 0 |}.

Definition sample_png : bytes := list_byte_of_string "PNG".

Definition sample_uuid : string := "0123456789abcdef0123456789abcdef".

Definition other_uuid : string := "fedcba9876543210fedcba9876543210".

(** An environment in which every call succeeds, except for the given
    outcomes of the load, of [put_object] and of [delete_object]. *)
Definition sample_env (load put delete : option exn) (uid : string) : env :=
  {| playwright_start_error := None;
     launch_error := None;
     new_page_error := None;
     set_content_error := load;
     screenshot_result := Ok sample_png;
     page_close_error := None;
     browser_close_error := None;
     playwright_stop_error := None;
     boto3_client_error := None;
     put_object_error := put;
     delete_object_error := delete;
     head_bucket_error := None;
     utcnow := sample_now;
     uuid4_hex := uid |}.

Definition env_ok : env := sample_env None None None sample_uuid.

Definition load_timeout : exn := TimeoutError "Timeout 30000ms exceeded.".

Definition env_load_timeout : env :=
  sample_env (Some load_timeout) None None sample_uuid.

Definition access_denied : exn :=
  ClientError (Some "AccessDenied")
    "An error occurred (AccessDenied) when calling the PutObject operation".

Definition env_put_denied : env :=
  sample_env None (Some access_denied) None sample_uuid.

Definition env_delete_denied : env :=
  sample_env None None (Some access_denied) sample_uuid.

Definition aws_sample : AWSConfig :=
  {| access_key_id := "AKIAEXAMPLE";
     secret_access_key := "secret";
     region := "us-east-1";
     bucket_name := "bucket";
     endpoint_url := None |}.

(** The request of the partial-failure scenario: delivery mode "both". *)
Definition request_both : ImageGenerateRequest :=
  {| html := "<div>Hi</div>";
     css := None;
     width := 800;
     height := 600;
     scale := 1%float;
     full_page := false;
     transparent := false;
     response_format := BOTH |}.

(** A complete document whose root element has an attribute and which has no
    head section. *)
Definition doc_with_lang : string :=
  "<html lang='en'><body><h1>Hi</h1></body></html>".

(** A complete document written in upper case. *)
Definition doc_upper : string :=
  "<HTML><HEAD><TITLE>t</TITLE></HEAD><BODY><H1>Hi</H1></BODY></HTML>".

(** The request of the inline scenario: delivery mode "base64". *)
Definition request_base64 : ImageGenerateRequest :=
  {| html := "<div>Hi</div>";
     css := Some "div { color: red; }";
     width := 800;
     height := 600;
     scale := 2%float;
     full_page := false;
     transparent := true;
     response_format := BASE64 |}.

Definition launch_failure : exn :=
  PlaywrightError "Executable doesn't exist at /ms-playwright/chromium".

(** An environment in which the engine cannot be launched. *)
Definition env_launch_fails : env :=
  {| playwright_start_error := None;
     launch_error := Some launch_failure;
     new_page_error := None;
     set_content_error := None;
     screenshot_result := Ok sample_png;
     page_close_error := None;
     browser_close_error := None;
     playwright_stop_error := None;
     boto3_client_error := None;
     put_object_error := None;
     delete_object_error := None;
     head_bucket_error := None;
     utcnow := sample_now;
     uuid4_hex := sample_uuid |}.

(** A file system whose calls succeed, and one with a single file. *)
Definition fs_ok : fs_env :=
  {| read_error := None; write_error := None; remove_error := None |}.

Definition fs_sample : fs :=
  {| files := {[ "/srv/keep.txt" := list_byte_of_string "keep" ]};
     file_log := [] |}.

(** A complete document with a head section. *)
Definition doc_standard : string :=
  "<html><head><title>t</title></head><body><h1>Hi</h1></body></html>".

Definition bucket_not_found : exn :=
  ClientError (Some "404")
    "An error occurred (404) when calling the HeadBucket operation: Not Found".

(** An environment in which the bucket cannot be reached. *)
Definition env_bucket_missing : env :=
  {| playwright_start_error := None;
     launch_error := None;
     new_page_error := None;
     set_content_error := None;
     screenshot_result := Ok sample_png;
     page_close_error := None;
     browser_close_error := None;
     playwright_stop_error := None;
     boto3_client_error := None;
     put_object_error := None;
     delete_object_error := None;
     head_bucket_error := Some bucket_not_found;
     utcnow := sample_now;
     uuid4_hex := sample_uuid |}.

(** [AppConfig()] with [DEBUG] unset. *)
Definition app_sample : AppConfig :=
  {| app_name := "HTML to Image API";
     app_version := "1.0.0";
     debug := false;
     log_dir := "/home/ubuntu/html-to-image-api/logs" |}.

(** A fragment that brings a style element of its own, and a css text that
    closes the style element and opens a second one. *)
Definition fragment_with_style : string := "<style>p{}</style><p>x</p>".

Definition css_with_tags : string := "a{}</style><style>b{}".

Definition target_closed : exn :=
  PlaywrightError "Target page, context or browser has been closed".

(** An environment in which the engine cannot be closed. *)
Definition env_close_fails : env :=
  {| playwright_start_error := None;
     launch_error := None;
     new_page_error := None;
     set_content_error := None;
     screenshot_result := Ok sample_png;
     page_close_error := None;
     browser_close_error := Some target_closed;
     playwright_stop_error := None;
     boto3_client_error := None;
     put_object_error := None;
     delete_object_error := None;
     head_bucket_error := None;
     utcnow := sample_now;
     uuid4_hex := sample_uuid |}.

(* ===================================================================== *)
(** * Properties *)
(* ===================================================================== *)

(** ** Running the monad *)

Lemma bind_ok {A B} (m : M A) (k : A -> M B) w a w' :
  m w = (Ok a, w') -> bind m k w = k a w'.
Proof. intros H. unfold bind. now rewrite H. Qed.

Lemma bind_raise {A B} (m : M A) (k : A -> M B) w e w' :
  m w = (Raise e, w') -> bind m k w = (Raise e, w').
Proof. intros H. unfold bind. now rewrite H. Qed.

(** Unfolds the plumbing of the monad, leaving the world updates visible. *)
Ltac run :=
  unfold bind, ret, raise, try_except, get_world, modify, emit, logger, fresh,
    fail_if in *; simpl in *.

(** ** Dimension validation (renderer.py, [_validate_dimensions]) *)

Section Validation.

Variable rc : RenderConfig.

(** C6. For every requested width and height (and a configuration whose
    ceilings are at least 1, 4096 by default), [_validate_dimensions]
    returns normally, each value clamped into [1, max]: a value that is
    within bounds comes back unchanged, a value below 1 becomes 1 and a
    value above the ceiling becomes the ceiling. When both values are
    within bounds nothing is logged and the world is untouched; when one of
    them is not, exactly one WARNING record is appended to the log. *)
Theorem validate_dimensions_clamps (width height : Z) (w : world) :
  (1 <= max_width rc)%Z -> (1 <= max_height rc)%Z ->
  exists vw vh w',
    Renderer._validate_dimensions rc width height w = (Ok (vw, vh), w') /\
    in_bounds vw (max_width rc) /\ in_bounds vh (max_height rc) /\
    (in_bounds width (max_width rc) -> vw = width) /\
    (in_bounds height (max_height rc) -> vh = height) /\
    ((width < 1)%Z -> vw = 1%Z) /\ ((height < 1)%Z -> vh = 1%Z) /\
    ((max_width rc < width)%Z -> vw = max_width rc) /\
    ((max_height rc < height)%Z -> vh = max_height rc) /\
    (in_bounds width (max_width rc) /\ in_bounds height (max_height rc) ->
       w' = w) /\
    (~ (in_bounds width (max_width rc) /\ in_bounds height (max_height rc)) ->
       w' = with_log
              (log w ++ [Log WARNING (DimensionsAdjusted width height vw vh)]) w).
Proof.
  intros Hw Hh.
  set (vw := Z.max 1 (Z.min width (max_width rc))).
  set (vh := Z.max 1 (Z.min height (max_height rc))).
  assert (Run : Renderer._validate_dimensions rc width height w =
    (Ok (vw, vh),
     if negb (vw =? width)%Z || negb (vh =? height)%Z
     then with_log
            (log w ++ [Log WARNING (DimensionsAdjusted width height vw vh)]) w
     else w)).
  { unfold Renderer._validate_dimensions. fold vw vh.
    destruct (negb (vw =? width)%Z || negb (vh =? height)%Z); reflexivity. }
  exists vw, vh. eexists. split; [exact Run|].
  unfold in_bounds in *.
  repeat split; try (subst vw vh; lia).
  - intros [Hiw Hih].
    replace (vw =? width)%Z with true by (symmetry; apply Z.eqb_eq; subst vw; lia).
    replace (vh =? height)%Z with true by (symmetry; apply Z.eqb_eq; subst vh; lia).
    reflexivity.
  - intros Hout.
    destruct (Z.eqb_spec vw width) as [Ew|Ew]; simpl; [|reflexivity].
    destruct (Z.eqb_spec vh height) as [Eh|Eh]; simpl; [|reflexivity].
    exfalso. apply Hout. subst vw vh. lia.
Qed.

End Validation.

(** ** The log only grows *)

Lemma log_grows_ret {A} (a : A) : log_grows (ret a).
Proof. intros w. exists []. simpl. now rewrite app_nil_r. Qed.

Lemma log_grows_raise {A} (e : exn) : log_grows (@raise A e).
Proof. intros w. exists []. simpl. now rewrite app_nil_r. Qed.

Lemma log_grows_bind {A B} (m : M A) (k : A -> M B) :
  log_grows m -> (forall a, log_grows (k a)) -> log_grows (bind m k).
Proof.
  intros Hm Hk w. unfold bind. destruct (Hm w) as [l1 H1].
  destruct (m w) as [[a|e] w1]; simpl in *.
  - destruct (Hk a w1) as [l2 H2]. exists (l1 ++ l2).
    now rewrite H2, H1, app_assoc.
  - now exists l1.
Qed.

Lemma log_grows_try_except {A} (m : M A) (h : exn -> M A) :
  log_grows m -> (forall e, log_grows (h e)) -> log_grows (try_except m h).
Proof.
  intros Hm Hh w. unfold try_except. destruct (Hm w) as [l1 H1].
  destruct (m w) as [[a|e] w1]; simpl in *.
  - now exists l1.
  - destruct (Hh e w1) as [l2 H2]. exists (l1 ++ l2).
    now rewrite H2, H1, app_assoc.
Qed.

Lemma log_grows_modify (f : world -> world) :
  (forall w, log (f w) = log w) -> log_grows (modify f).
Proof. intros Hf w. exists []. simpl. now rewrite Hf, app_nil_r. Qed.

Lemma log_grows_get_world : log_grows get_world.
Proof. intros w. exists []. simpl. now rewrite app_nil_r. Qed.

Lemma log_grows_emit (e : event) : log_grows (emit e).
Proof. now apply log_grows_modify. Qed.

Lemma log_grows_logger (l : level) (m : log_msg) : log_grows (logger l m).
Proof. intros w. now exists [Log l m]. Qed.

Lemma log_grows_fresh : log_grows fresh.
Proof. intros w. exists []. simpl. now rewrite app_nil_r. Qed.

Lemma log_grows_fail_if (o : option exn) : log_grows (fail_if o).
Proof. destruct o; [apply log_grows_raise | apply log_grows_ret]. Qed.

Create HintDb grows.
#[local] Hint Resolve log_grows_ret log_grows_raise log_grows_get_world
  log_grows_emit log_grows_logger log_grows_fresh log_grows_fail_if : grows.

(** Decomposes a goal [log_grows m] along the structure of [m]. *)
Ltac grows :=
  repeat first
    [ progress intros
    | apply log_grows_bind
    | apply log_grows_try_except
    | solve [ auto with grows ]
    | apply log_grows_modify; reflexivity
    | match goal with
      | |- log_grows (match ?x with _ => _ end) => destruct x
      | |- log_grows (if ?x then _ else _) => destruct x
      end ].

Section RendererLog.

Variable rc : RenderConfig.
Variable E : env.

Lemma log_grows_get_browser : log_grows (Renderer._get_browser E).
Proof.
  unfold Renderer._get_browser, Renderer.is_connected,
    Renderer.async_playwright_start, Renderer.chromium_launch.
  grows.
Qed.

Lemma log_grows_capture html css w h s fp tr :
  log_grows (try_except (capture_steps E html css w h s fp tr) log_and_reraise).
Proof.
  apply log_grows_try_except; [|unfold log_and_reraise; grows].
  unfold capture_steps.
  apply log_grows_bind; [apply log_grows_get_browser|].
  unfold Renderer.new_page, Renderer.set_content, Renderer.screenshot,
    Renderer.page_close.
  grows.
Qed.

(** [render_to_image] is its [try] statement run in the entry world. *)
Lemma render_to_image_enter (html_content : string) (css_content : option string)
    (width height : option Z) (scale : option float)
    (full_page transparent : bool) (w : world) :
  Renderer.render_to_image rc E html_content css_content width height scale
    full_page transparent w =
  try_except
    (capture_steps E html_content css_content (viewport_width rc width)
       (viewport_height rc height) (Py.or_float scale (default_scale rc))
       full_page transparent)
    log_and_reraise
    (render_entry rc width height scale full_page transparent w).
Proof.
  unfold Renderer.render_to_image, Renderer._validate_dimensions, render_entry,
    viewport_width, viewport_height.
  unfold bind at 1. unfold bind at 1.
  destruct (negb _ || negb _); reflexivity.
Qed.

End RendererLog.

(** ** Engine acquisition (renderer.py, [_get_browser]) *)

Section Acquisition.

Variable E : env.

Lemma get_browser_cached (w : world) (b : nat) :
  renderer_browser w = Some b -> b ∈ connected w ->
  Renderer._get_browser E w = (Ok b, w).
Proof.
  intros Hb Hc. unfold Renderer._get_browser, Renderer.is_connected. run.
  rewrite Hb. simpl. rewrite (bool_decide_eq_true_2 _ Hc). simpl.
  now rewrite Hb.
Qed.

Lemma get_browser_stale (w : world) :
  stale w ->
  Renderer._get_browser E w =
    match playwright_start_error E, launch_error E with
    | Some e, _ =>
        (Raise e, with_trace (trace w ++ [EvPlaywrightStart]) w)
    | None, Some e =>
        (Raise e,
         with_trace ((trace w ++ [EvPlaywrightStart]) ++
                     [EvLaunch Renderer.launch_args])
           (with_renderer_playwright (Some (next_id w))
              (with_next_id (S (next_id w)) w)))
    | None, None => (Ok (S (next_id w)), launched_world w)
    end.
Proof.
  intros Hs.
  unfold Renderer._get_browser, Renderer.is_connected,
    Renderer.async_playwright_start, Renderer.chromium_launch. run.
  destruct Hs as [Hn | (b & Hb & Hc)].
  - rewrite Hn. simpl.
    destruct (playwright_start_error E); simpl; [reflexivity|].
    destruct (launch_error E); reflexivity.
  - rewrite Hb. simpl. rewrite (bool_decide_eq_false_2 _ Hc). simpl.
    destruct (playwright_start_error E); simpl; [reflexivity|].
    destruct (launch_error E); reflexivity.
Qed.

Lemma stale_dec (w : world) :
  stale w \/ exists b, renderer_browser w = Some b /\ b ∈ connected w.
Proof.
  unfold stale. destruct (renderer_browser w) as [b|]; [|now left; left].
  destruct (decide (b ∈ connected w)); [right | left; right]; eauto.
Qed.

(** C9. Engine acquisition is idempotent. (1) While the cached handle
    exists and is connected, [_get_browser] returns it and changes nothing:
    no launch, no event, no log record. (2) When the cached handle is
    absent or disconnected and the driver and the engine start, it launches
    one engine, returns its fresh handle and caches it, and the new handle
    is connected. (3) Whenever an acquisition returned a handle, the next
    acquisition returns the same handle and leaves the world unchanged. *)
Theorem get_browser_idempotent (w : world) :
  (forall b, renderer_browser w = Some b -> b ∈ connected w ->
     Renderer._get_browser E w = (Ok b, w)) /\
  (stale w -> playwright_start_error E = None -> launch_error E = None ->
     exists b' w',
       Renderer._get_browser E w = (Ok b', w') /\
       b' = S (next_id w) /\
       renderer_browser w' = Some b' /\
       b' ∈ connected w' /\
       trace w' = trace w ++ [EvPlaywrightStart; EvLaunch Renderer.launch_args]) /\
  (forall b w', Renderer._get_browser E w = (Ok b, w') ->
     forall E', Renderer._get_browser E' w' = (Ok b, w') /\
                renderer_browser w' = Some b).
Proof.
  split; [|split].
  - intros b. apply get_browser_cached.
  - intros Hs Hp Hl. rewrite (get_browser_stale w Hs), Hp, Hl.
    exists (S (next_id w)), (launched_world w).
    repeat split; simpl.
    + set_solver.
    + now rewrite <- app_assoc.
  - intros b w' Hrun E'.
    destruct (stale_dec w) as [Hs | (b0 & Hb & Hc)].
    + rewrite (get_browser_stale w Hs) in Hrun.
      destruct (playwright_start_error E); [discriminate|].
      destruct (launch_error E); [discriminate|].
      injection Hrun as <- <-. split; [|reflexivity].
      unfold Renderer._get_browser, Renderer.is_connected. run.
      rewrite bool_decide_eq_true_2 by set_solver. reflexivity.
    + rewrite (get_browser_cached w b0 Hb Hc) in Hrun.
      injection Hrun as <- <-. split; [|exact Hb].
      unfold Renderer._get_browser, Renderer.is_connected. run.
      rewrite Hb. simpl. rewrite (bool_decide_eq_true_2 _ Hc). simpl.
      now rewrite Hb.
Qed.

End Acquisition.

(** ** Page lifetime in [render_to_image] *)

Section PageLifetime.

Variable rc : RenderConfig.
Variable E : env.

Lemma get_browser_ok (w : world) :
  playwright_start_error E = None -> launch_error E = None ->
  exists b w', Renderer._get_browser E w = (Ok b, w').
Proof.
  intros Hp Hl. destruct (stale_dec w) as [Hs | (b & Hb & Hc)].
  - rewrite (get_browser_stale E w Hs), Hp, Hl. eauto.
  - rewrite (get_browser_cached E w b Hb Hc). eauto.
Qed.

(** The sibling path: when every step succeeds, the page that was opened is
    closed before [render_to_image] returns, and the close is the last call
    made to the engine. *)
Lemma render_success_closes_page
    (html_content : string) (css_content : option string)
    (width height : option Z) (scale : option float)
    (full_page transparent : bool) (w : world) (data : bytes) :
  playwright_start_error E = None -> launch_error E = None ->
  new_page_error E = None -> set_content_error E = None ->
  screenshot_result E = Ok data -> page_close_error E = None ->
  exists p w' t,
    Renderer.render_to_image rc E html_content css_content width height scale
      full_page transparent w = (Ok data, w') /\
    (p ∉ pages w') /\
    trace w' = t ++ [EvPageClose p].
Proof.
  intros Hp Hl Hn Hs Hc Hx. rewrite render_to_image_enter.
  destruct (get_browser_ok
              (render_entry rc width height scale full_page transparent w) Hp Hl)
    as (b & w1 & Hb).
  unfold try_except, capture_steps. rewrite (bind_ok _ _ _ _ _ Hb).
  unfold Renderer.new_page, Renderer.set_content, Renderer.screenshot,
    Renderer.page_close.
  rewrite Hn, Hs, Hx.
  rewrite Hc.
  run.
  exists (next_id w1). eexists _, _. split; [reflexivity|]. simpl.
  split; [|reflexivity].
  intros Hin. apply elem_of_difference in Hin as [_ Hnot].
  now apply Hnot, elem_of_singleton.
Qed.

(** C2, as the code behaves. When the engine is acquired and the page is
    opened, and then the load or the capture raises [e], [render_to_image]
    re-raises [e] and the page it opened is still among the open pages: the
    last call made to the engine is the failed load or capture, no
    [page.close()] follows it. *)
Theorem render_failure_leaves_page_open
    (html_content : string) (css_content : option string)
    (width height : option Z) (scale : option float)
    (full_page transparent : bool) (w : world) (e : exn) :
  playwright_start_error E = None -> launch_error E = None ->
  new_page_error E = None -> capture_fails_with E e ->
  exists p w',
    Renderer.render_to_image rc E html_content css_content width height scale
      full_page transparent w = (Raise e, w') /\
    p ∈ pages w' /\
    (forall t, trace w' <> t ++ [EvPageClose p]) /\
    exists t c, trace w' = t ++ [c] /\
      (c = EvSetContent p
             (Renderer._build_html_document html_content css_content)
             "networkidle" \/
       c = EvScreenshot p (Renderer.screenshot_options full_page transparent)).
Proof.
  intros Hp Hl Hn Hf. rewrite render_to_image_enter.
  destruct (get_browser_ok
              (render_entry rc width height scale full_page transparent w) Hp Hl)
    as (b & w1 & Hb).
  unfold try_except, capture_steps. rewrite (bind_ok _ _ _ _ _ Hb).
  unfold Renderer.new_page, Renderer.set_content, Renderer.screenshot,
    log_and_reraise.
  rewrite Hn.
  assert (Hlast : forall (p : nat) (t : list event) (c : event),
    c <> EvPageClose p -> forall t', t ++ [c] <> t' ++ [EvPageClose p]).
  { intros p t c Hc t' Ht'. apply app_inj_tail in Ht' as [_ ->]. now apply Hc. }
  destruct Hf as [Hs | [Hs Hc]]; rewrite Hs; [|rewrite Hc]; run;
    exists (next_id w1); eexists; (split; [reflexivity|]); simpl;
    (split; [set_solver|]);
    (split; [apply Hlast; discriminate|]);
    eexists _, _; (split; [reflexivity|]); [now left | now right].
Qed.

End PageLifetime.

(** ** Default substitution in [render_to_image] *)

Section Defaults.

Variable E : env.

(** C10. In [render_to_image] (with the configuration of config.py) a
    width, height or scale that is zero is replaced by the configured
    default exactly as an unset one is: 1024 for the width, 768 for the
    height, 1.0 for the scale, whatever the other arguments are. The
    substitution comes before the clamping, so a zero dimension is not
    raised to the minimum 1: with all three zero the render starts at
    1024x768 and scale 1.0 (the first record logged, with no adjustment
    warning before it). *)
Theorem render_zero_takes_default
    (html_content : string) (css_content : option string)
    (full_page transparent : bool) (w : world) :
  (forall height scale,
     Renderer.render_to_image render_config E html_content css_content
       (Some 0%Z) height scale full_page transparent w =
     Renderer.render_to_image render_config E html_content css_content
       (Some 1024%Z) height scale full_page transparent w /\
     Renderer.render_to_image render_config E html_content css_content
       None height scale full_page transparent w =
     Renderer.render_to_image render_config E html_content css_content
       (Some 1024%Z) height scale full_page transparent w) /\
  (forall width scale,
     Renderer.render_to_image render_config E html_content css_content
       width (Some 0%Z) scale full_page transparent w =
     Renderer.render_to_image render_config E html_content css_content
       width (Some 768%Z) scale full_page transparent w /\
     Renderer.render_to_image render_config E html_content css_content
       width None scale full_page transparent w =
     Renderer.render_to_image render_config E html_content css_content
       width (Some 768%Z) scale full_page transparent w) /\
  (forall width height,
     Renderer.render_to_image render_config E html_content css_content
       width height (Some 0%float) full_page transparent w =
     Renderer.render_to_image render_config E html_content css_content
       width height (Some 1%float) full_page transparent w /\
     Renderer.render_to_image render_config E html_content css_content
       width height None full_page transparent w =
     Renderer.render_to_image render_config E html_content css_content
       width height (Some 1%float) full_page transparent w) /\
  (exists l,
     log (snd (Renderer.render_to_image render_config E html_content
                 css_content (Some 0%Z) (Some 0%Z) (Some 0%float)
                 full_page transparent w)) =
     log w ++ Log INFO (RenderStart 1024 768 1 full_page transparent) :: l).
Proof.
  split; [|split; [|split]].
  - intros; split; reflexivity.
  - intros; split; reflexivity.
  - intros; split; reflexivity.
  - rewrite render_to_image_enter.
    destruct (log_grows_capture E html_content css_content
                (viewport_width render_config (Some 0%Z))
                (viewport_height render_config (Some 0%Z))
                (Py.or_float (Some 0%float) (default_scale render_config))
                full_page transparent
                (render_entry render_config (Some 0%Z) (Some 0%Z) (Some 0%float)
                   full_page transparent w)) as [l Hl].
    exists l. rewrite Hl. simpl. now rewrite <- app_assoc.
Qed.

End Defaults.

(** ** Strings as lists of characters *)

Lemma chars_app (a b : string) :
  list_ascii_of_string (a +:+ b) = list_ascii_of_string a ++ list_ascii_of_string b.
Proof. induction a as [|c a IH]; simpl; [reflexivity | now rewrite IH]. Qed.

Lemma chars_inj (a b : string) :
  list_ascii_of_string a = list_ascii_of_string b -> a = b.
Proof.
  intros H. rewrite <- (string_of_list_ascii_of_string a),
    <- (string_of_list_ascii_of_string b). now rewrite H.
Qed.

Lemma chars_length (a : string) :
  length (list_ascii_of_string a) = String.length a.
Proof. induction a as [|c a IH]; simpl; [reflexivity | now rewrite IH]. Qed.

Lemma str_app_cons (x : ascii) (a b : string) :
  String x a +:+ b = String x (a +:+ b).
Proof. reflexivity. Qed.

Lemma str_app_nil_l (a : string) : "" +:+ a = a.
Proof. reflexivity. Qed.

Lemma str_app_assoc (a b c : string) : (a +:+ b) +:+ c = a +:+ (b +:+ c).
Proof.
  induction a as [|x a IH]; [reflexivity|].
  rewrite !str_app_cons. now rewrite IH.
Qed.

Lemma str_app_inv_head (a x y : string) : a +:+ x = a +:+ y -> x = y.
Proof.
  intros H. apply chars_inj. apply (f_equal list_ascii_of_string) in H.
  rewrite !chars_app in H. now apply app_inv_head in H.
Qed.

Lemma str_app_inv_tail (b x y : string) : x +:+ b = y +:+ b -> x = y.
Proof.
  intros H. apply chars_inj. apply (f_equal list_ascii_of_string) in H.
  rewrite !chars_app in H. now apply app_inv_tail in H.
Qed.

(** Two strings with equal tails of equal length: the tails are equal. *)
Lemma str_app_eq_tail (a1 a2 u1 u2 : string) :
  String.length u1 = String.length u2 ->
  a1 +:+ u1 = a2 +:+ u2 -> u1 = u2.
Proof.
  intros Hlen H. apply chars_inj. apply (f_equal list_ascii_of_string) in H.
  rewrite !chars_app in H. rewrite <- !chars_length in Hlen.
  apply app_inj_2 in H; [tauto | exact Hlen].
Qed.

(** ** Storage keys (s3_service.py, [_generate_key]) *)

Section Keys.

Lemma fmt_02d_two_digits (n : Z) :
  (0 <= n <= 99)%Z -> String.length (Py.fmt_02d n) = 2.
Proof.
  intros H.
  assert (Hall : forallb (fun k => Nat.eqb (String.length (Py.fmt_02d (Z.of_nat k))) 2)
                   (seq 0 100) = true) by (vm_compute; reflexivity).
  rewrite forallb_forall in Hall.
  specialize (Hall (Z.to_nat n)).
  rewrite Z2Nat.id in Hall by lia.
  apply Nat.eqb_eq, Hall, in_seq. lia.
Qed.

(** The key is a directory part, the identifier and a suffix. *)
Lemma key_of_split (prefix extension : string) (d : datetime) (u : string) :
  S3.key_of prefix extension d u =
  ((prefix +:+ "/" +:+ Py.str_of_Z (year d) +:+ "/" +:+ Py.fmt_02d (month d) +:+
    "/" +:+ Py.fmt_02d (day d) +:+ "/") +:+ u) +:+ "." +:+ extension.
Proof. unfold S3.key_of. now rewrite !str_app_assoc. Qed.

Lemma key_of_inj_uid (prefix extension : string) (d : datetime) (u1 u2 : string) :
  S3.key_of prefix extension d u1 = S3.key_of prefix extension d u2 -> u1 = u2.
Proof.
  rewrite !key_of_split. intros H.
  apply str_app_inv_tail in H. now apply str_app_inv_head in H.
Qed.

Lemma key_of_inj_uid_any_date (prefix extension : string) (d1 d2 : datetime)
    (u1 u2 : string) :
  String.length u1 = String.length u2 ->
  S3.key_of prefix extension d1 u1 = S3.key_of prefix extension d2 u2 -> u1 = u2.
Proof.
  rewrite !key_of_split. intros Hlen H.
  apply str_app_inv_tail in H. now apply str_app_eq_tail in H.
Qed.

(** C8. [_generate_key] returns
    prefix/year/month/day/unique_id.extension, where year, month and day
    are those of the clock at the call, month and day written with two
    digits, and unique_id is the hexadecimal form of a fresh UUID. Two calls
    with the same prefix and extension whose unique identifiers differ
    return different keys: at the same moment always, and at any two
    moments when the identifiers have the same length (32 for UUIDs). *)
Theorem generate_key_format_and_uniqueness (prefix extension : string) :
  (forall E w,
     S3._generate_key E prefix extension w =
       (Ok (prefix +:+ "/" +:+ Py.str_of_Z (year (utcnow E)) +:+ "/" +:+
            Py.fmt_02d (month (utcnow E)) +:+ "/" +:+
            Py.fmt_02d (day (utcnow E)) +:+ "/" +:+
            uuid4_hex E +:+ "." +:+ extension),
        with_trace (trace w ++ [EvUtcNow; EvUuid4]) w)) /\
  (forall E, calendar_date (utcnow E) ->
     String.length (Py.fmt_02d (month (utcnow E))) = 2 /\
     String.length (Py.fmt_02d (day (utcnow E))) = 2) /\
  (forall E1 E2 w1 w2 k1 k2 w1' w2',
     S3._generate_key E1 prefix extension w1 = (Ok k1, w1') ->
     S3._generate_key E2 prefix extension w2 = (Ok k2, w2') ->
     uuid4_hex E1 <> uuid4_hex E2 ->
     utcnow E1 = utcnow E2 \/
     String.length (uuid4_hex E1) = String.length (uuid4_hex E2) ->
     k1 <> k2).
Proof.
  assert (Run : forall E w,
    S3._generate_key E prefix extension w =
      (Ok (S3.key_of prefix extension (utcnow E) (uuid4_hex E)),
       with_trace (trace w ++ [EvUtcNow; EvUuid4]) w)).
  { intros E w. unfold S3._generate_key, datetime_utcnow, uuid4. run.
    unfold with_trace. simpl. now rewrite <- app_assoc. }
  split; [exact Run|split].
  - intros E [Hm Hd]. split; apply fmt_02d_two_digits; lia.
  - intros E1 E2 w1 w2 k1 k2 w1' w2' H1 H2 Hne Hcase Heq.
    rewrite Run in H1, H2. injection H1 as <- _. injection H2 as <- _.
    apply Hne. destruct Hcase as [Hnow | Hlen].
    + rewrite Hnow in Heq. now apply key_of_inj_uid in Heq.
    + now apply key_of_inj_uid_any_date in Heq.
Qed.

End Keys.

(** ** Failures of the artifact store (s3_service.py) *)

Section StoreFailures.

Variable aws_config : AWSConfig.
Variable E : env.

Lemma get_client_ok (w : world) :
  client_available E w ->
  exists c w', S3._get_client aws_config E w = (Ok c, w') /\
               (forall ev, In ev (trace w') -> In ev (trace w) \/
                  exists cfg, ev = EvBoto3Client cfg).
Proof.
  intros Hc. unfold S3._get_client, S3.boto3_client. run.
  destruct (s3_client w) as [c|] eqn:Hs.
  - exists c, w. split; [reflexivity | auto].
  - destruct Hc as [[c Hc] | Hb]; [congruence|]. rewrite Hb. simpl.
    eexists _, _. split; [reflexivity|]. simpl. intros ev Hin.
    apply in_app_or in Hin as [Hin | [<- | []]]; eauto.
Qed.

Lemma bucket_unset_falsy : bucket_name aws_config = "" ->
  Py.truthy (S3._bucket_name aws_config) = false.
Proof. unfold S3._bucket_name. now intros ->. Qed.

Lemma bucket_set_truthy : bucket_name aws_config <> "" ->
  Py.truthy (S3._bucket_name aws_config) = true.
Proof. unfold S3._bucket_name. destruct (bucket_name aws_config); easy. Qed.

(** What [upload_bytes] does once the bucket is known to be set and the
    client is at hand, when [put_object] raises [e]. *)
Lemma upload_bytes_put_fails (data : bytes) (content_type prefix extension : string)
    (metadata : option (gmap string string)) (make_public : bool)
    (w : world) (e : exn) :
  bucket_name aws_config <> "" -> client_available E w ->
  put_object_error E = Some e ->
  exists w',
    S3.upload_bytes aws_config E data content_type prefix extension metadata
      make_public w = (Raise e, w') /\
    (forall code msg, e = ClientError code msg ->
       exists l, log w' = l ++ [Log ERROR (UploadError (error_code code) msg)]).
Proof.
  intros Hb Hc He. unfold S3.upload_bytes.
  rewrite (bucket_set_truthy Hb). simpl.
  destruct (get_client_ok w Hc) as (c & w1 & Hrun & _).
  rewrite (bind_ok _ _ _ _ _ Hrun).
  unfold S3._generate_key, datetime_utcnow, uuid4, S3.put_object.
  rewrite He. run.
  destruct e; run; eexists; (split; [reflexivity|]); intros code' msg' Heq;
    try discriminate.
  injection Heq as -> ->. simpl. eauto.
Qed.

(** C7. (1) If the bucket name is unset, [upload_bytes] raises the
    not-configured [ValueError] and leaves the world exactly as it was: no
    client is built or cached, no key is generated, no call reaches the
    store. (2) If the bucket is set and [put_object] raises an upstream
    [ClientError], [upload_bytes] raises that same error, which carries the
    upstream code, after logging the code at ERROR level. *)
Theorem upload_bytes_failure_modes (data : bytes)
    (content_type prefix extension : string)
    (metadata : option (gmap string string)) (make_public : bool) (w : world) :
  (bucket_name aws_config = "" ->
     exists msg,
       S3.upload_bytes aws_config E data content_type prefix extension metadata
         make_public w = (Raise (ValueError msg), w)) /\
  (bucket_name aws_config <> "" -> client_available E w ->
     forall code msg, put_object_error E = Some (ClientError code msg) ->
     exists w' l,
       S3.upload_bytes aws_config E data content_type prefix extension metadata
         make_public w = (Raise (ClientError code msg), w') /\
       log w' = l ++ [Log ERROR (UploadError (error_code code) msg)]).
Proof.
  split.
  - intros Hb. unfold S3.upload_bytes. rewrite (bucket_unset_falsy Hb). simpl.
    eexists. reflexivity.
  - intros Hb Hc code msg He.
    destruct (upload_bytes_put_fails data content_type prefix extension metadata
                make_public w _ Hb Hc He) as (w' & Hrun & Hlog).
    destruct (Hlog code msg eq_refl) as [l Hl]. eauto.
Qed.

(** C3, as the code behaves. With the client at hand and the bucket set:
    [upload_bytes] re-raises whatever [put_object] raised, while
    [delete_object] and [check_connection] turn an upstream [ClientError]
    into the result [False] (after logging it at ERROR level) and raise
    nothing; [delete_object] lets any other exception through. *)
Theorem store_error_propagation (w : world) :
  client_available E w ->
  (forall data content_type prefix extension metadata make_public e,
     bucket_name aws_config <> "" -> put_object_error E = Some e ->
     exists w',
       S3.upload_bytes aws_config E data content_type prefix extension metadata
         make_public w = (Raise e, w')) /\
  (forall key code msg,
     delete_object_error E = Some (ClientError code msg) ->
     exists w' l,
       S3.delete_object aws_config E key w = (Ok false, w') /\
       log w' = l ++ [Log ERROR (RemoveError msg)]) /\
  (forall key e,
     delete_object_error E = Some e ->
     (forall code msg, e <> ClientError code msg) ->
     exists w', S3.delete_object aws_config E key w = (Raise e, w')) /\
  (forall code msg,
     head_bucket_error E = Some (ClientError code msg) ->
     exists w' l,
       S3.check_connection aws_config E w = (Ok false, w') /\
       log w' = l ++ [Log ERROR (BucketCheckError (error_code code) msg)]).
Proof.
  intros Hc. repeat split.
  - intros data ct prefix ext meta pub e Hb He.
    destruct (upload_bytes_put_fails data ct prefix ext meta pub w e Hb Hc He)
      as (w' & Hrun & _). eauto.
  - intros key code msg He. unfold S3.delete_object.
    destruct (get_client_ok w Hc) as (c & w1 & Hrun & _).
    rewrite (bind_ok _ _ _ _ _ Hrun). unfold S3.client_delete_object.
    rewrite He. run. eexists _, _. split; reflexivity.
  - intros key e He Hne. unfold S3.delete_object.
    destruct (get_client_ok w Hc) as (c & w1 & Hrun & _).
    rewrite (bind_ok _ _ _ _ _ Hrun). unfold S3.client_delete_object.
    rewrite He. run.
    destruct e; run; try (eexists; reflexivity).
    exfalso. eapply Hne. reflexivity.
  - intros code msg He. unfold S3.check_connection.
    destruct (get_client_ok w Hc) as (c & w1 & Hrun & _).
    unfold try_except. rewrite (bind_ok _ _ _ _ _ Hrun).
    unfold S3.head_bucket. rewrite He. run.
    eexists _, _. split; reflexivity.
Qed.

End StoreFailures.

(** ** Delivery (main.py, [generate_image]) *)

Section Delivery.

Variable aws_config : AWSConfig.
Variable rc : RenderConfig.
Variable E : env.

(** C1, as the code behaves. For every request with delivery mode "both" in
    which the capture succeeds and the upload then fails (because no bucket
    is configured, or because [upload_bytes] raises), [generate_image]
    raises an [HTTPException] and the route answers with the error payload
    of [http_exception_handler]: the status code and an [ErrorResponse]
    whose message is the exception's detail. The status is 500 when no
    bucket is configured, and when [upload_bytes] raised anything but an
    [HTTPException]; the detail then quotes the upload's error. No response
    carrying the inline data is returned. *)
Theorem both_mode_upload_failure_raises
    (request : ImageGenerateRequest) (w w1 : world) (image_bytes : bytes) :
  response_format request = BOTH ->
  Renderer.render_to_image rc E (html request) (css request)
    (Some (width request)) (Some (height request)) (Some (scale request))
    (full_page request) (transparent request) (after_request_log request w)
    = (Ok image_bytes, w1) ->
  (bucket_name aws_config = "" \/
   exists e w2,
     S3.upload_bytes aws_config E image_bytes "image/png" "images" "png"
       (Some (upload_metadata request)) true (before_upload w1) = (Raise e, w2)) ->
  exists status detail w',
    Main.generate_image aws_config rc E request w
      = (Raise (HTTPException status detail), w') /\
    Main.post_generate aws_config rc E request w
      = (Main.JSONResponse status (mkErrorResponse "HTTP_ERROR" detail), w') /\
    (bucket_name aws_config = "" -> status = 500%Z) /\
    (forall e w2,
       bucket_name aws_config <> "" ->
       S3.upload_bytes aws_config E image_bytes "image/png" "images" "png"
         (Some (upload_metadata request)) true (before_upload w1) = (Raise e, w2) ->
       (forall c d, e <> HTTPException c d) ->
       status = 500%Z /\ detail = "Erro ao gerar imagem: " +:+ str_exn e).
Proof.
  intros Hfmt Hrender Hup.
  assert (Hgen : exists status detail w',
    Main.generate_image aws_config rc E request w
      = (Raise (HTTPException status detail), w') /\
    (bucket_name aws_config = "" -> status = 500%Z) /\
    (forall e w2,
       bucket_name aws_config <> "" ->
       S3.upload_bytes aws_config E image_bytes "image/png" "images" "png"
         (Some (upload_metadata request)) true (before_upload w1) = (Raise e, w2) ->
       (forall c d, e <> HTTPException c d) ->
       status = 500%Z /\ detail = "Erro ao gerar imagem: " +:+ str_exn e)).
  { unfold Main.generate_image.
    unfold bind at 1. unfold logger at 1, modify.
    fold (after_request_log request w).
    unfold try_except. rewrite (bind_ok _ _ _ _ _ Hrender).
    unfold datetime_utcnow at 1.
    unfold bind at 1. unfold bind at 1. unfold emit at 1, modify, ret at 1.
    fold (before_upload w1).
    rewrite Hfmt. simpl Main.wants_base64. simpl Main.wants_url. cbv iota.
    unfold upload_metadata in *.
    destruct (negb (Py.truthy (bucket_name aws_config))) eqn:Hbn.
    - unfold bind at 1. unfold raise at 1. cbv beta iota. run.
      eexists _, _, _. split; [reflexivity|]. split; [reflexivity|].
      intros e w2 Hne. destruct (bucket_name aws_config); [easy | discriminate].
    - destruct Hup as [Hb | (e & w2 & Hu)].
      { rewrite Hb in Hbn. discriminate. }
      unfold bind at 1. unfold bind at 1. rewrite Hu. cbv beta iota.
      assert (Hset : bucket_name aws_config <> "") by (now intros Hb; rewrite Hb in Hbn).
      destruct e; run;
        (eexists _, _, _; split; [reflexivity|]; split; [easy|];
         intros e' w2' _ [= <- _] Hnh; solve [ easy | now destruct (Hnh _ _ eq_refl) ]). }
  destruct Hgen as (status & detail & w' & Hgen & H500 & Hdet).
  exists status, detail, w'. split; [exact Hgen|]. split; [|split; assumption].
  unfold Main.post_generate. now rewrite Hgen.
Qed.

End Delivery.

(** ** Substrings: search, replacement and counting *)

Lemma startswith_split (s p : string) :
  Py.startswith s p = true -> s = p +:+ Py.drop (String.length p) s.
Proof.
  revert s. induction p as [|c p IH]; intros s H; [reflexivity|].
  destruct s as [|d s]; [discriminate|]. simpl in H.
  destruct (Ascii.eqb_spec c d) as [->|]; [|discriminate].
  rewrite str_app_cons. simpl. f_equal. now apply IH.
Qed.

(** Where the pattern does not occur, [replace] changes nothing. *)
Lemma replace_first_absent (old new s : string) :
  Py.find old s = None -> Py.replace_first old new s = s.
Proof.
  induction s as [|c s IH]; simpl.
  - destruct (Py.startswith "" old); [discriminate | reflexivity].
  - destruct (Py.startswith (String c s) old); [discriminate|].
    destruct (Py.find old s); [discriminate|]. intros _. now rewrite IH.
Qed.

(** Where the pattern first occurs at [i], [replace] rewrites that
    occurrence and keeps what is before and after it. *)
Lemma replace_first_at (old new s : string) (i : nat) :
  Py.find old s = Some i ->
  s = Py.take i s +:+ old +:+ Py.drop (i + String.length old) s /\
  Py.replace_first old new s =
    Py.take i s +:+ new +:+ Py.drop (i + String.length old) s.
Proof.
  revert i. induction s as [|c s IH]; intros i; simpl.
  - destruct (Py.startswith "" old) eqn:Hs; [|discriminate].
    intros [= <-]. split; [|reflexivity]. now apply startswith_split.
  - destruct (Py.startswith (String c s) old) eqn:Hs.
    + intros [= <-]. split; [|reflexivity]. now apply startswith_split.
    + destruct (Py.find old s) as [j|]; [|discriminate]. intros [= <-].
      destruct (IH j eq_refl) as [Hsplit Hrep]. simpl.
      rewrite !str_app_cons. rewrite Hrep. split; [|reflexivity].
      f_equal. exact Hsplit.
Qed.

(** A pattern that does not contain the first character of [rest] cannot
    start inside [r] and end inside [rest]. *)
Lemma startswith_no_straddle (c : ascii) (rest p r : string) :
  occurs c p = false ->
  Py.startswith (r +:+ String c rest) p = Py.startswith r p.
Proof.
  revert r. induction p as [|a p IH]; intros r Hc; [reflexivity|].
  simpl in Hc. apply orb_false_iff in Hc as [Hac Hp].
  destruct r as [|y r].
  - simpl. now rewrite Hac.
  - rewrite str_app_cons. simpl. destruct (Ascii.eqb a y); [now apply IH | reflexivity].
Qed.

Lemma count_app_no_straddle (c a0 : ascii) (rest p a : string) :
  occurs c p = false ->
  Py.count (String a0 p) (a +:+ String c rest) =
  Py.count (String a0 p) a + Py.count (String a0 p) (String c rest).
Proof.
  intros Hc. induction a as [|x a IH]; [reflexivity|].
  rewrite str_app_cons.
  change (Py.count (String a0 p) (String x (a +:+ String c rest)))
    with ((if Py.startswith (String x (a +:+ String c rest)) (String a0 p)
           then 1 else 0) + Py.count (String a0 p) (a +:+ String c rest)).
  change (Py.count (String a0 p) (String x a))
    with ((if Py.startswith (String x a) (String a0 p) then 1 else 0) +
          Py.count (String a0 p) a).
  rewrite IH.
  change (Py.startswith (String x (a +:+ String c rest)) (String a0 p))
    with (if Ascii.eqb a0 x then Py.startswith (a +:+ String c rest) p else false).
  change (Py.startswith (String x a) (String a0 p))
    with (if Ascii.eqb a0 x then Py.startswith a p else false).
  rewrite (startswith_no_straddle c rest p a Hc). lia.
Qed.

(** ** Document composition (renderer.py, [_build_html_document]) *)

Section Composer.

Lemma style_blocks_head (x : string) :
  style_blocks (Renderer.skeleton_head +:+ x) = style_blocks x.
Proof. reflexivity. Qed.

Lemma style_blocks_open (x : string) :
  style_blocks ("<style>" +:+ x) = S (style_blocks x).
Proof. reflexivity. Qed.

Lemma style_blocks_close_mid (x : string) :
  style_blocks ("</style>" +:+ Renderer.skeleton_mid +:+ x) = style_blocks x.
Proof. reflexivity. Qed.

Lemma style_blocks_mid (x : string) :
  style_blocks (Renderer.skeleton_mid +:+ x) = style_blocks x.
Proof. reflexivity. Qed.

Lemma style_blocks_before_close (c x : string) :
  style_blocks (c +:+ "</style>" +:+ x) = style_blocks c + style_blocks ("</style>" +:+ x).
Proof. apply (count_app_no_straddle "<" "<" _ "style"). reflexivity. Qed.

Lemma style_blocks_before_tail (h : string) :
  style_blocks (h +:+ Renderer.skeleton_tail) = style_blocks h.
Proof.
  unfold style_blocks, style_open.
  change Renderer.skeleton_tail with (String "010" ("</body>" +:+ Renderer.nl +:+ "</html>")).
  rewrite (count_app_no_straddle "010" "<" _ "style") by reflexivity.
  change (Py.count "<style" (String "010" ("</body>" +:+ Renderer.nl +:+ "</html>")))
    with 0.
  lia.
Qed.

Lemma truthy_nonempty (c : string) : c <> "" -> Py.truthy c = true.
Proof. destruct c; easy. Qed.

Lemma truthy_opt_false (css : option string) :
  Py.truthy_opt css = false -> Renderer.css_block css = "".
Proof. destruct css as [c|]; [|reflexivity]. simpl. now intros ->. Qed.

(** C5, as the code behaves. For every fragment without document markers,
    [_build_html_document] returns the skeleton with the fragment verbatim in
    its body: the three literal parts of the template, with the style block
    after the first and the fragment after the second. The head part declares
    the UTF-8 charset and the responsive viewport, the middle part opens a
    zero-margin body, and no literal part opens a style element. When css is
    given (a non-empty string) the style block is <style>css</style> and the
    document has exactly one style element more than css and the fragment
    bring themselves; when css is absent (None or empty) the block is empty
    and the document has exactly the style elements of the fragment. *)
Theorem compose_fragment_wraps_in_skeleton
    (html_content : string) (css_content : option string) :
  Renderer.is_full_document html_content = false ->
  Renderer._build_html_document html_content css_content =
    Renderer.skeleton_head +:+ Renderer.css_block css_content +:+
    Renderer.skeleton_mid +:+ html_content +:+ Renderer.skeleton_tail /\
  Py.contains ("<meta charset=" +:+ Renderer.dq +:+ "UTF-8" +:+ Renderer.dq +:+ ">")
    Renderer.skeleton_head = true /\
  Py.contains ("<meta name=" +:+ Renderer.dq +:+ "viewport" +:+ Renderer.dq +:+
               " content=" +:+ Renderer.dq +:+
               "width=device-width, initial-scale=1.0" +:+ Renderer.dq +:+ ">")
    Renderer.skeleton_head = true /\
  Py.contains ("<body style=" +:+ Renderer.dq +:+ "margin: 0; padding: 0;" +:+
               Renderer.dq +:+ ">")
    Renderer.skeleton_mid = true /\
  style_blocks Renderer.skeleton_head + style_blocks Renderer.skeleton_mid +
    style_blocks Renderer.skeleton_tail = 0 /\
  (forall c, css_content = Some c -> c <> "" ->
     Renderer.css_block css_content = "<style>" +:+ c +:+ "</style>" /\
     style_blocks (Renderer._build_html_document html_content css_content) =
       1 + style_blocks c + style_blocks html_content) /\
  (Py.truthy_opt css_content = false ->
     Renderer.css_block css_content = "" /\
     style_blocks (Renderer._build_html_document html_content css_content) =
       style_blocks html_content).
Proof.
  intros Hfrag.
  assert (Hdoc : Renderer._build_html_document html_content css_content =
    Renderer.skeleton_head +:+ Renderer.css_block css_content +:+
    Renderer.skeleton_mid +:+ html_content +:+ Renderer.skeleton_tail).
  { unfold Renderer._build_html_document. now rewrite Hfrag. }
  split; [exact Hdoc|].
  split; [vm_compute; reflexivity|].
  split; [vm_compute; reflexivity|].
  split; [vm_compute; reflexivity|].
  split; [vm_compute; reflexivity|].
  split.
  - intros c -> Hc. rewrite Hdoc. unfold Renderer.css_block.
    rewrite (truthy_nonempty c Hc). split; [reflexivity|].
    rewrite style_blocks_head, !str_app_assoc, style_blocks_open.
    rewrite style_blocks_before_close, style_blocks_close_mid.
    rewrite style_blocks_before_tail. lia.
  - intros Hnone. rewrite Hdoc, (truthy_opt_false _ Hnone). split; [reflexivity|].
    rewrite str_app_nil_l, style_blocks_head, style_blocks_mid.
    apply style_blocks_before_tail.
Qed.

(** What [_build_html_document] does with a complete document and a
    non-empty css: the outcome of the one [replace] it performs. *)
Lemma compose_full_document_replace (html_content css : string) :
  Renderer.is_full_document html_content = true -> css <> "" ->
  Renderer._build_html_document html_content (Some css) =
    if Py.contains "<head>" (Py.lower html_content)
    then Py.replace_first "</head>" (("<style>" +:+ css +:+ "</style>") +:+ "</head>")
           html_content
    else Py.replace_first "<html>"
           ("<html><head>" +:+ ("<style>" +:+ css +:+ "</style>") +:+ "</head>")
           html_content.
Proof.
  intros Hfull Hcss. unfold Renderer._build_html_document, Renderer.css_block.
  rewrite Hfull. simpl Py.truthy_opt. now rewrite (truthy_nonempty css Hcss).
Qed.

(** Where the literal the code searches for is present, the style block goes
    in at its first occurrence and the rest of the document is kept. *)
Lemma compose_full_document_injects (html_content css : string) (i : nat) :
  Renderer.is_full_document html_content = true -> css <> "" ->
  (Py.contains "<head>" (Py.lower html_content) = true ->
   Py.find "</head>" html_content = Some i ->
   html_content = Py.take i html_content +:+ "</head>" +:+ Py.drop (i + 7) html_content /\
   Renderer._build_html_document html_content (Some css) =
     Py.take i html_content +:+ (("<style>" +:+ css +:+ "</style>") +:+ "</head>") +:+
     Py.drop (i + 7) html_content) /\
  (Py.contains "<head>" (Py.lower html_content) = false ->
   Py.find "<html>" html_content = Some i ->
   html_content = Py.take i html_content +:+ "<html>" +:+ Py.drop (i + 6) html_content /\
   Renderer._build_html_document html_content (Some css) =
     Py.take i html_content +:+
     ("<html><head>" +:+ ("<style>" +:+ css +:+ "</style>") +:+ "</head>") +:+
     Py.drop (i + 6) html_content).
Proof.
  intros Hfull Hcss. rewrite (compose_full_document_replace _ _ Hfull Hcss).
  split; intros -> Hfind; now apply replace_first_at.
Qed.

(** C4, where the code departs from it. For a complete document and a
    non-empty css, when the document has a literal <head> in some letter case
    but no literal lower-case </head>, or has no such <head> and no literal
    lower-case <html> tag without attributes, [_build_html_document] returns
    the document unchanged: no style block is inserted and the css is
    dropped. *)
Theorem compose_full_document_drops_css (html_content css : string) :
  Renderer.is_full_document html_content = true -> css <> "" ->
  (if Py.contains "<head>" (Py.lower html_content)
   then Py.find "</head>" html_content
   else Py.find "<html>" html_content) = None ->
  Renderer._build_html_document html_content (Some css) = html_content.
Proof.
  intros Hfull Hcss Hmiss. rewrite (compose_full_document_replace _ _ Hfull Hcss).
  destruct (Py.contains "<head>" (Py.lower html_content));
    now apply replace_first_absent.
Qed.

End Composer.

(* ===================================================================== *)
(** * The theorems at the sample inputs *)
(* ===================================================================== *)

(** C1: with delivery mode "both", a successful capture and a store that
    refuses the upload, the route answers 500 with an error payload, and
    [generate_image] raises; the inline data is not returned. *)
Lemma both_mode_store_failure_counterexample :
  response_format request_both = BOTH /\
  fst (Renderer.render_to_image render_config env_put_denied
         (html request_both) (css request_both)
         (Some (width request_both)) (Some (height request_both))
         (Some (scale request_both)) (full_page request_both)
         (transparent request_both) (after_request_log request_both initial_world))
    = Ok sample_png /\
  fst (Main.generate_image aws_sample render_config env_put_denied request_both
         initial_world)
    = Raise (HTTPException 500
        "Erro ao gerar imagem: An error occurred (AccessDenied) when calling the PutObject operation") /\
  fst (Main.post_generate aws_sample render_config env_put_denied request_both
         initial_world)
    = Main.JSONResponse 500 (mkErrorResponse "HTTP_ERROR"
        "Erro ao gerar imagem: An error occurred (AccessDenied) when calling the PutObject operation") /\
  (exists detail,
     fst (Main.post_generate aws_config_unset render_config env_ok request_both
            initial_world)
     = Main.JSONResponse 500 (mkErrorResponse "HTTP_ERROR" detail)).
Proof.
  split; [reflexivity|]. split; [vm_compute; reflexivity|].
  split; [vm_compute; reflexivity|]. split; [vm_compute; reflexivity|].
  eexists. vm_compute. reflexivity.
Qed.

(** The amended C1 at the same input. *)
Lemma both_mode_upload_failure_raises_witness :
  exists status detail w',
    Main.generate_image aws_sample render_config env_put_denied request_both
      initial_world = (Raise (HTTPException status detail), w') /\
    Main.post_generate aws_sample render_config env_put_denied request_both
      initial_world
      = (Main.JSONResponse status (mkErrorResponse "HTTP_ERROR" detail), w').
Proof.
  set (w1 := snd (Renderer.render_to_image render_config env_put_denied
                    (html request_both) (css request_both)
                    (Some (width request_both)) (Some (height request_both))
                    (Some (scale request_both)) (full_page request_both)
                    (transparent request_both)
                    (after_request_log request_both initial_world))).
  assert (Hrender :
    Renderer.render_to_image render_config env_put_denied
      (html request_both) (css request_both)
      (Some (width request_both)) (Some (height request_both))
      (Some (scale request_both)) (full_page request_both)
      (transparent request_both) (after_request_log request_both initial_world)
    = (Ok sample_png, w1)) by (vm_compute; reflexivity).
  assert (Hup : bucket_name aws_sample = "" \/
    exists e w2,
      S3.upload_bytes aws_sample env_put_denied sample_png "image/png" "images" "png"
        (Some (upload_metadata request_both)) true (before_upload w1) = (Raise e, w2)).
  { right. eexists _, _. vm_compute. reflexivity. }
  destruct (both_mode_upload_failure_raises aws_sample render_config env_put_denied
              request_both initial_world w1 sample_png eq_refl Hrender Hup)
    as (status & detail & w' & Hgen & Hpost & _).
  exists status, detail, w'. split; assumption.
Defined.

(** C2 at a render whose load times out, from a fresh application. *)
Lemma render_failure_leaves_page_open_witness :
  capture_fails_with env_load_timeout load_timeout /\
  exists p w',
    Renderer.render_to_image render_config env_load_timeout "<div>Hi</div>" None
      (Some 800%Z) (Some 600%Z) (Some 1%float) false false initial_world
      = (Raise load_timeout, w') /\
    p ∈ pages w'.
Proof.
  assert (Hf : capture_fails_with env_load_timeout load_timeout)
    by (left; reflexivity).
  split; [exact Hf|].
  destruct (render_failure_leaves_page_open render_config env_load_timeout
              "<div>Hi</div>" None (Some 800%Z) (Some 600%Z) (Some 1%float)
              false false initial_world load_timeout eq_refl eq_refl eq_refl Hf)
    as (p & w' & Hrun & Hin & _).
  exists p, w'. split; assumption.
Defined.

(** C2 at the failing input, next to the same render without the timeout:
    after the failed load page 2 is still open and the last call is the
    load; after the successful render no page is open. *)
Lemma render_timeout_page_leak_example :
  fst (Renderer.render_to_image render_config env_load_timeout "<div>Hi</div>" None
         (Some 800%Z) (Some 600%Z) (Some 1%float) false false initial_world)
    = Raise load_timeout /\
  elements (pages (snd (Renderer.render_to_image render_config env_load_timeout
         "<div>Hi</div>" None (Some 800%Z) (Some 600%Z) (Some 1%float) false false
         initial_world))) = [2] /\
  fst (Renderer.render_to_image render_config env_ok "<div>Hi</div>" None
         (Some 800%Z) (Some 600%Z) (Some 1%float) false false initial_world)
    = Ok sample_png /\
  elements (pages (snd (Renderer.render_to_image render_config env_ok
         "<div>Hi</div>" None (Some 800%Z) (Some 600%Z) (Some 1%float) false false
         initial_world))) = [].
Proof. repeat split; vm_compute; reflexivity. Qed.

(** C3: [delete_object] meets an upstream error and returns [False]; it does
    not raise. *)
Lemma delete_object_swallows_counterexample :
  delete_object_error env_delete_denied = Some access_denied /\
  fst (S3.delete_object aws_sample env_delete_denied "images/2026/01/26/abc.png"
         initial_world) = Ok false.
Proof. split; [reflexivity | vm_compute; reflexivity]. Qed.

(** The amended C3 for a refused upload and a refused delete. *)
Lemma store_error_propagation_witness :
  client_available env_put_denied initial_world /\
  (exists w',
     S3.upload_bytes aws_sample env_put_denied sample_png "image/png" "images" "png"
       None true initial_world = (Raise access_denied, w')) /\
  (exists w' l,
     S3.delete_object aws_sample env_delete_denied "k" initial_world = (Ok false, w') /\
     log w' = l ++ [Log ERROR (RemoveError (str_exn access_denied))]).
Proof.
  assert (Hc : client_available env_put_denied initial_world) by (right; reflexivity).
  assert (Hd : client_available env_delete_denied initial_world) by (right; reflexivity).
  split; [exact Hc|]. split.
  - destruct (store_error_propagation aws_sample env_put_denied initial_world Hc)
      as (Hup & _).
    apply Hup; [discriminate | reflexivity].
  - destruct (store_error_propagation aws_sample env_delete_denied initial_world Hd)
      as (_ & Hdel & _).
    apply (Hdel "k" (Some "AccessDenied")). reflexivity.
Defined.

(** C4 at its two failing inputs: a root tag with an attribute and no head,
    and a document in upper case. *)
Lemma compose_full_document_drops_css_witness :
  Renderer.is_full_document doc_with_lang = true /\
  Py.contains "<head>" (Py.lower doc_with_lang) = false /\
  Py.find "<html>" doc_with_lang = None /\
  Renderer._build_html_document doc_with_lang (Some "h1 { color: red; }")
    = doc_with_lang /\
  Renderer.is_full_document doc_upper = true /\
  Py.contains "<head>" (Py.lower doc_upper) = true /\
  Py.find "</head>" doc_upper = None /\
  Renderer._build_html_document doc_upper (Some "h1 { color: red; }") = doc_upper.
Proof.
  split; [vm_compute; reflexivity|]. split; [vm_compute; reflexivity|].
  split; [vm_compute; reflexivity|]. split.
  { apply (compose_full_document_drops_css doc_with_lang "h1 { color: red; }");
      [vm_compute; reflexivity | discriminate | vm_compute; reflexivity]. }
  split; [vm_compute; reflexivity|]. split; [vm_compute; reflexivity|].
  split; [vm_compute; reflexivity|].
  apply (compose_full_document_drops_css doc_upper "h1 { color: red; }");
    [vm_compute; reflexivity | discriminate | vm_compute; reflexivity].
Defined.

(** C5: a fragment without document markers that has a style element of its
    own is kept verbatim, so the document composed with a css has two style
    elements; so has the document composed from a plain fragment and a css
    that itself opens a style element. *)
Lemma compose_fragment_style_count_counterexample :
  Renderer.is_full_document fragment_with_style = false /\
  Py.contains fragment_with_style
    (Renderer._build_html_document fragment_with_style (Some "a{}")) = true /\
  style_blocks (Renderer._build_html_document fragment_with_style (Some "a{}")) = 2 /\
  Renderer.is_full_document "<p>x</p>" = false /\
  style_blocks (Renderer._build_html_document "<p>x</p>" (Some css_with_tags)) = 2.
Proof. repeat split; vm_compute; reflexivity. Qed.

(** The amended C5 for a small fragment, with and without css. *)
Lemma compose_fragment_wraps_in_skeleton_witness :
  Renderer.is_full_document "<div>Hi</div>" = false /\
  style_blocks (Renderer._build_html_document "<div>Hi</div>"
                  (Some "h1 { color: red; }")) = 1 /\
  style_blocks (Renderer._build_html_document "<div>Hi</div>" None) = 0.
Proof.
  assert (Hf : Renderer.is_full_document "<div>Hi</div>" = false)
    by (vm_compute; reflexivity).
  split; [exact Hf|]. split.
  - destruct (compose_fragment_wraps_in_skeleton "<div>Hi</div>"
                (Some "h1 { color: red; }") Hf) as (_ & _ & _ & _ & _ & Hcss & _).
    destruct (Hcss "h1 { color: red; }" eq_refl ltac:(discriminate)) as [_ ->].
    vm_compute. reflexivity.
  - destruct (compose_fragment_wraps_in_skeleton "<div>Hi</div>" None Hf)
      as (_ & _ & _ & _ & _ & _ & Hnone).
    destruct (Hnone eq_refl) as [_ ->]. vm_compute. reflexivity.
Defined.

(** C7 without a bucket, and with a bucket and a store that refuses the
    upload. *)
Lemma upload_bytes_failure_modes_witness :
  bucket_name aws_config_unset = "" /\
  (exists msg,
     S3.upload_bytes aws_config_unset env_ok sample_png "image/png" "images" "png"
       None true initial_world = (Raise (ValueError msg), initial_world)) /\
  bucket_name aws_sample <> "" /\
  (exists w' l,
     S3.upload_bytes aws_sample env_put_denied sample_png "image/png" "images" "png"
       None true initial_world = (Raise access_denied, w') /\
     log w' = l ++ [Log ERROR (UploadError "AccessDenied" (str_exn access_denied))]).
Proof.
  split; [reflexivity|]. split.
  - destruct (upload_bytes_failure_modes aws_config_unset env_ok sample_png
                "image/png" "images" "png" None true initial_world) as [Hunset _].
    apply Hunset. reflexivity.
  - split; [discriminate|].
    destruct (upload_bytes_failure_modes aws_sample env_put_denied sample_png
                "image/png" "images" "png" None true initial_world) as [_ Hfail].
    apply (Hfail ltac:(discriminate) ltac:(right; reflexivity)
             (Some "AccessDenied")). reflexivity.
Defined.

(** C8 for two uploads at the same moment. *)
Lemma generate_key_format_and_uniqueness_witness :
  calendar_date (utcnow env_ok) /\
  fst (S3._generate_key env_ok "images" "png" initial_world)
    = Ok "images/2026/01/26/0123456789abcdef0123456789abcdef.png" /\
  String.length (Py.fmt_02d (month (utcnow env_ok))) = 2 /\
  uuid4_hex env_ok <> uuid4_hex (sample_env None None None other_uuid) /\
  (forall k1 k2 w1 w2,
     S3._generate_key env_ok "images" "png" initial_world = (Ok k1, w1) ->
     S3._generate_key (sample_env None None None other_uuid) "images" "png"
       initial_world = (Ok k2, w2) ->
     k1 <> k2).
Proof.
  assert (Hd : calendar_date (utcnow env_ok)) by (vm_compute; intuition discriminate).
  assert (Hne : uuid4_hex env_ok <> uuid4_hex (sample_env None None None other_uuid))
    by discriminate.
  destruct (generate_key_format_and_uniqueness "images" "png")
    as (Hfmt & Hdigits & Huniq).
  split; [exact Hd|]. split; [rewrite Hfmt; vm_compute; reflexivity|].
  split; [apply (Hdigits env_ok Hd)|]. split; [exact Hne|].
  intros k1 k2 w1 w2 H1 H2.
  apply (Huniq env_ok (sample_env None None None other_uuid)
           initial_world initial_world k1 k2 w1 w2 H1 H2 Hne).
  left. reflexivity.
Defined.

(** C9 from a fresh application: one launch, then the cached handle. *)
Lemma get_browser_idempotent_witness :
  stale initial_world /\
  exists b w',
    Renderer._get_browser env_ok initial_world = (Ok b, w') /\
    renderer_browser w' = Some b /\
    Renderer._get_browser env_ok w' = (Ok b, w').
Proof.
  assert (Hs : stale initial_world) by (left; reflexivity).
  split; [exact Hs|].
  destruct (get_browser_idempotent env_ok initial_world) as (_ & Hlaunch & Hagain).
  destruct (Hlaunch Hs eq_refl eq_refl) as (b & w' & Hrun & _ & Hb & _).
  exists b, w'. split; [exact Hrun|]. split; [exact Hb|].
  apply (Hagain b w' Hrun env_ok).
Defined.

(** C6 for a width above the ceiling and a height below 1. *)
Lemma validate_dimensions_clamps_witness :
  (1 <= max_width render_config)%Z /\ (1 <= max_height render_config)%Z /\
  exists vw vh w',
    Renderer._validate_dimensions render_config 99999 0 initial_world
      = (Ok (vw, vh), w') /\
    in_bounds vw 4096 /\ in_bounds vh 4096.
Proof.
  assert (Hw : (1 <= max_width render_config)%Z) by (simpl; lia).
  assert (Hh : (1 <= max_height render_config)%Z) by (simpl; lia).
  split; [exact Hw|]. split; [exact Hh|].
  destruct (validate_dimensions_clamps render_config 99999 0 initial_world Hw Hh)
    as (vw & vh & w' & Run & Bw & Bh & _).
  exists vw, vh, w'. repeat split; solve [exact Run | apply Bw | apply Bh].
Defined.

(* ===================================================================== *)
(** * Further properties of the renderer and of the store *)
(* ===================================================================== *)

(** ** Shutdown (renderer.py, [close]) *)

(** X1. [close] closes the engine and then stops the driver, with no [try]
    around either call. When the calls it makes succeed it returns: no
    engine and no driver is cached and the engine that was cached is
    disconnected; a second [close] then calls nothing and returns, whatever
    the outside would answer, and the next acquisition launches a new
    engine. With nothing cached it calls nothing and returns. When closing
    the engine raises, [close] raises the same exception at once: the engine
    and the driver stay cached, the driver is not stopped, nothing is
    logged. When stopping the driver raises, [close] raises it with the
    engine already released and the driver still cached. *)
Theorem close_releases_engine (E : env) (w : world) :
  (browser_close_error E = None -> playwright_stop_error E = None ->
   exists w',
     Renderer.close E w = (Ok tt, w') /\
     renderer_browser w' = None /\
     renderer_playwright w' = None /\
     (forall b, renderer_browser w = Some b -> b ∉ connected w') /\
     log w' = log w ++ [Log INFO BrowserClosed] /\
     (forall E', exists w'',
        Renderer.close E' w' = (Ok tt, w'') /\
        trace w'' = trace w' /\ connected w'' = connected w') /\
     (forall E', playwright_start_error E' = None -> launch_error E' = None ->
        exists b w2,
          Renderer._get_browser E' w' = (Ok b, w2) /\
          b ∈ connected w2 /\
          trace w2 = trace w' ++ [EvPlaywrightStart; EvLaunch Renderer.launch_args])) /\
  (renderer_browser w = None -> renderer_playwright w = None ->
     Renderer.close E w = (Ok tt, with_log (log w ++ [Log INFO BrowserClosed]) w)) /\
  (forall b e, renderer_browser w = Some b -> browser_close_error E = Some e ->
     Renderer.close E w =
       (Raise e, with_trace (trace w ++ [EvBrowserClose b]) w)) /\
  (forall d e, renderer_playwright w = Some d -> playwright_stop_error E = Some e ->
     renderer_browser w = None \/ browser_close_error E = None ->
     exists w',
       Renderer.close E w = (Raise e, w') /\
       renderer_browser w' = None /\
       renderer_playwright w' = Some d /\
       (forall b, renderer_browser w = Some b -> b ∉ connected w') /\
       log w' = log w).
Proof.
  assert (Hrelaunch : forall w0, renderer_browser w0 = None ->
    forall E', playwright_start_error E' = None -> launch_error E' = None ->
    exists b w2,
      Renderer._get_browser E' w0 = (Ok b, w2) /\
      b ∈ connected w2 /\
      trace w2 = trace w0 ++ [EvPlaywrightStart; EvLaunch Renderer.launch_args]).
  { intros w0 Hnone E' Hp Hl.
    rewrite (get_browser_stale E' w0 (or_introl Hnone)), Hp, Hl.
    eexists _, _. split; [reflexivity|]. simpl. split; [set_solver|].
    now rewrite <- app_assoc. }
  assert (Hnot : forall (b : nat) (X : gset nat), b ∉ X ∖ {[ b ]}).
  { intros b X Hin. apply elem_of_difference in Hin as [_ Hne].
    now apply Hne, elem_of_singleton. }
  unfold Renderer.close, Renderer.browser_close, Renderer.playwright_stop.
  destruct w as [rb rp sc cn pg ni tr lg].
  split; [|split; [|split]].
  - intros Hb Hp. rewrite Hb, Hp.
    destruct rb as [b|], rp as [d|]; run;
      (eexists; split; [reflexivity|]; simpl;
       split; [reflexivity|]; split; [reflexivity|];
       split; [intros b' Hb'; try discriminate; injection Hb' as <-; apply Hnot|];
       split; [reflexivity|];
       split; [intros E'; eexists; split; [reflexivity|]; split; reflexivity|];
       apply Hrelaunch; reflexivity).
  - simpl. intros -> ->. reflexivity.
  - simpl. intros b e -> ->. reflexivity.
  - simpl. intros d e -> -> Hb.
    destruct rb as [b|].
    + destruct Hb as [Hb|Hb]; [discriminate|]. rewrite Hb. run.
      eexists. split; [reflexivity|]. simpl.
      split; [reflexivity|]. split; [reflexivity|].
      split; [intros b' [= <-]; apply Hnot | reflexivity].
    + run. eexists. split; [reflexivity|]. simpl.
      split; [reflexivity|]. split; [reflexivity|].
      split; [discriminate | reflexivity].
Qed.

(** ** The store client (s3_service.py, [_get_client]) *)

Section StoreClient.

Variable aws_config : AWSConfig.
Variable E : env.

Lemma get_client_cached (w : world) (c : nat) :
  s3_client w = Some c -> S3._get_client aws_config E w = (Ok c, w).
Proof. intros Hc. unfold S3._get_client. run. now rewrite Hc. Qed.

(** X2. The store client is built once. A cached client is returned with no
    call to boto3. Without one, a failure of [boto3.client] is raised and
    nothing is cached; a success is cached, and every later call returns
    that client and leaves the world unchanged, even when [boto3.client]
    would now fail. *)
Theorem get_client_builds_once (w : world) :
  (forall c, s3_client w = Some c ->
     S3._get_client aws_config E w = (Ok c, w)) /\
  (s3_client w = None ->
     forall e, boto3_client_error E = Some e ->
     exists w', S3._get_client aws_config E w = (Raise e, w') /\
                s3_client w' = None) /\
  (s3_client w = None -> boto3_client_error E = None ->
     exists c w' cfg,
       S3._get_client aws_config E w = (Ok c, w') /\
       s3_client w' = Some c /\
       trace w' = trace w ++ [EvBoto3Client cfg] /\
       forall E', S3._get_client aws_config E' w' = (Ok c, w')).
Proof.
  split; [|split].
  - intros c. apply get_client_cached.
  - intros Hn e He. unfold S3._get_client, S3.boto3_client. run.
    rewrite Hn, He. simpl. eexists. split; [reflexivity|]. exact Hn.
  - intros Hn He. unfold S3._get_client, S3.boto3_client. run.
    rewrite Hn, He. simpl. eexists _, _, _. split; [reflexivity|].
    split; [reflexivity|]. split; [reflexivity|].
    intros E'. unfold S3._get_client. run. reflexivity.
Qed.

(** X3. The configuration handed to [boto3.client] names the service and
    the region; it carries the access key and the secret only when both are
    set (with one of them missing, neither is passed), and the endpoint only
    when one is configured and not empty. *)
Theorem get_client_configuration (w : world) :
  s3_client w = None ->
  exists cfg,
    trace (snd (S3._get_client aws_config E w)) = trace w ++ [EvBoto3Client cfg] /\
    cfg !! "service_name" = Some "s3" /\
    cfg !! "region_name" = Some (region aws_config) /\
    cfg !! "aws_access_key_id" =
      (if Py.truthy (access_key_id aws_config) &&
          Py.truthy (secret_access_key aws_config)
       then Some (access_key_id aws_config) else None) /\
    cfg !! "aws_secret_access_key" =
      (if Py.truthy (access_key_id aws_config) &&
          Py.truthy (secret_access_key aws_config)
       then Some (secret_access_key aws_config) else None) /\
    cfg !! "endpoint_url" =
      (if Py.truthy_opt (endpoint_url aws_config)
       then endpoint_url aws_config else None).
Proof.
  intros Hn. unfold S3._get_client, S3.boto3_client, S3._region. run.
  rewrite Hn.
  destruct (Py.truthy (access_key_id aws_config) &&
            Py.truthy (secret_access_key aws_config));
    destruct (endpoint_url aws_config) as [u|]; simpl;
    try destruct (Py.truthy u);
    destruct (boto3_client_error E); simpl;
    (eexists; split; [reflexivity|]; repeat split; now simplify_map_eq).
Qed.

End StoreClient.

(** ** Successful uploads (s3_service.py, [upload_bytes], [_get_public_url]) *)

Section StoreUpload.

Variable aws_config : AWSConfig.
Variable E : env.

(** X4. The public URL is a base, fixed by the configuration, followed by
    the key: a non-empty custom endpoint gives endpoint/bucket/, anything
    else (no endpoint, or an empty one) the virtual-hosted AWS form. Hence
    different keys have different URLs. *)
Theorem public_url_is_base_plus_key :
  exists base,
    (forall key, S3._get_public_url aws_config key = base +:+ key) /\
    (Py.truthy_opt (endpoint_url aws_config) = false ->
       base = "https://" +:+ bucket_name aws_config +:+ ".s3." +:+
              region aws_config +:+ ".amazonaws.com/") /\
    (forall u, endpoint_url aws_config = Some u -> u <> "" ->
       base = u +:+ "/" +:+ bucket_name aws_config +:+ "/") /\
    (forall k1 k2,
       S3._get_public_url aws_config k1 = S3._get_public_url aws_config k2 ->
       k1 = k2).
Proof.
  unfold S3._get_public_url, S3._bucket_name, S3._region.
  destruct (endpoint_url aws_config) as [u|] eqn:Hu.
  - destruct u as [|c u].
    + exists ("https://" +:+ bucket_name aws_config +:+ ".s3." +:+
              region aws_config +:+ ".amazonaws.com/"). simpl.
      split; [intros key; now rewrite !str_app_assoc|].
      split; [reflexivity|]. split; [intros u [= <-] Hne; now destruct Hne|].
      intros k1 k2 H. repeat (apply str_app_inv_head in H). exact H.
    + exists (String c u +:+ "/" +:+ bucket_name aws_config +:+ "/"). simpl.
      split; [intros key; now rewrite !str_app_assoc|].
      split; [discriminate|]. split; [now intros u' [= <-] _|].
      intros k1 k2 H. repeat (apply str_app_inv_head in H). exact H.
  - exists ("https://" +:+ bucket_name aws_config +:+ ".s3." +:+
            region aws_config +:+ ".amazonaws.com/"). simpl.
    split; [intros key; now rewrite !str_app_assoc|].
    split; [reflexivity|]. split; [discriminate|].
    intros k1 k2 H. repeat (apply str_app_inv_head in H). exact H.
Qed.

Lemma get_client_trace (w : world) :
  client_available E w ->
  exists c w1 pre,
    S3._get_client aws_config E w = (Ok c, w1) /\
    trace w1 = trace w ++ pre /\
    (pre = [] \/ exists cfg, pre = [EvBoto3Client cfg]).
Proof.
  intros Hc. unfold S3._get_client, S3.boto3_client. run.
  destruct (s3_client w) as [c|] eqn:Hs.
  - exists c, w, []. split; [reflexivity|]. split; [now rewrite app_nil_r | now left].
  - destruct Hc as [[c Hc] | Hb]; [congruence|]. rewrite Hb. simpl.
    eexists _, _, _. split; [reflexivity|]. simpl. split; [reflexivity|].
    right. eauto.
Qed.

(** X5. With the bucket set, a client at hand and a store that accepts the
    object, [upload_bytes] reads the clock, draws an identifier and makes
    exactly one [put_object] call, with the bucket, the generated key and
    the data as they are; before that it calls nothing but [boto3.client],
    when no client was cached. The arguments carry the content type, the
    public-read ACL only when [make_public] holds, and the metadata only
    when a non-empty dictionary is given. The record returned has that key,
    its public URL, the bucket, the number of bytes and the content type. *)
Theorem upload_bytes_success (data : bytes)
    (content_type prefix extension : string)
    (metadata : option (gmap string string)) (make_public : bool) (w : world) :
  bucket_name aws_config <> "" -> client_available E w ->
  put_object_error E = None ->
  exists w' pre extra,
    let key := S3.key_of prefix extension (utcnow E) (uuid4_hex E) in
    S3.upload_bytes aws_config E data content_type prefix extension metadata
      make_public w =
      (Ok {| S3.key := key;
             S3.url := S3._get_public_url aws_config key;
             S3.bucket := bucket_name aws_config;
             S3.size := length data;
             S3.content_type := content_type |}, w') /\
    trace w' = trace w ++ pre ++
      [EvUtcNow; EvUuid4; EvPutObject (bucket_name aws_config) key data extra] /\
    (pre = [] \/ exists cfg, pre = [EvBoto3Client cfg]) /\
    extra !! "ContentType" = Some (AStr content_type) /\
    extra !! "ACL" = (if make_public then Some (AStr "public-read") else None) /\
    extra !! "Metadata" =
      match metadata with
      | Some d => if bool_decide (d = ∅) then None else Some (AMeta d)
      | None => None
      end.
Proof.
  intros Hb Hc Hput. unfold S3.upload_bytes.
  rewrite (bucket_set_truthy aws_config Hb). simpl.
  destruct (get_client_trace w Hc) as (c & w1 & pre & Hrun & Htr & Hpre).
  rewrite (bind_ok _ _ _ _ _ Hrun).
  unfold S3._generate_key, datetime_utcnow, uuid4, S3.put_object, S3.truthy_dict.
  rewrite Hput. run.
  eexists _, pre, _. split; [reflexivity|]. simpl.
  split; [rewrite Htr, <- !app_assoc; reflexivity|].
  split; [exact Hpre|].
  destruct metadata as [d|]; [destruct (bool_decide (d = ∅))|];
    destruct make_public; simpl; repeat split; now simplify_map_eq.
Qed.

End StoreUpload.

(** ** Delivery modes (main.py, [generate_image]) *)

Section DeliveryModes.

Variable aws_config : AWSConfig.
Variable rc : RenderConfig.
Variable E : env.

(** The [except] clauses of [generate_image]: an [HTTPException] goes
    through, anything else becomes a 500. *)
Lemma generate_image_handler (request : ImageGenerateRequest) (w : world) :
  Main.generate_image aws_config rc E request w =
  match
    (image_bytes <- render_of rc E request ;;
     now <- datetime_utcnow E ;;
     let response_data :=
       {| success := true; url := None;
          base64 := if Main.wants_base64 (response_format request)
                    then Some (data_url image_bytes) else None;
          metadata := base_metadata E request image_bytes |} in
     response_data <-
       (if Main.wants_url (response_format request) then
          if negb (Py.truthy (bucket_name aws_config)) then
            raise (HTTPException 500
              "Bucket S3 não configurado. Configure a variável AWS_S3_BUCKET")
          else
            upload_result <- S3.upload_bytes aws_config E image_bytes
                "image/png" "images" "png" (Some (upload_metadata request)) true ;;
            ret {| success := true;
                   url := Some (S3.url upload_result);
                   base64 := base64 response_data;
                   metadata :=
                     <[ "s3_bucket" := VStr (S3.bucket upload_result) ]>
                     (<[ "s3_key" := VStr (S3.key upload_result) ]>
                        (base_metadata E request image_bytes)) |}
        else ret response_data) ;;
     logger INFO (ImageGenerated (length image_bytes)) ;;
     ret response_data) (after_request_log request w)
  with
  | (Ok a, w') => (Ok a, w')
  | (Raise e, w') =>
      (Raise (as_http e),
       if is_http e then w'
       else with_log (log w' ++ [Log ERROR (GenerateError (str_exn e))]) w')
  end.
Proof.
  unfold Main.generate_image. unfold bind at 1. unfold logger at 1, modify.
  fold (after_request_log request w). unfold try_except.
  unfold render_of, data_url, base_metadata, upload_metadata.
  destruct (response_format request); simpl Main.wants_base64;
    simpl Main.wants_url; cbv iota;
    match goal with
    | |- match ?m ?w0 with _ => _ end = match ?m' ?w0 with _ => _ end =>
        change m' with m; destruct (m w0) as [[a|e] w']; [reflexivity|]
    end; destruct e; reflexivity.
Qed.

Lemma as_http_is_http (e : exn) :
  exists c d, as_http e = HTTPException c d.
Proof. destruct e; simpl; eauto. Qed.

(** What a successful [upload_bytes] returns. *)
Lemma upload_bytes_ok_inv (data : bytes) (content_type prefix extension : string)
    (metadata : option (gmap string string)) (make_public : bool)
    (w w' : world) (up : S3.UploadResult) :
  S3.upload_bytes aws_config E data content_type prefix extension metadata
    make_public w = (Ok up, w') ->
  bucket_name aws_config <> "" /\
  up = {| S3.key := S3.key_of prefix extension (utcnow E) (uuid4_hex E);
          S3.url := S3._get_public_url aws_config
                      (S3.key_of prefix extension (utcnow E) (uuid4_hex E));
          S3.bucket := bucket_name aws_config;
          S3.size := length data;
          S3.content_type := content_type |}.
Proof.
  unfold S3.upload_bytes, S3._bucket_name.
  destruct (bucket_name aws_config) as [|c0 b0] eqn:Hb; simpl; [discriminate|].
  unfold bind at 1.
  destruct (S3._get_client aws_config E w) as [[c|e] w1]; [|discriminate].
  unfold S3._generate_key, datetime_utcnow, uuid4, S3.put_object. run.
  destruct (put_object_error E) as [e|]; simpl.
  - destruct e; simpl; discriminate.
  - intros [= <- _]. split; [discriminate | reflexivity].
Qed.

(** X6. Whenever [generate_image] returns a response, the render at its head
    succeeded once and the response describes its bytes: [success] is true,
    the inline data URL is present exactly in the modes base64 and both, the
    URL exactly in the modes url and both (so at least one of the two is
    present). With a URL the bucket is configured, the URL is the public
    URL of the key generated under images/ with extension png, and the
    metadata names that key and the bucket; without one the metadata has
    only the six base entries. The size reported is the number of bytes. *)
Theorem generate_image_delivers_requested_forms
    (request : ImageGenerateRequest) (w w' : world)
    (resp : ImageGenerateResponse) :
  Main.generate_image aws_config rc E request w = (Ok resp, w') ->
  exists image_bytes w1,
    render_of rc E request (after_request_log request w) = (Ok image_bytes, w1) /\
    success resp = true /\
    base64 resp = (if Main.wants_base64 (response_format request)
                   then Some (data_url image_bytes) else None) /\
    (is_Some (url resp) <-> Main.wants_url (response_format request) = true) /\
    (is_Some (url resp) \/ is_Some (base64 resp)) /\
    metadata resp !! "size_bytes" = Some (VInt (Z.of_nat (length image_bytes))) /\
    metadata resp !! "width" = Some (VInt (width request)) /\
    metadata resp !! "height" = Some (VInt (height request)) /\
    (Main.wants_url (response_format request) = true ->
       let key := S3.key_of "images" "png" (utcnow E) (uuid4_hex E) in
       bucket_name aws_config <> "" /\
       url resp = Some (S3._get_public_url aws_config key) /\
       metadata resp !! "s3_key" = Some (VStr key) /\
       metadata resp !! "s3_bucket" = Some (VStr (bucket_name aws_config))) /\
    (Main.wants_url (response_format request) = false ->
       metadata resp = base_metadata E request image_bytes).
Proof.
  rewrite generate_image_handler. unfold bind at 1.
  destruct (render_of rc E request (after_request_log request w))
    as [[image_bytes|e] w1]; [|discriminate].
  unfold datetime_utcnow. run. fold (before_upload w1).
  intros Hrun. exists image_bytes, w1. split; [reflexivity|].
  destruct (Main.wants_url (response_format request)) eqn:Hurl.
  - destruct (negb (Py.truthy (bucket_name aws_config))); [discriminate|].
    destruct (S3.upload_bytes aws_config E image_bytes "image/png" "images" "png"
                (Some (upload_metadata request)) true (before_upload w1))
      as [[up|e] w2] eqn:Hup; [|discriminate].
    apply upload_bytes_ok_inv in Hup as [Hb ->]. simpl in Hrun.
    injection Hrun as <- _. simpl.
    split; [reflexivity|]. split; [reflexivity|].
    split; [split; [reflexivity | eauto]|]. split; [left; eauto|].
    unfold base_metadata.
    split; [now simplify_map_eq|]. split; [now simplify_map_eq|].
    split; [now simplify_map_eq|].
    split; [|discriminate].
    intros _. split; [exact Hb|]. split; [reflexivity|].
    split; now simplify_map_eq.
  - injection Hrun as <- _. simpl.
    split; [reflexivity|]. split; [reflexivity|].
    split; [split; [intros [x Hx]; discriminate | discriminate]|].
    split.
    { right. destruct (response_format request); simpl in *;
        try discriminate; eauto. }
    unfold base_metadata.
    split; [now simplify_map_eq|]. split; [now simplify_map_eq|].
    split; [now simplify_map_eq|].
    split; [discriminate | reflexivity].
Qed.

(** X7. In mode base64, once the render has succeeded, [generate_image]
    returns the inline data URL and no URL, whatever the store
    configuration is (a bucket or none): after the render it only reads the
    clock. It builds no store client and makes no store call. *)
Theorem generate_image_base64_skips_store
    (request : ImageGenerateRequest) (w w1 : world) (image_bytes : bytes) :
  response_format request = BASE64 ->
  render_of rc E request (after_request_log request w) = (Ok image_bytes, w1) ->
  exists w',
    Main.generate_image aws_config rc E request w =
      (Ok {| success := true; url := None;
             base64 := Some (data_url image_bytes);
             metadata := base_metadata E request image_bytes |}, w') /\
    trace w' = trace w1 ++ [EvUtcNow] /\
    s3_client w' = s3_client w1 /\
    log w' = log w1 ++ [Log INFO (ImageGenerated (length image_bytes))].
Proof.
  intros Hfmt Hrender. rewrite generate_image_handler.
  rewrite (bind_ok _ _ _ _ _ Hrender), Hfmt. unfold datetime_utcnow. run.
  eexists. split; [reflexivity|]. simpl. repeat split.
Qed.

(** X8. When the render raises [e], in any mode, [generate_image] makes no
    further call: it logs the error and raises a 500 whose detail quotes
    [e] (an [HTTPException] would go through as it is), and the route
    answers with that status and detail under the code HTTP_ERROR. *)
Theorem generate_image_render_failure
    (request : ImageGenerateRequest) (w w1 : world) (e : exn) :
  render_of rc E request (after_request_log request w) = (Raise e, w1) ->
  is_http e = false ->
  Main.generate_image aws_config rc E request w =
    (Raise (HTTPException 500 ("Erro ao gerar imagem: " +:+ str_exn e)),
     with_log (log w1 ++ [Log ERROR (GenerateError (str_exn e))]) w1) /\
  Main.post_generate aws_config rc E request w =
    (Main.JSONResponse 500
       (mkErrorResponse "HTTP_ERROR" ("Erro ao gerar imagem: " +:+ str_exn e)),
     with_log (log w1 ++ [Log ERROR (GenerateError (str_exn e))]) w1).
Proof.
  intros Hrender Hne.
  assert (Hgen : Main.generate_image aws_config rc E request w =
    (Raise (HTTPException 500 ("Erro ao gerar imagem: " +:+ str_exn e)),
     with_log (log w1 ++ [Log ERROR (GenerateError (str_exn e))]) w1)).
  { rewrite generate_image_handler. rewrite (bind_raise _ _ _ _ _ Hrender).
    rewrite Hne. destruct e; try discriminate; reflexivity. }
  split; [exact Hgen|]. unfold Main.post_generate. now rewrite Hgen.
Qed.

(** X9. [generate_image] raises nothing but [HTTPException]: the route
    answers either 200 with the response, or the status and detail of that
    exception under the code HTTP_ERROR. The handler of unexpected
    exceptions (INTERNAL_ERROR) is never reached from this route. *)
Theorem post_generate_never_internal_error
    (request : ImageGenerateRequest) (w : world) :
  (exists body w',
     Main.generate_image aws_config rc E request w = (Ok body, w') /\
     Main.post_generate aws_config rc E request w = (Main.Response200 body, w')) \/
  (exists c d w',
     Main.generate_image aws_config rc E request w = (Raise (HTTPException c d), w') /\
     Main.post_generate aws_config rc E request w =
       (Main.JSONResponse c (mkErrorResponse "HTTP_ERROR" d), w')).
Proof.
  assert (Hraise : forall e w',
    Main.generate_image aws_config rc E request w = (Raise e, w') ->
    exists c d, e = HTTPException c d).
  { intros e w'. rewrite generate_image_handler.
    match goal with
    | |- match ?x with _ => _ end = _ -> _ => destruct x as [[a|e0] w0]
    end; [discriminate|].
    intros [= <- _]. apply as_http_is_http. }
  unfold Main.post_generate.
  destruct (Main.generate_image aws_config rc E request w) as [[body|e] w'].
  - left. eauto.
  - right. destruct (Hraise e w' eq_refl) as (c & d & ->). eauto 6.
Qed.

End DeliveryModes.

(** ** The preview route (main.py, [generate_preview]) *)

Section Preview.

Variable rc : RenderConfig.
Variable E : env.

(** X10. [generate_preview] renders and, on success, reads the clock and
    returns the inline data URL with no URL and the six base metadata
    entries; it calls nothing else. When the render raises [e], whatever
    [e] is (an [HTTPException] included), it logs the error and raises a 500
    whose detail is "Erro ao gerar preview: " followed by [e]. *)
Theorem generate_preview_outcomes (request : ImageGenerateRequest) (w : world) :
  (forall image_bytes w1,
     render_of rc E request w = (Ok image_bytes, w1) ->
     Main.generate_preview rc E request w =
       (Ok {| success := true; url := None;
              base64 := Some (data_url image_bytes);
              metadata := base_metadata E request image_bytes |},
        with_trace (trace w1 ++ [EvUtcNow]) w1)) /\
  (forall e w1,
     render_of rc E request w = (Raise e, w1) ->
     Main.generate_preview rc E request w =
       (Raise (HTTPException 500 ("Erro ao gerar preview: " +:+ str_exn e)),
        with_log (log w1 ++ [Log ERROR (PreviewError (str_exn e))]) w1)).
Proof.
  unfold render_of. split.
  - intros image_bytes w1 Hrender. unfold Main.generate_preview, try_except.
    rewrite (bind_ok _ _ _ _ _ Hrender). reflexivity.
  - intros e w1 Hrender. unfold Main.generate_preview, try_except.
    rewrite (bind_raise _ _ _ _ _ Hrender). reflexivity.
Qed.

End Preview.

(** ** The health route (main.py, [health_check]) *)

Section Health.

Variable aws_config : AWSConfig.
Variable E : env.
Variable app_config : AppConfig.

(** X11. [health_check] never raises, whatever the store does. It reports
    the configured version and the renderer as "ok" without probing the
    engine. Without a bucket it contacts nothing and reports the store as
    "not_configured" and the application as "healthy". With a bucket the
    store is "ok" when [check_connection] returns [True] and "error"
    otherwise (it returned [False] or raised); the application is
    "degraded" exactly when the store is "error". *)
Theorem health_check_reports_store (w : world) :
  exists resp w',
    Main.health_check aws_config E app_config w = (Ok resp, w') /\
    version resp = app_version app_config /\
    services resp !! "renderer" = Some "ok" /\
    (status resp = "degraded" <-> services resp !! "s3" = Some "error") /\
    (status resp = "healthy" \/ status resp = "degraded") /\
    (bucket_name aws_config = "" ->
       w' = w /\ services resp !! "s3" = Some "not_configured" /\
       status resp = "healthy") /\
    (bucket_name aws_config <> "" ->
       (fst (S3.check_connection aws_config E w) = Ok true ->
          services resp !! "s3" = Some "ok" /\ status resp = "healthy") /\
       (fst (S3.check_connection aws_config E w) <> Ok true ->
          services resp !! "s3" = Some "error" /\ status resp = "degraded")).
Proof.
  unfold Main.health_check.
  destruct (bucket_name aws_config) as [|c0 b0] eqn:Hb; simpl Py.truthy; cbv iota.
  - eexists _, _. split; [reflexivity|]. simpl.
    split; [reflexivity|]. split; [reflexivity|].
    split; [split; intros H; vm_compute in H; discriminate|].
    split; [now left|]. split; [repeat split|]. intros Hne. now destruct Hne.
  - unfold bind at 1. unfold try_except. unfold bind at 1.
    destruct (S3.check_connection aws_config E w) as [[[|]|e] w1]; run;
      (eexists _, _; split; [reflexivity|]; simpl;
       split; [reflexivity|]; split; [reflexivity|];
       split; [split; intros H; solve [reflexivity | vm_compute in H; discriminate]|];
       split; [solve [now left | now right]|];
       split; [discriminate|]; intros _; split; intros H;
       solve [ split; reflexivity | discriminate | now destruct H ]).
Qed.

End Health.

(** ** Dimension validation, composed *)

Section ValidationComposed.

Variable rc : RenderConfig.

(** X12. Validation is idempotent and keeps the order: validating the
    validated dimensions again returns them unchanged and logs nothing, and
    of two requested values the larger never gets the smaller validated
    value. *)
Theorem validate_dimensions_idempotent (width height : Z) (w : world) :
  (1 <= max_width rc)%Z -> (1 <= max_height rc)%Z ->
  exists vw vh w1,
    Renderer._validate_dimensions rc width height w = (Ok (vw, vh), w1) /\
    Renderer._validate_dimensions rc vw vh w1 = (Ok (vw, vh), w1) /\
    (forall width' height' w0,
       (width <= width')%Z -> (height <= height')%Z ->
       exists vw' vh' w1',
         Renderer._validate_dimensions rc width' height' w0 = (Ok (vw', vh'), w1') /\
         (vw <= vw')%Z /\ (vh <= vh')%Z).
Proof.
  intros Hw Hh.
  assert (Run : forall a b w0, exists w1,
    Renderer._validate_dimensions rc a b w0 =
      (Ok (Z.max 1 (Z.min a (max_width rc)), Z.max 1 (Z.min b (max_height rc))),
       w1) /\
    (in_bounds a (max_width rc) -> in_bounds b (max_height rc) -> w1 = w0)).
  { intros a b w0. unfold Renderer._validate_dimensions, in_bounds.
    destruct (Z.eqb_spec (Z.max 1 (Z.min a (max_width rc))) a) as [Ea|Ea];
      destruct (Z.eqb_spec (Z.max 1 (Z.min b (max_height rc))) b) as [Eb|Eb];
      simpl; eexists; (split; [reflexivity|]); intros; solve [reflexivity | lia]. }
  destruct (Run width height w) as (w1 & Hrun & _).
  eexists _, _, w1. split; [exact Hrun|]. split.
  - destruct (Run (Z.max 1 (Z.min width (max_width rc)))
                  (Z.max 1 (Z.min height (max_height rc))) w1) as (w2 & Hrun2 & Hsame).
    rewrite Hrun2. rewrite Hsame by (unfold in_bounds; lia).
    f_equal. f_equal. f_equal; lia.
  - intros width' height' w0 Hle Hle'.
    destruct (Run width' height' w0) as (w1' & Hrun' & _).
    eexists _, _, w1'. split; [exact Hrun'|]. lia.
Qed.

End ValidationComposed.

(** ** Requests within the declared ranges *)

(** A scale of at least 0.1 is not zero. *)
Lemma scale_in_range_nonzero (s : float) :
  PrimFloat.leb 0x1.999999999999ap-4%float s = true ->
  PrimFloat.eqb s 0%float = false.
Proof.
  rewrite FloatAxioms.leb_spec, FloatAxioms.eqb_spec.
  destruct (Prim2SF s) as [sg|sg| |sg m e]; vm_compute; try reflexivity.
  - destruct sg; discriminate.
  - destruct sg; reflexivity.
  - destruct sg; reflexivity.
Qed.

(** X13. A request whose width, height and scale satisfy the constraints
    declared in models.py is rendered, under the configuration of config.py,
    at exactly the requested viewport and scale: no default is substituted,
    nothing is clamped, no adjustment warning is logged. The width and height
    written to the response metadata are then those of the page. *)
Theorem request_in_range_renders_as_requested
    (E : env) (request : ImageGenerateRequest) (w : world) :
  fields_in_range request = true ->
  viewport_width render_config (Some (width request)) = width request /\
  viewport_height render_config (Some (height request)) = height request /\
  render_of render_config E request w =
    try_except
      (capture_steps E (html request) (css request) (width request)
         (height request) (scale request) (full_page request)
         (transparent request))
      log_and_reraise
      (with_log (log w ++ [Log INFO (RenderStart (width request) (height request)
                                       (scale request) (full_page request)
                                       (transparent request))]) w).
Proof.
  unfold fields_in_range. intros H.
  repeat (apply andb_prop in H as [H ?]).
  assert (Hw : (1 <= width request <= 4096)%Z) by lia.
  assert (Hh : (1 <= height request <= 4096)%Z) by lia.
  assert (Hs : Py.or_float (Some (scale request)) (default_scale render_config)
               = scale request).
  { unfold Py.or_float. now rewrite scale_in_range_nonzero. }
  assert (Hwd : Py.or_int (Some (width request)) (default_width render_config)
                = width request).
  { unfold Py.or_int. destruct (Z.eqb_spec (width request) 0); [lia | reflexivity]. }
  assert (Hhg : Py.or_int (Some (height request)) (default_height render_config)
                = height request).
  { unfold Py.or_int. destruct (Z.eqb_spec (height request) 0); [lia | reflexivity]. }
  assert (Hvw : viewport_width render_config (Some (width request)) = width request).
  { unfold viewport_width. rewrite Hwd. simpl. lia. }
  assert (Hvh : viewport_height render_config (Some (height request)) = height request).
  { unfold viewport_height. rewrite Hhg. simpl. lia. }
  split; [exact Hvw|]. split; [exact Hvh|].
  unfold render_of. rewrite render_to_image_enter.
  unfold render_entry. rewrite Hvw, Hvh, Hs, Hwd, Hhg, !Z.eqb_refl. reflexivity.
Qed.

(** ** Pages opened and closed by [render_to_image] *)

Section PageAccounting.

Variable rc : RenderConfig.
Variable E : env.

(** Acquiring the engine opens and closes no page and never lowers the
    source of fresh handles. *)
Lemma get_browser_frame (w0 w1 : world) (b : nat) :
  Renderer._get_browser E w0 = (Ok b, w1) ->
  pages w1 = pages w0 /\ next_id w0 <= next_id w1.
Proof.
  destruct (stale_dec w0) as [Hs | (b0 & Hb & Hc)].
  - rewrite (get_browser_stale E w0 Hs).
    destruct (playwright_start_error E); [discriminate|].
    destruct (launch_error E); [discriminate|].
    intros [= _ <-]. simpl. split; [reflexivity | lia].
  - rewrite (get_browser_cached E w0 b0 Hb Hc). intros [= _ <-]. split; [reflexivity | lia].
Qed.

Lemma render_entry_frame (width height : option Z) (scale : option float)
    (fp tr : bool) (w : world) :
  pages (render_entry rc width height scale fp tr w) = pages w /\
  next_id (render_entry rc width height scale fp tr w) = next_id w /\
  trace (render_entry rc width height scale fp tr w) = trace w /\
  renderer_browser (render_entry rc width height scale fp tr w) = renderer_browser w /\
  connected (render_entry rc width height scale fp tr w) = connected w.
Proof. unfold render_entry. destruct (negb _ || negb _); repeat split. Qed.

(** X14. Page accounting. In a world where every open page has a handle
    below the next fresh one, and with an engine that starts and opens the
    page: a render whose load, capture and close succeed returns the bytes and
    leaves the set of open pages exactly as it was; a render whose load or
    capture raises leaves exactly one more page open than before. Either way
    the open pages stay below the next fresh handle, so the count holds for
    every later render. *)
Theorem render_page_accounting
    (html_content : string) (css_content : option string)
    (width height : option Z) (scale : option float)
    (full_page transparent : bool) (w : world) :
  pages_below w ->
  playwright_start_error E = None -> launch_error E = None ->
  new_page_error E = None ->
  (forall data,
     set_content_error E = None -> screenshot_result E = Ok data ->
     page_close_error E = None ->
     exists w',
       Renderer.render_to_image rc E html_content css_content width height scale
         full_page transparent w = (Ok data, w') /\
       pages w' = pages w /\ pages_below w') /\
  (forall e,
     capture_fails_with E e ->
     exists p w',
       Renderer.render_to_image rc E html_content css_content width height scale
         full_page transparent w = (Raise e, w') /\
       (p ∉ pages w) /\
       pages w' = {[ p ]} ∪ pages w /\
       size (pages w') = S (size (pages w)) /\
       pages_below w').
Proof.
  intros Hinv Hp Hl Hn.
  destruct (render_entry_frame width height scale full_page transparent w)
    as (Hpg0 & Hid0 & _).
  destruct (get_browser_ok E
              (render_entry rc width height scale full_page transparent w) Hp Hl)
    as (b & w1 & Hb).
  destruct (get_browser_frame _ _ _ Hb) as [Hpg1 Hid1].
  rewrite Hpg0 in Hpg1. rewrite Hid0 in Hid1.
  assert (Hfresh : next_id w1 ∉ pages w).
  { intros Hin. apply Hinv in Hin. lia. }
  assert (Hbelow : forall p, p ∈ pages w -> p < S (next_id w1)).
  { intros p Hin. apply Hinv in Hin. lia. }
  split.
  - intros data Hs Hc Hx. rewrite render_to_image_enter.
    unfold try_except, capture_steps. rewrite (bind_ok _ _ _ _ _ Hb).
    unfold Renderer.new_page, Renderer.set_content, Renderer.screenshot,
      Renderer.page_close.
    rewrite Hn, Hs, Hx. rewrite Hc. run.
    eexists. split; [reflexivity|]. simpl. rewrite Hpg1.
    assert (Heq : ({[next_id w1]} ∪ pages w) ∖ {[next_id w1]} = pages w).
    { apply set_eq. intros x. rewrite elem_of_difference, elem_of_union,
        !elem_of_singleton. split; [intros [[->|Hx'] Hne]; [now destruct Hne | exact Hx']|].
      intros Hx'. split; [now right|]. intros ->. now apply Hfresh. }
    split; [exact Heq|]. intros p. simpl. rewrite Heq. apply Hbelow.
  - intros e Hf. rewrite render_to_image_enter.
    unfold try_except, capture_steps. rewrite (bind_ok _ _ _ _ _ Hb).
    unfold Renderer.new_page, Renderer.set_content, Renderer.screenshot,
      log_and_reraise.
    rewrite Hn.
    assert (Hsize : size ({[next_id w1]} ∪ pages w) = S (size (pages w))).
    { rewrite size_union by (apply disjoint_singleton_l; exact Hfresh).
      now rewrite size_singleton. }
    assert (Hinv' : forall p, p ∈ {[next_id w1]} ∪ pages w -> p < S (next_id w1)).
    { intros p Hin. apply elem_of_union in Hin as [Hin|Hin].
      - apply elem_of_singleton in Hin. lia.
      - now apply Hbelow. }
    destruct Hf as [Hs | [Hs Hc]]; rewrite Hs; [|rewrite Hc]; run;
      exists (next_id w1); eexists; (split; [reflexivity|]); simpl;
      rewrite Hpg1; (split; [exact Hfresh|]); (split; [reflexivity|]);
      (split; [exact Hsize|]); intros p; simpl; apply Hinv'.
Qed.

(** X15. When the engine cannot be had (no usable engine is cached and the
    driver or the launch raises [e]), [render_to_image] raises [e] after
    logging it, opens no page, and leaves the renderer without a usable
    engine: nothing is retried inside the call, the next acquisition starts
    again. *)
Theorem render_engine_failure_propagates
    (html_content : string) (css_content : option string)
    (width height : option Z) (scale : option float)
    (full_page transparent : bool) (w : world) (e : exn) :
  stale w -> acquisition_fails_with E e ->
  exists w',
    Renderer.render_to_image rc E html_content css_content width height scale
      full_page transparent w = (Raise e, w') /\
    pages w' = pages w /\
    stale w' /\
    (trace w' = trace w ++ [EvPlaywrightStart] \/
     trace w' = trace w ++ [EvPlaywrightStart; EvLaunch Renderer.launch_args]) /\
    exists l, log w' = l ++ [Log ERROR (RenderError (str_exn e))].
Proof.
  intros Hs Hf. rewrite render_to_image_enter.
  destruct (render_entry_frame width height scale full_page transparent w)
    as (Hpg0 & Hid0 & Htr0 & Hrb0 & Hcn0).
  assert (Hs0 : stale (render_entry rc width height scale full_page transparent w)).
  { unfold stale. rewrite Hrb0, Hcn0. exact Hs. }
  assert (Hstale : forall w0 : world,
    renderer_browser w0 = renderer_browser w -> connected w0 = connected w ->
    stale w0).
  { intros w0 H1 H2. unfold stale. rewrite H1, H2. exact Hs. }
  unfold try_except, capture_steps, log_and_reraise.
  destruct Hf as [Hp | [Hp Hl]].
  - erewrite bind_raise
      by (rewrite (get_browser_stale E _ Hs0), Hp; reflexivity).
    run. eexists. split; [reflexivity|]. simpl. rewrite ?Hpg0, ?Htr0.
    split; [reflexivity|]. split; [apply Hstale; simpl; assumption|].
    split; [now left | eauto].
  - erewrite bind_raise
      by (rewrite (get_browser_stale E _ Hs0), Hp, Hl; reflexivity).
    run. eexists. split; [reflexivity|]. simpl. rewrite ?Hpg0, ?Htr0.
    split; [reflexivity|]. split; [apply Hstale; simpl; assumption|].
    split; [right; now rewrite <- app_assoc | eauto].
Qed.

End PageAccounting.

(* ===================================================================== *)
(** * Further properties: local files *)
(* ===================================================================== *)

(** ** Rendering to a file (renderer.py, [render_to_file]) *)

Section RenderToFile.

Variable rc : RenderConfig.
Variable E : env.
Variable FE : fs_env.

(** [render_to_file] in terms of its path and of its render. *)
Lemma render_to_file_unfold
    (html_content : string) (css_content : option string)
    (output_path : option string)
    (width height : option Z) (scale : option float)
    (full_page transparent : bool) (f : fs) (w : world) :
  Renderer.render_to_file rc E FE html_content css_content output_path width
    height scale full_page transparent f w =
  match Renderer.render_to_image rc E html_content css_content width height
          scale full_page transparent (file_render_start output_path w) with
  | (Raise e, w1) => (FRaise (Upstream e), f, w1)
  | (Ok image_bytes, w1) =>
      match write_error FE with
      | Some m => (FRaise (OSError m), f, w1)
      | None =>
          (FOk (target_path rc E output_path),
           {| files := <[ target_path rc E output_path := image_bytes ]> (files f);
              file_log := file_log f ++ [ImageSaved (target_path rc E output_path)] |},
           w1)
      end
  end.
Proof.
  unfold Renderer.render_to_file, target_path, file_render_start,
    default_file_path.
  destruct output_path as [p|]; simpl; [destruct (Py.truthy p)|]; reflexivity.
Qed.

(** X16. [render_to_file] writes to the path it is given, or, when none is
    given (or an empty one), to a fresh name under the temporary directory,
    drawn before the render starts. When the render raises, the exception
    goes through and no file is touched. When the render returns bytes and
    the write succeeds, the path is returned, the file at that path holds
    exactly those bytes (replacing what was there) and every other file is
    as before; when the file cannot be opened for writing no file is
    touched. *)
Theorem render_to_file_outcomes
    (html_content : string) (css_content : option string)
    (output_path : option string)
    (width height : option Z) (scale : option float)
    (full_page transparent : bool) (f : fs) (w : world) :
  let path := target_path rc E output_path in
  let run := Renderer.render_to_image rc E html_content css_content width height
               scale full_page transparent (file_render_start output_path w) in
  (forall e w1, run = (Raise e, w1) ->
     Renderer.render_to_file rc E FE html_content css_content output_path width
       height scale full_page transparent f w = (FRaise (Upstream e), f, w1)) /\
  (forall data w1 m, run = (Ok data, w1) -> write_error FE = Some m ->
     Renderer.render_to_file rc E FE html_content css_content output_path width
       height scale full_page transparent f w = (FRaise (OSError m), f, w1)) /\
  (forall data w1, run = (Ok data, w1) -> write_error FE = None ->
     exists f',
       Renderer.render_to_file rc E FE html_content css_content output_path width
         height scale full_page transparent f w = (FOk path, f', w1) /\
       files f' !! path = Some data /\
       (forall q, q <> path -> files f' !! q = files f !! q) /\
       file_log f' = file_log f ++ [ImageSaved path]) /\
  (forall p, output_path = Some p -> p <> "" ->
     path = p /\ file_render_start output_path w = w) /\
  (Py.truthy_opt output_path = false ->
     path = Py.path_join (temp_dir rc) (uuid4_hex E +:+ ".png") /\
     trace (file_render_start output_path w) = trace w ++ [EvUuid4]).
Proof.
  intros path run. rewrite render_to_file_unfold. fold run path.
  split; [|split; [|split; [|split]]].
  - intros e w1 ->. reflexivity.
  - intros data w1 m -> ->. reflexivity.
  - intros data w1 -> ->. eexists. split; [reflexivity|]. simpl.
    split; [apply lookup_insert_eq|]. split; [|reflexivity].
    intros q Hq. now apply lookup_insert_ne.
  - intros p -> Hp. unfold path, target_path, file_render_start. simpl.
    now rewrite (truthy_nonempty p Hp).
  - intros Hnone. unfold path, target_path, file_render_start.
    rewrite Hnone. split; reflexivity.
Qed.

End RenderToFile.

(** ** Uploading a file (s3_service.py, [upload_file]) *)

Section UploadFile.

Variable aws_config : AWSConfig.
Variable E : env.
Variable FE : fs_env.

(** X17. [upload_file] raises [FileNotFoundError] for a path that does not
    exist, before any call to the store and leaving files and world as they
    were. For an existing, readable file it makes one [upload_bytes] call,
    with the content of the file, the extension of the path and no metadata.
    When that call raises, the exception goes through and the local file
    stays, also when [delete_after] holds. When it succeeds its record is
    returned; the local file is removed only then and only when
    [delete_after] holds, every other file being kept. *)
Theorem upload_file_outcomes
    (file_path content_type prefix : string) (make_public delete_after : bool)
    (f : fs) (w : world) :
  (files f !! file_path = None ->
     exists msg,
       S3.upload_file aws_config E FE file_path content_type prefix make_public
         delete_after f w = (FRaise (FileNotFoundError msg), f, w)) /\
  (forall data, files f !! file_path = Some data -> read_error FE = None ->
     let upload := S3.upload_bytes aws_config E data content_type prefix
                     (extension_of file_path) None make_public w in
     (forall e w1, upload = (Raise e, w1) ->
        S3.upload_file aws_config E FE file_path content_type prefix make_public
          delete_after f w = (FRaise (Upstream e), f, w1)) /\
     (forall up w1, upload = (Ok up, w1) -> delete_after = false ->
        S3.upload_file aws_config E FE file_path content_type prefix make_public
          delete_after f w = (FOk up, f, w1)) /\
     (forall up w1, upload = (Ok up, w1) -> delete_after = true ->
        remove_error FE = None ->
        exists f',
          S3.upload_file aws_config E FE file_path content_type prefix make_public
            delete_after f w = (FOk up, f', w1) /\
          files f' !! file_path = None /\
          (forall q, q <> file_path -> files f' !! q = files f !! q) /\
          file_log f' = file_log f ++ [LocalFileRemoved file_path])).
Proof.
  unfold S3.upload_file, extension_of. split.
  - intros ->. eexists. reflexivity.
  - intros data -> ->. cbv zeta. split; [|split].
    + intros e w1 ->. reflexivity.
    + intros up w1 -> ->. reflexivity.
    + intros up w1 -> -> ->. eexists. split; [reflexivity|]. simpl.
      split; [apply lookup_delete_eq|]. split; [|reflexivity].
      intros q Hq. now apply lookup_delete_ne.
Qed.

End UploadFile.

(** ** The extension of a path *)

Lemma occurs_app (c : ascii) (a b : string) :
  occurs c (a +:+ b) = occurs c a || occurs c b.
Proof.
  induction a as [|d a IH]; [reflexivity|].
  rewrite str_app_cons. simpl. rewrite IH. now rewrite orb_assoc.
Qed.

(** [rfind] splits the string at the last occurrence. *)
Lemma rfind_spec (c : ascii) (s : string) :
  match Py.rfind c s with
  | Some i =>
      exists rest,
        Py.drop i s = String c rest /\
        Py.take i s +:+ String c rest = s /\
        occurs c rest = false /\
        String.length s = i + S (String.length rest)
  | None => occurs c s = false
  end.
Proof.
  induction s as [|d s IH]; [reflexivity|].
  change (Py.rfind c (String d s)) with
    (match Py.rfind c s with
     | Some i => Some (S i)
     | None => if Ascii.eqb d c then Some 0 else None
     end).
  destruct (Py.rfind c s) as [i|].
  - destruct IH as (rest & Hdrop & Hsplit & Hocc & Hlen). exists rest.
    change (Py.drop (S i) (String d s)) with (Py.drop i s).
    change (Py.take (S i) (String d s)) with (String d (Py.take i s)).
    rewrite str_app_cons, Hsplit. simpl String.length. rewrite Hlen.
    repeat split; assumption.
  - destruct (Ascii.eqb_spec d c) as [->|Hne].
    + exists s. repeat split. exact IH.
    + simpl. apply orb_false_iff. split; [|exact IH].
      now apply Ascii.eqb_neq.
Qed.

Lemma drop_drop (n m : nat) (s : string) :
  Py.drop n (Py.drop m s) = Py.drop (m + n) s.
Proof.
  revert s. induction m as [|m IH]; intros s; [reflexivity|].
  destruct s as [|c s]; simpl; [now destruct n | apply IH].
Qed.

Lemma occurs_drop (c : ascii) (n : nat) (s : string) :
  occurs c s = false -> occurs c (Py.drop n s) = false.
Proof.
  revert s. induction n as [|n IH]; intros s H; [exact H|].
  destruct s as [|d s]; [reflexivity|]. simpl in *.
  apply orb_false_iff in H as [_ H]. now apply IH.
Qed.

Lemma lstrip_no_occurrence (c : ascii) (s : string) :
  occurs c s = false -> Py.lstrip c s = s.
Proof.
  destruct s as [|d s]; [reflexivity|]. simpl.
  intros H. apply orb_false_iff in H as [-> _]. reflexivity.
Qed.

Lemma str_length_app (a b : string) :
  String.length (a +:+ b) = String.length a + String.length b.
Proof.
  induction a as [|x a IH]; [reflexivity|].
  rewrite str_app_cons. simpl. now rewrite IH.
Qed.

Lemma str_app_nil_r (a : string) : a +:+ "" = a.
Proof.
  induction a as [|x a IH]; [reflexivity|].
  rewrite str_app_cons. now rewrite IH.
Qed.

(** X18. The two halves [os.path.splitext] returns always make up the path
    again. The extension [upload_file] derives from a path has no dot and no
    slash; when it is not empty, the path is the first half, a dot and the
    extension. A path with no dot at all has the empty extension. *)
Theorem extension_of_path (file_path : string) :
  fst (Py.splitext file_path) +:+ snd (Py.splitext file_path) = file_path /\
  occurs "." (extension_of file_path) = false /\
  occurs "/" (extension_of file_path) = false /\
  (extension_of file_path <> "" ->
     fst (Py.splitext file_path) +:+ "." +:+ extension_of file_path = file_path) /\
  (Py.rfind "." file_path = None -> extension_of file_path = "").
Proof.
  unfold extension_of, Py.splitext.
  pose proof (rfind_spec "." file_path) as Hdot.
  destruct (Py.rfind "." file_path) as [i|]; cbv beta iota zeta;
    [|simpl; rewrite str_app_nil_r; repeat split; try reflexivity; now intros H].
  destruct Hdot as (rest & Hdrop & Hsplit & Hocc & Hlen).
  match goal with
  | |- context [if ?b then _ else _] => destruct b eqn:Hcond
  end; simpl fst; simpl snd;
    [|simpl; rewrite str_app_nil_r; repeat split; try reflexivity;
      solve [now intros H | discriminate]].
  rewrite Hdrop.
  assert (Hstrip : Py.lstrip "." (String "." rest) = rest).
  { change (Py.lstrip "." (String "." rest)) with (Py.lstrip "." rest).
    now apply lstrip_no_occurrence. }
  rewrite Hstrip.
  split; [exact Hsplit|]. split; [exact Hocc|].
  split; [|split; [intros _; exact Hsplit | discriminate]].
  (* no slash after the last dot *)
  apply andb_prop in Hcond as [Hle _]. apply Nat.leb_le in Hle.
  pose proof (rfind_spec "/" file_path) as Hsep.
  destruct (Py.rfind "/" file_path) as [k|]; cycle 1.
  { assert (Hd : occurs "/" (Py.drop i file_path) = false)
      by now apply occurs_drop.
    rewrite Hdrop in Hd. simpl in Hd. exact Hd. }
  destruct Hsep as (after & Hdk & _ & Hoa & _).
  assert (Hrest : rest = Py.drop (i - k) after).
  { assert (H1 : Py.drop (S i) file_path = rest).
    { change (S i) with (1 + i). rewrite Nat.add_comm, <- drop_drop, Hdrop.
      reflexivity. }
    assert (H2 : Py.drop (S i) file_path = Py.drop (i - k) (Py.drop (S k) file_path)).
    { rewrite drop_drop. f_equal. lia. }
    assert (H3 : Py.drop (S k) file_path = after).
    { change (S k) with (1 + k). rewrite Nat.add_comm, <- drop_drop, Hdk.
      reflexivity. }
    rewrite <- H1, H2, H3. reflexivity. }
  rewrite Hrest. now apply occurs_drop.
Qed.

(** ** From a rendered file to the store *)

Lemma rfind_absent (c : ascii) (s : string) :
  occurs c s = false -> Py.rfind c s = None.
Proof.
  induction s as [|d s IH]; [reflexivity|]. simpl. intros H.
  apply orb_false_iff in H as [Hd Hs]. now rewrite (IH Hs), Hd.
Qed.

Lemma rfind_app_absent (c : ascii) (a b : string) :
  occurs c b = false -> Py.rfind c (a +:+ b) = Py.rfind c a.
Proof.
  intros Hb. induction a as [|d a IH]; [now apply rfind_absent|].
  rewrite str_app_cons. simpl. now rewrite IH.
Qed.

Lemma rfind_app_last (c : ascii) (a b : string) :
  occurs c b = false -> Py.rfind c (a +:+ String c b) = Some (String.length a).
Proof.
  intros Hb. induction a as [|d a IH].
  - simpl. now rewrite (rfind_absent c b Hb), Ascii.eqb_refl.
  - rewrite str_app_cons. simpl. now rewrite IH.
Qed.

Lemma drop_length_app (a b : string) : Py.drop (String.length a) (a +:+ b) = b.
Proof. induction a as [|c a IH]; [reflexivity|]. rewrite str_app_cons. exact IH. Qed.

Lemma take_length_app (a b : string) : Py.take (String.length a) (a +:+ b) = a.
Proof.
  induction a as [|c a IH]; [reflexivity|].
  rewrite str_app_cons. simpl. now rewrite IH.
Qed.

Lemma has_other_plain (s : string) :
  plain_name s = true ->
  Py.has_other "." s = true /\ occurs "/" s = false /\
  Py.startswith s "/" = false.
Proof.
  unfold plain_name. intros H.
  apply andb_prop in H as [H Hs]. apply andb_prop in H as [Ht Hd].
  apply negb_true_iff in Hs, Hd.
  destruct s as [|c s]; [discriminate|].
  split; [|split; [exact Hs|]].
  - simpl in *. apply orb_false_iff in Hd as [-> _]. reflexivity.
  - change (Py.startswith (String c s) "/")
      with (if Ascii.eqb "/" c then true else false).
    simpl in Hs. apply orb_false_iff in Hs as [Hc _].
    now rewrite Ascii.eqb_sym, Hc.
Qed.

Lemma endswith_char_split (a : string) (c : ascii) :
  Py.endswith_char a c = true -> exists a', a = a' +:+ String c "".
Proof.
  induction a as [|d a IH]; [discriminate|].
  destruct a as [|d' a].
  - simpl. intros H. apply Ascii.eqb_eq in H as ->. now exists "".
  - intros H. change (Py.endswith_char (String d' a) c = true) in H.
    destruct (IH H) as [a' Ha']. exists (String d a').
    rewrite str_app_cons. now rewrite <- Ha'.
Qed.

(** [splitext] on directory + name + "." + extension. *)
Lemma splitext_name_ext (dir name ext : string) :
  (dir = "" \/ exists d', dir = d' +:+ "/") ->
  occurs "/" name = false -> Py.has_other "." name = true ->
  occurs "." ext = false -> occurs "/" ext = false ->
  Py.splitext (dir +:+ name +:+ String "." ext) = (dir +:+ name, String "." ext).
Proof.
  intros Hdir Hns Hnd Hed Hes. unfold Py.splitext.
  assert (Hdot : Py.rfind "." (dir +:+ name +:+ String "." ext)
                 = Some (String.length (dir +:+ name))).
  { rewrite <- str_app_assoc. now apply rfind_app_last. }
  rewrite Hdot.
  assert (Hsep : match Py.rfind "/" (dir +:+ name +:+ String "." ext) with
                 | Some sepIndex => S sepIndex
                 | None => 0
                 end = String.length dir).
  { rewrite rfind_app_absent
      by (rewrite occurs_app, Hns; simpl; exact Hes).
    destruct Hdir as [-> | [d' ->]]; [reflexivity|].
    rewrite (rfind_app_last "/" d' "" eq_refl), str_length_app. simpl. lia. }
  rewrite Hsep, str_length_app.
  replace (String.length dir + String.length name - String.length dir)
    with (String.length name) by lia.
  rewrite drop_length_app, take_length_app, Hnd.
  replace (String.length dir <=? String.length dir + String.length name)%nat
    with true by (symmetry; apply Nat.leb_le; lia).
  simpl andb. cbv iota. rewrite <- str_length_app.
  rewrite <- (str_app_assoc dir name). 
  now rewrite take_length_app, drop_length_app.
Qed.

(** The default path of [render_to_file] has the extension png. *)
Lemma default_file_path_extension (rc : RenderConfig) (E : env) :
  plain_name (uuid4_hex E) = true ->
  extension_of (default_file_path rc E) = "png".
Proof.
  intros Hplain. destruct (has_other_plain _ Hplain) as (Hother & Hslash & Hstart).
  unfold extension_of, default_file_path, Py.path_join.
  assert (Hs : Py.startswith (uuid4_hex E +:+ ".png") "/" = false).
  { destruct (uuid4_hex E) as [|c u]; [discriminate|]. exact Hstart. }
  rewrite Hs.
  assert (Hdir : exists dir,
    (dir = "" \/ exists d', dir = d' +:+ "/") /\
    (if negb (Py.truthy (temp_dir rc)) || Py.endswith_char (temp_dir rc) "/"
     then temp_dir rc +:+ uuid4_hex E +:+ ".png"
     else temp_dir rc +:+ "/" +:+ uuid4_hex E +:+ ".png")
    = dir +:+ uuid4_hex E +:+ String "." "png").
  { destruct (Py.truthy (temp_dir rc)) eqn:Htr;
      destruct (Py.endswith_char (temp_dir rc) "/") eqn:Hend; cbv [negb orb].
    - exists (temp_dir rc). split; [|reflexivity]. right.
      now apply endswith_char_split.
    - exists (temp_dir rc +:+ "/"). split; [right; eauto|].
      now rewrite !str_app_assoc.
    - destruct (temp_dir rc); [|discriminate].
      exists "". split; [now left | reflexivity].
    - destruct (temp_dir rc); [|discriminate].
      exists "". split; [now left | reflexivity]. }
  destruct Hdir as (dir & Hd & ->).
  rewrite (splitext_name_ext dir (uuid4_hex E) "png" Hd Hslash Hother eq_refl eq_refl).
  reflexivity.
Qed.

Section FileToStore.

Variable rc : RenderConfig.
Variable aws_config : AWSConfig.
Variable E1 E2 : env.
Variable FE : fs_env.

(** X19. A file written by [render_to_file] under its default name and then
    handed to [upload_file] with [delete_after] reaches the store as the
    rendered bytes themselves: [upload_file] behaves as [upload_bytes] on
    those bytes with the extension png and no metadata. When that upload
    succeeds its record is returned and the local file is gone, every file
    that existed before the render being as it was; when it raises, the
    exception goes through and the rendered file stays. *)
Theorem rendered_file_reaches_store
    (html_content : string) (css_content : option string)
    (width height : option Z) (scale : option float)
    (full_page transparent : bool) (content_type prefix : string)
    (make_public : bool) (f : fs) (w w1 : world) (data : bytes) :
  plain_name (uuid4_hex E1) = true -> fs_reliable FE ->
  Renderer.render_to_image rc E1 html_content css_content width height scale
    full_page transparent (file_render_start None w) = (Ok data, w1) ->
  exists f1,
    let path := default_file_path rc E1 in
    Renderer.render_to_file rc E1 FE html_content css_content None width height
      scale full_page transparent f w = (FOk path, f1, w1) /\
    files f1 !! path = Some data /\
    (forall up w2,
       S3.upload_bytes aws_config E2 data content_type prefix "png" None
         make_public w1 = (Ok up, w2) ->
       exists f2,
         S3.upload_file aws_config E2 FE path content_type prefix make_public true
           f1 w1 = (FOk up, f2, w2) /\
         files f2 !! path = None /\
         (forall q, q <> path -> files f2 !! q = files f !! q)) /\
    (forall e w2,
       S3.upload_bytes aws_config E2 data content_type prefix "png" None
         make_public w1 = (Raise e, w2) ->
       S3.upload_file aws_config E2 FE path content_type prefix make_public true
         f1 w1 = (FRaise (Upstream e), f1, w2)).
Proof.
  intros Hplain (Hread & Hwrite & Hremove) Hrender.
  rewrite render_to_file_unfold, Hrender, Hwrite.
  change (target_path rc E1 None) with (default_file_path rc E1).
  eexists. cbv zeta. split; [reflexivity|]. simpl files.
  split; [apply lookup_insert_eq|].
  assert (Hext : Py.lstrip "." (snd (Py.splitext (default_file_path rc E1))) = "png")
    by exact (default_file_path_extension rc E1 Hplain).
  split.
  - intros up w2 Hup. unfold S3.upload_file. simpl files.
    rewrite lookup_insert_eq, Hread, Hext, Hup, Hremove.
    eexists. split; [reflexivity|]. simpl files.
    split; [apply lookup_delete_eq|].
    intros q Hq. rewrite lookup_delete_ne by congruence.
    now rewrite lookup_insert_ne by congruence.
  - intros e w2 Hup. unfold S3.upload_file. simpl files.
    now rewrite lookup_insert_eq, Hread, Hext, Hup.
Qed.

End FileToStore.

(* ===================================================================== *)
(** * Further properties: composed documents *)
(* ===================================================================== *)

Lemma lower_app (a b : string) : Py.lower (a +:+ b) = Py.lower a +:+ Py.lower b.
Proof.
  induction a as [|c a IH]; [reflexivity|].
  rewrite str_app_cons. simpl. rewrite str_app_cons. now rewrite IH.
Qed.

Lemma startswith_app_l (a b p : string) :
  Py.startswith a p = true -> Py.startswith (a +:+ b) p = true.
Proof.
  revert a. induction p as [|c p IH]; intros a H; [reflexivity|].
  destruct a as [|d a]; [discriminate|].
  rewrite str_app_cons. simpl in *.
  destruct (Ascii.eqb c d); [now apply IH | discriminate].
Qed.

Lemma contains_app_l (p a b : string) :
  Py.contains p a = true -> Py.contains p (a +:+ b) = true.
Proof.
  induction a as [|d a IH].
  - simpl. rewrite orb_false_r. intros H.
    destruct p as [|c p]; [|discriminate]. now destruct b.
  - rewrite str_app_cons. simpl. intros H.
    apply orb_true_iff in H as [H|H].
    + apply orb_true_iff. left.
      now apply (startswith_app_l (String d a) b p).
    + apply orb_true_iff. right. now apply IH.
Qed.

(** X20. What [_build_html_document] returns for a fragment is itself taken
    for a complete document, so composing it again without css returns it
    unchanged; and a complete document composed without css (none, or an
    empty one) is returned as it is. *)
Theorem compose_output_is_complete
    (html_content : string) (css_content : option string) :
  (Renderer.is_full_document html_content = false ->
     Renderer.is_full_document
       (Renderer._build_html_document html_content css_content) = true /\
     Renderer._build_html_document
       (Renderer._build_html_document html_content css_content) None =
     Renderer._build_html_document html_content css_content) /\
  (Renderer.is_full_document html_content = true ->
     Py.truthy_opt css_content = false ->
     Renderer._build_html_document html_content css_content = html_content).
Proof.
  split.
  - intros Hfrag.
    assert (Hfull : Renderer.is_full_document
              (Renderer._build_html_document html_content css_content) = true).
    { unfold Renderer._build_html_document. rewrite Hfrag.
      unfold Renderer.is_full_document. rewrite lower_app.
      apply orb_true_iff. left. apply contains_app_l.
      vm_compute. reflexivity. }
    split; [exact Hfull|].
    unfold Renderer._build_html_document at 1. now rewrite Hfull.
  - intros Hfull Hnone. unfold Renderer._build_html_document.
    now rewrite Hfull, Hnone.
Qed.

(** The style elements of a string that continues with a tag. *)
Lemma style_blocks_before_tag (a rest : string) :
  style_blocks (a +:+ String "<" rest) =
  style_blocks a + style_blocks (String "<" rest).
Proof. apply (count_app_no_straddle "<" "<" rest "style"). reflexivity. Qed.

(** X21. For a complete document that has a head section and the literal
    closing tag the code searches for, a non-empty css goes in as one style
    block immediately before the first closing head tag: what is before and
    after that tag is kept as it is, and the document has exactly one style
    element more than the document and the css bring themselves. *)
Theorem compose_with_head_adds_one_style (html_content css : string) (i : nat) :
  Renderer.is_full_document html_content = true -> css <> "" ->
  Py.contains "<head>" (Py.lower html_content) = true ->
  Py.find "</head>" html_content = Some i ->
  html_content =
    Py.take i html_content +:+ "</head>" +:+ Py.drop (i + 7) html_content /\
  Renderer._build_html_document html_content (Some css) =
    Py.take i html_content +:+ "<style>" +:+ css +:+ "</style>" +:+ "</head>" +:+
    Py.drop (i + 7) html_content /\
  style_blocks (Renderer._build_html_document html_content (Some css)) =
    style_blocks html_content + 1 + style_blocks css.
Proof.
  intros Hfull Hcss Hhead Hfind.
  rewrite (compose_full_document_replace _ _ Hfull Hcss), Hhead.
  destruct (replace_first_at "</head>"
              (("<style>" +:+ css +:+ "</style>") +:+ "</head>")
              html_content i Hfind) as [Hsplit Hrep].
  simpl String.length in Hsplit, Hrep.
  set (before := Py.take i html_content) in *.
  set (after := Py.drop (i + 7) html_content) in *.
  split; [exact Hsplit|].
  assert (Hdoc : Py.replace_first "</head>"
                   (("<style>" +:+ css +:+ "</style>") +:+ "</head>") html_content =
                 before +:+ "<style>" +:+ css +:+ "</style>" +:+ "</head>" +:+ after).
  { rewrite Hrep. now rewrite !str_app_assoc. }
  split; [exact Hdoc|].
  rewrite Hdoc.
  assert (Hcount : style_blocks html_content =
                   style_blocks (before +:+ "</head>" +:+ after))
    by (rewrite <- Hsplit; reflexivity).
  rewrite Hcount. clear Hcount.
  change (before +:+ "<style>" +:+ css +:+ "</style>" +:+ "</head>" +:+ after)
    with (before +:+ String "<" ("style>" +:+ css +:+ "</style>" +:+ "</head>" +:+ after)).
  change (before +:+ "</head>" +:+ after)
    with (before +:+ String "<" ("/head>" +:+ after)).
  rewrite !style_blocks_before_tag.
  change (String "<" ("style>" +:+ css +:+ "</style>" +:+ "</head>" +:+ after))
    with ("<style>" +:+ css +:+ "</style>" +:+ "</head>" +:+ after).
  rewrite style_blocks_open.
  change (css +:+ "</style>" +:+ "</head>" +:+ after)
    with (css +:+ String "<" ("/style>" +:+ "</head>" +:+ after)).
  rewrite style_blocks_before_tag.
  change (style_blocks (String "<" ("/style>" +:+ "</head>" +:+ after)))
    with (style_blocks (String "<" ("/head>" +:+ after))).
  lia.
Qed.

(* ===================================================================== *)
(** * Further properties: removing objects and probing the bucket *)
(* ===================================================================== *)

Section StoreProbes.

Variable aws_config : AWSConfig.
Variable E : env.

(** X22. [delete_object] acquires the client outside its [try]: when
    [boto3.client] raises, the exception goes through, whatever it is, and
    no delete call is made. With a client at hand it makes exactly one
    delete call, for the configured bucket and the key given, and returns
    [True] when the store accepts it, [False] (after logging) when the store
    answers with a [ClientError]; any other exception of the call goes
    through. *)
Theorem delete_object_outcomes (key : string) (w : world) :
  (forall e, s3_client w = None -> boto3_client_error E = Some e ->
     exists cfg w',
       S3.delete_object aws_config E key w = (Raise e, w') /\
       trace w' = trace w ++ [EvBoto3Client cfg] /\ log w' = log w) /\
  (client_available E w ->
     exists c w1 pre,
       S3._get_client aws_config E w = (Ok c, w1) /\
       trace w1 = trace w ++ pre /\
       (pre = [] \/ exists cfg, pre = [EvBoto3Client cfg]) /\
       let called :=
         with_trace (trace w1 ++ [EvDeleteObject (bucket_name aws_config) key]) w1 in
       (delete_object_error E = None ->
          S3.delete_object aws_config E key w =
            (Ok true,
             with_log (log w1 ++ [Log INFO (ObjectRemoved (bucket_name aws_config) key)])
               called)) /\
       (forall code msg, delete_object_error E = Some (ClientError code msg) ->
          S3.delete_object aws_config E key w =
            (Ok false, with_log (log w1 ++ [Log ERROR (RemoveError msg)]) called)) /\
       (forall e, delete_object_error E = Some e ->
          (forall code msg, e <> ClientError code msg) ->
          S3.delete_object aws_config E key w = (Raise e, called))).
Proof.
  split.
  - intros e Hn He. unfold S3.delete_object, S3._get_client, S3.boto3_client. run.
    rewrite Hn, He. simpl. eexists _, _. split; [reflexivity|]. split; reflexivity.
  - intros Hc.
    destruct (get_client_trace aws_config E w Hc) as (c & w1 & pre & Hrun & Htr & Hpre).
    exists c, w1, pre. split; [exact Hrun|]. split; [exact Htr|]. split; [exact Hpre|].
    cbv zeta. unfold S3.delete_object. rewrite (bind_ok _ _ _ _ _ Hrun).
    unfold S3.client_delete_object, S3._bucket_name.
    split; [|split].
    + intros ->. reflexivity.
    + intros code msg ->. reflexivity.
    + intros e -> Hne. run. destruct e; try reflexivity.
      now destruct (Hne code msg).
Qed.

(** X23. [check_connection] acquires the client inside its [try]. It
    returns [True] exactly when the client is at hand and the store accepts
    the one [head_bucket] call for the configured bucket. A [ClientError] or
    a [NoCredentialsError], raised by [boto3.client] or by [head_bucket],
    is logged and answered with [False]; here a failing [boto3.client]
    means that no [head_bucket] call is made. Any other exception goes
    through. *)
Theorem check_connection_outcomes (w : world) :
  (client_available E w -> head_bucket_error E = None ->
     exists c w1,
       S3._get_client aws_config E w = (Ok c, w1) /\
       S3.check_connection aws_config E w =
         (Ok true,
          with_log (log w1 ++ [Log INFO (BucketChecked (bucket_name aws_config))])
            (with_trace (trace w1 ++ [EvHeadBucket (bucket_name aws_config)]) w1))) /\
  (forall b w', S3.check_connection aws_config E w = (Ok b, w') ->
     b = true ->
     client_available E w /\ head_bucket_error E = None) /\
  (forall e, s3_client w = None -> boto3_client_error E = Some e ->
     exists cfg,
       let w' := with_trace (trace w ++ [EvBoto3Client cfg]) w in
       S3.check_connection aws_config E w =
         match e with
         | ClientError code msg =>
             (Ok false,
              with_log (log w' ++ [Log ERROR (BucketCheckError (error_code code) msg)]) w')
         | NoCredentialsError =>
             (Ok false, with_log (log w' ++ [Log ERROR NoCredentials]) w')
         | _ => (Raise e, w')
         end) /\
  (forall e, client_available E w -> head_bucket_error E = Some e ->
     exists c w1,
       S3._get_client aws_config E w = (Ok c, w1) /\
       let called :=
         with_trace (trace w1 ++ [EvHeadBucket (bucket_name aws_config)]) w1 in
       S3.check_connection aws_config E w =
         match e with
         | ClientError code msg =>
             (Ok false,
              with_log (log w1 ++ [Log ERROR (BucketCheckError (error_code code) msg)])
                called)
         | NoCredentialsError =>
             (Ok false, with_log (log w1 ++ [Log ERROR NoCredentials]) called)
         | _ => (Raise e, called)
         end).
Proof.
  split; [|split; [|split]].
  - intros Hc Hh.
    destruct (get_client_trace aws_config E w Hc) as (c & w1 & pre & Hrun & _).
    exists c, w1. split; [exact Hrun|].
    unfold S3.check_connection, try_except. rewrite (bind_ok _ _ _ _ _ Hrun).
    unfold S3.head_bucket, S3._bucket_name. rewrite Hh. reflexivity.
  - intros b w' Hrun ->.
    unfold S3.check_connection, try_except in Hrun. unfold bind at 1 in Hrun.
    destruct (S3._get_client aws_config E w) as [[c|e] w1] eqn:Hget.
    + split.
      * unfold client_available. destruct (s3_client w) as [c0|] eqn:Hs; [left; eauto|].
        right. unfold S3._get_client, S3.boto3_client in Hget. run.
        rewrite Hs in Hget. destruct (boto3_client_error E); [discriminate | reflexivity].
      * unfold S3.head_bucket in Hrun. run.
        destruct (head_bucket_error E) as [e|]; [|reflexivity].
        destruct e; discriminate.
    + destruct e; discriminate.
  - intros e Hn He. unfold S3.check_connection, S3._get_client, S3.boto3_client. run.
    rewrite Hn, He. simpl. eexists. destruct e; reflexivity.
  - intros e Hc Hh.
    destruct (get_client_trace aws_config E w Hc) as (c & w1 & pre & Hrun & _).
    exists c, w1. split; [exact Hrun|]. cbv zeta.
    unfold S3.check_connection, try_except. rewrite (bind_ok _ _ _ _ _ Hrun).
    unfold S3.head_bucket, S3._bucket_name. rewrite Hh. run.
    destruct e; reflexivity.
Qed.

End StoreProbes.

(* ===================================================================== *)
(** * The further properties at the sample inputs *)
(* ===================================================================== *)

(** X3 for the sample configuration: both credentials, no endpoint. *)
Lemma get_client_configuration_witness :
  s3_client initial_world = None /\
  exists cfg,
    trace (snd (S3._get_client aws_sample env_ok initial_world)) =
      [EvBoto3Client cfg] /\
    cfg !! "aws_access_key_id" = Some "AKIAEXAMPLE" /\
    cfg !! "endpoint_url" = None.
Proof.
  assert (Hn : s3_client initial_world = None) by reflexivity.
  split; [exact Hn|].
  destruct (get_client_configuration aws_sample env_ok initial_world Hn)
    as (cfg & Htr & _ & _ & Hkey & _ & Hend).
  exists cfg. split; [exact Htr|]. split; [exact Hkey | exact Hend].
Defined.

(** X5 for the sample bytes, from a fresh application. *)
Lemma upload_bytes_success_witness :
  bucket_name aws_sample <> "" /\ client_available env_ok initial_world /\
  put_object_error env_ok = None /\
  exists up w',
    S3.upload_bytes aws_sample env_ok sample_png "image/png" "images" "png" None
      true initial_world = (Ok up, w') /\
    S3.size up = 3 /\ S3.bucket up = "bucket".
Proof.
  assert (Hb : bucket_name aws_sample <> "") by discriminate.
  assert (Hc : client_available env_ok initial_world) by (right; reflexivity).
  assert (Hp : put_object_error env_ok = None) by reflexivity.
  split; [exact Hb|]. split; [exact Hc|]. split; [exact Hp|].
  destruct (upload_bytes_success aws_sample env_ok sample_png "image/png" "images"
              "png" None true initial_world Hb Hc Hp)
    as (w' & pre & extra & Hrun & _).
  eexists _, w'. split; [exact Hrun|]. split; reflexivity.
Defined.

(** X6 for the request in mode both: a URL and the inline data. *)
Lemma generate_image_delivers_requested_forms_witness :
  exists resp w',
    Main.generate_image aws_sample render_config env_ok request_both initial_world =
      (Ok resp, w') /\
    success resp = true /\ is_Some (url resp) /\
    base64 resp = Some (data_url sample_png).
Proof.
  destruct (Main.generate_image aws_sample render_config env_ok request_both
              initial_world) as [[resp|e] w'] eqn:Hrun.
  - destruct (generate_image_delivers_requested_forms aws_sample render_config
                env_ok request_both initial_world w' resp Hrun)
      as (image_bytes & w1 & Hrender & Hok & Hb64 & Hurl & _).
    exists resp, w'. split; [reflexivity|]. split; [exact Hok|].
    split; [apply Hurl; reflexivity|].
    assert (Hbytes : image_bytes = sample_png).
    { vm_compute in Hrender. now injection Hrender as <- _. }
    rewrite Hb64, Hbytes. reflexivity.
  - vm_compute in Hrun. discriminate.
Defined.

(** X7 for the request in mode base64, with no bucket configured. *)
Lemma generate_image_base64_skips_store_witness :
  response_format request_base64 = BASE64 /\
  exists w',
    Main.generate_image aws_config_unset render_config env_ok request_base64
      initial_world =
      (Ok {| success := true; url := None;
             base64 := Some (data_url sample_png);
             metadata := base_metadata env_ok request_base64 sample_png |}, w') /\
    s3_client w' = None.
Proof.
  split; [reflexivity|].
  set (w1 := snd (render_of render_config env_ok request_base64
                    (after_request_log request_base64 initial_world))).
  assert (Hrender : render_of render_config env_ok request_base64
                      (after_request_log request_base64 initial_world) =
                    (Ok sample_png, w1)) by (vm_compute; reflexivity).
  destruct (generate_image_base64_skips_store aws_config_unset render_config env_ok
              request_base64 initial_world w1 sample_png eq_refl Hrender)
    as (w' & Hrun & _ & Hclient & _).
  exists w'. split; [exact Hrun|]. rewrite Hclient. vm_compute. reflexivity.
Defined.

(** X8 for a load that times out. *)
Lemma generate_image_render_failure_witness :
  is_http load_timeout = false /\
  exists w',
    Main.post_generate aws_sample render_config env_load_timeout request_both
      initial_world =
      (Main.JSONResponse 500
         (mkErrorResponse "HTTP_ERROR"
            "Erro ao gerar imagem: Timeout 30000ms exceeded."), w').
Proof.
  split; [reflexivity|].
  set (w1 := snd (render_of render_config env_load_timeout request_both
                    (after_request_log request_both initial_world))).
  assert (Hrender : render_of render_config env_load_timeout request_both
                      (after_request_log request_both initial_world) =
                    (Raise load_timeout, w1)) by (vm_compute; reflexivity).
  destruct (generate_image_render_failure aws_sample render_config env_load_timeout
              request_both initial_world w1 load_timeout Hrender eq_refl)
    as [_ Hpost].
  eexists. exact Hpost.
Defined.

(** X12 for a width above the ceiling and a height below 1. *)
Lemma validate_dimensions_idempotent_witness :
  (1 <= max_width render_config)%Z /\ (1 <= max_height render_config)%Z /\
  exists w1,
    Renderer._validate_dimensions render_config 99999 0 initial_world =
      (Ok (4096, 1)%Z, w1) /\
    Renderer._validate_dimensions render_config 4096 1 w1 = (Ok (4096, 1)%Z, w1).
Proof.
  assert (Hw : (1 <= max_width render_config)%Z) by (simpl; lia).
  assert (Hh : (1 <= max_height render_config)%Z) by (simpl; lia).
  split; [exact Hw|]. split; [exact Hh|].
  destruct (validate_dimensions_idempotent render_config 99999 0 initial_world Hw Hh)
    as (vw & vh & w1 & Hrun & Hagain & _).
  assert (Hv : (vw, vh) = (4096, 1)%Z).
  { vm_compute in Hrun. now injection Hrun as <- <- _. }
  injection Hv as -> ->.
  exists w1. split; [exact Hrun | exact Hagain].
Defined.

(** X13 for the sample request: 800 by 600 at scale 1. *)
Lemma request_in_range_renders_as_requested_witness :
  fields_in_range request_both = true /\
  viewport_width render_config (Some (width request_both)) = 800%Z /\
  viewport_height render_config (Some (height request_both)) = 600%Z.
Proof.
  assert (Hr : fields_in_range request_both = true) by (vm_compute; reflexivity).
  split; [exact Hr|].
  destruct (request_in_range_renders_as_requested env_ok request_both initial_world Hr)
    as (Hw & Hh & _).
  split; [exact Hw | exact Hh].
Defined.

(** X14 from a fresh application: a render that succeeds leaves no page, a
    render whose load times out leaves one. *)
Lemma render_page_accounting_witness :
  pages_below initial_world /\
  (exists w',
     render_of render_config env_ok request_both initial_world =
       (Ok sample_png, w') /\
     pages w' = pages initial_world) /\
  (exists w',
     render_of render_config env_load_timeout request_both initial_world =
       (Raise load_timeout, w') /\
     size (pages w') = 1).
Proof.
  assert (Hinv : pages_below initial_world).
  { intros p Hp. simpl in Hp. now apply not_elem_of_empty in Hp. }
  split; [exact Hinv|]. split.
  - destruct (render_page_accounting render_config env_ok (html request_both)
                (css request_both) (Some (width request_both))
                (Some (height request_both)) (Some (scale request_both))
                (full_page request_both) (transparent request_both) initial_world
                Hinv eq_refl eq_refl eq_refl) as [Hok _].
    destruct (Hok sample_png eq_refl eq_refl eq_refl) as (w' & Hrun & Hpages & _).
    exists w'. split; [exact Hrun | exact Hpages].
  - destruct (render_page_accounting render_config env_load_timeout
                (html request_both) (css request_both) (Some (width request_both))
                (Some (height request_both)) (Some (scale request_both))
                (full_page request_both) (transparent request_both) initial_world
                Hinv eq_refl eq_refl eq_refl) as [_ Hfail].
    destruct (Hfail load_timeout (or_introl eq_refl))
      as (p & w' & Hrun & _ & _ & Hsize & _).
    exists w'. split; [exact Hrun|]. rewrite Hsize. reflexivity.
Defined.

(** X15 for an engine that cannot be launched. *)
Lemma render_engine_failure_propagates_witness :
  stale initial_world /\ acquisition_fails_with env_launch_fails launch_failure /\
  exists w',
    render_of render_config env_launch_fails request_both initial_world =
      (Raise launch_failure, w') /\
    pages w' = ∅ /\ stale w'.
Proof.
  assert (Hs : stale initial_world) by (left; reflexivity).
  assert (Hf : acquisition_fails_with env_launch_fails launch_failure)
    by (right; split; reflexivity).
  split; [exact Hs|]. split; [exact Hf|].
  destruct (render_engine_failure_propagates render_config env_launch_fails
              (html request_both) (css request_both) (Some (width request_both))
              (Some (height request_both)) (Some (scale request_both))
              (full_page request_both) (transparent request_both) initial_world
              launch_failure Hs Hf) as (w' & Hrun & Hpages & Hstale & _).
  exists w'. split; [exact Hrun|]. split; [exact Hpages | exact Hstale].
Defined.

(** X19 for the sample render, beside a file that is kept. *)
Lemma rendered_file_reaches_store_witness :
  plain_name (uuid4_hex env_ok) = true /\ fs_reliable fs_ok /\
  exists f1 w1,
    Renderer.render_to_file render_config env_ok fs_ok (html request_both) None
      None None None None false false fs_sample initial_world =
      (FOk (default_file_path render_config env_ok), f1, w1) /\
    files f1 !! default_file_path render_config env_ok = Some sample_png /\
    exists up f2 w2,
      S3.upload_file aws_sample env_ok fs_ok
        (default_file_path render_config env_ok) "image/png" "images" true true
        f1 w1 = (FOk up, f2, w2) /\
      files f2 !! default_file_path render_config env_ok = None /\
      files f2 !! "/srv/keep.txt" = files fs_sample !! "/srv/keep.txt".
Proof.
  assert (Hplain : plain_name (uuid4_hex env_ok) = true) by (vm_compute; reflexivity).
  assert (Hfs : fs_reliable fs_ok) by (repeat split).
  split; [exact Hplain|]. split; [exact Hfs|].
  set (w1 := snd (Renderer.render_to_image render_config env_ok (html request_both)
                    None None None None false false
                    (file_render_start None initial_world))).
  assert (Hrender :
    Renderer.render_to_image render_config env_ok (html request_both) None None None
      None false false (file_render_start None initial_world) = (Ok sample_png, w1))
    by (vm_compute; reflexivity).
  destruct (rendered_file_reaches_store render_config aws_sample env_ok env_ok fs_ok
              (html request_both) None None None None false false "image/png"
              "images" true fs_sample initial_world w1 sample_png Hplain Hfs Hrender)
    as (f1 & Hfile & Hdata & Hup & _).
  cbv zeta in Hfile, Hdata, Hup.
  exists f1, w1. split; [exact Hfile|]. split; [exact Hdata|].
  destruct (S3.upload_bytes aws_sample env_ok sample_png "image/png" "images" "png"
              None true w1) as [[up|e] w2] eqn:Hrun.
  - destruct (Hup up w2 eq_refl) as (f2 & Hrun2 & Hgone & Hkeep).
    exists up, f2, w2. split; [exact Hrun2|]. split; [exact Hgone|].
    apply Hkeep. vm_compute. discriminate.
  - vm_compute in Hrun. discriminate.
Defined.

(** X21 for the standard document: the closing head tag is at offset 28. *)
Lemma compose_with_head_adds_one_style_witness :
  Renderer.is_full_document doc_standard = true /\
  Py.find "</head>" doc_standard = Some 28 /\
  Renderer._build_html_document doc_standard (Some "h1 { color: red; }") =
    "<html><head><title>t</title><style>h1 { color: red; }</style></head><body><h1>Hi</h1></body></html>" /\
  style_blocks (Renderer._build_html_document doc_standard (Some "h1 { color: red; }")) = 1.
Proof.
  assert (Hfull : Renderer.is_full_document doc_standard = true)
    by (vm_compute; reflexivity).
  assert (Hfind : Py.find "</head>" doc_standard = Some 28)
    by (vm_compute; reflexivity).
  split; [exact Hfull|]. split; [exact Hfind|].
  destruct (compose_with_head_adds_one_style doc_standard "h1 { color: red; }" 28
              Hfull ltac:(discriminate) eq_refl Hfind) as (_ & Hdoc & Hcount).
  split.
  - rewrite Hdoc. vm_compute. reflexivity.
  - rewrite Hcount. vm_compute. reflexivity.
Defined.

(** X11 with a bucket that cannot be reached: the answer is "degraded". *)
Lemma health_check_reports_store_witness :
  bucket_name aws_sample <> "" /\
  fst (S3.check_connection aws_sample env_bucket_missing initial_world) <> Ok true /\
  exists resp w',
    Main.health_check aws_sample env_bucket_missing app_sample initial_world =
      (Ok resp, w') /\
    version resp = "1.0.0" /\
    services resp !! "s3" = Some "error" /\ status resp = "degraded".
Proof.
  assert (Hb : bucket_name aws_sample <> "") by discriminate.
  assert (Hc : fst (S3.check_connection aws_sample env_bucket_missing initial_world)
               <> Ok true) by (vm_compute; discriminate).
  split; [exact Hb|]. split; [exact Hc|].
  destruct (health_check_reports_store aws_sample env_bucket_missing app_sample
              initial_world) as (resp & w' & Hrun & Hv & _ & _ & _ & _ & Hset).
  destruct (Hset Hb) as [_ Herr]. destruct (Herr Hc) as [Hs Hst].
  exists resp, w'. split; [exact Hrun|]. split; [exact Hv|].
  split; [exact Hs | exact Hst].
Defined.

(** X17 for a path that does not exist and for the file that is kept. *)
Lemma upload_file_outcomes_witness :
  (exists msg,
     S3.upload_file aws_sample env_ok fs_ok "/srv/none.png" "image/png" "images"
       true true fs_sample initial_world =
       (FRaise (FileNotFoundError msg), fs_sample, initial_world)) /\
  (exists up f' w1,
     S3.upload_file aws_sample env_ok fs_ok "/srv/keep.txt" "text/plain" "notes"
       true true fs_sample initial_world = (FOk up, f', w1) /\
     files f' !! "/srv/keep.txt" = None).
Proof.
  split.
  - destruct (upload_file_outcomes aws_sample env_ok fs_ok "/srv/none.png"
                "image/png" "images" true true fs_sample initial_world)
      as [Hmissing _].
    apply Hmissing. vm_compute. reflexivity.
  - destruct (upload_file_outcomes aws_sample env_ok fs_ok "/srv/keep.txt"
                "text/plain" "notes" true true fs_sample initial_world)
      as [_ Hfile].
    destruct (Hfile (list_byte_of_string "keep") ltac:(vm_compute; reflexivity)
                eq_refl) as (_ & _ & Hdel).
    destruct (S3.upload_bytes aws_sample env_ok (list_byte_of_string "keep")
                "text/plain" "notes" (extension_of "/srv/keep.txt") None true
                initial_world) as [[up|e] w1] eqn:Hup.
    + destruct (Hdel up w1 eq_refl eq_refl eq_refl) as (f' & Hrun & Hgone & _).
      exists up, f', w1. split; [exact Hrun | exact Hgone].
    + vm_compute in Hup. discriminate.
Defined.

(** X22 for a store that denies the removal: the answer is [False]. *)
Lemma delete_object_outcomes_witness :
  client_available env_delete_denied initial_world /\
  exists w',
    S3.delete_object aws_sample env_delete_denied "images/2026/01/26/a.png"
      initial_world = (Ok false, w').
Proof.
  assert (Hc : client_available env_delete_denied initial_world)
    by (right; reflexivity).
  split; [exact Hc|].
  destruct (delete_object_outcomes aws_sample env_delete_denied
              "images/2026/01/26/a.png" initial_world) as [_ Hrun].
  destruct (Hrun Hc) as (c & w1 & pre & _ & _ & _ & _ & Hdenied & _).
  eexists. exact (Hdenied _ _ eq_refl).
Defined.

(** X23 for a bucket that is reached and for one that is not. *)
Lemma check_connection_outcomes_witness :
  client_available env_ok initial_world /\
  (exists w', S3.check_connection aws_sample env_ok initial_world = (Ok true, w')) /\
  (exists w', S3.check_connection aws_sample env_bucket_missing initial_world =
                (Ok false, w')).
Proof.
  assert (Hc : client_available env_ok initial_world) by (right; reflexivity).
  split; [exact Hc|]. split.
  - destruct (check_connection_outcomes aws_sample env_ok initial_world)
      as [Hok _].
    destruct (Hok Hc eq_refl) as (c & w1 & _ & Hrun).
    eexists. exact Hrun.
  - destruct (check_connection_outcomes aws_sample env_bucket_missing initial_world)
      as (_ & _ & _ & Hfail).
    destruct (Hfail bucket_not_found ltac:(right; reflexivity) eq_refl)
      as (c & w1 & _ & Hrun).
    eexists. exact Hrun.
Defined.

(** X1 after a launch: a close that succeeds releases the engine; a close
    whose engine cannot be closed raises and keeps it cached. *)
Lemma close_releases_engine_witness :
  exists b w1,
    Renderer._get_browser env_ok initial_world = (Ok b, w1) /\
    renderer_browser w1 = Some b /\
    (exists w',
       Renderer.close env_ok w1 = (Ok tt, w') /\
       renderer_browser w' = None /\ renderer_playwright w' = None /\
       (b ∉ connected w')) /\
    (exists w',
       Renderer.close env_close_fails w1 = (Raise target_closed, w') /\
       renderer_browser w' = Some b /\ log w' = log w1).
Proof.
  destruct (Renderer._get_browser env_ok initial_world) as [[b|e] w1] eqn:Hrun;
    [|vm_compute in Hrun; discriminate].
  assert (Hb : renderer_browser w1 = Some b).
  { vm_compute in Hrun. injection Hrun as <- <-. reflexivity. }
  exists b, w1. split; [reflexivity|]. split; [exact Hb|]. split.
  - destruct (close_releases_engine env_ok w1) as [Hok _].
    destruct (Hok eq_refl eq_refl) as (w' & Hclose & Hnb & Hnp & Hdis & _).
    exists w'. split; [exact Hclose|]. split; [exact Hnb|].
    split; [exact Hnp | exact (Hdis b Hb)].
  - destruct (close_releases_engine env_close_fails w1) as (_ & _ & Hfail & _).
    eexists. split; [exact (Hfail b target_closed Hb eq_refl)|].
    split; [exact Hb | reflexivity].
Defined.
